(** * The i.MXRT10xx FlexSPI flash driver of Black Magic Debug

    A shallow embedding of [src/target/imxrt.c]: the boot-source
    classifier, the controller state guard, the command sequencer with
    its save/restore of the programmable sequence LUT, the transfer
    primitives, the mass-erase state machine and the probe entry point,
    together with the properties the driver's specification states.

    Conventions.  Every C integer is a [Z]; where the C type narrows or
    wraps, the wrap is written out ([u8], [u32]).  The remote chip is
    reached only through the four [target_mem_*] primitives, which are
    kept abstract in the class [Transport]; every primitive call is
    also recorded in a journal so that the order of bus transactions can
    be stated.  Busy-poll loops take a poll budget; a run is [Done],
    [Spin] (budget exhausted) or [Undef] (a C operation without defined
    behaviour was reached). *)

From Stdlib Require Import ZArith Lia List String Bool.
From stdpp Require Import base list.
Import ListNotations.
Local Open Scope Z_scope.

(** ** Fixed-width integers *)

Definition u8 (z : Z) : Z := z mod 2 ^ 8.
Definition u32 (z : Z) : Z := z mod 2 ^ 32.

(** [~x] on a 32-bit unsigned operand. *)
Definition not32 (x : Z) : Z := Z.lxor x 0xffffffff.

(** [f] holds of every integer below [n]; decides bounded statements
    about bytes by evaluation. *)
Fixpoint all_below (n : nat) (f : Z -> bool) : bool :=
  match n with
  | O => true
  | S k => f (Z.of_nat k) && all_below k f
  end.

(** ** Register map and constants (lines 48-133 of the source) *)

Definition IMXRT_SRC_BASE : Z := 0x400f8000.
Definition IMXRT_SRC_BOOT_MODE1 : Z := IMXRT_SRC_BASE + 0x004.
Definition IMXRT_SRC_BOOT_MODE2 : Z := IMXRT_SRC_BASE + 0x01c.

Definition IMXRT_OCRAM1_BASE : Z := 0x20280000.
Definition IMXRT_OCRAM1_SIZE : Z := 0x00080000.
Definition IMXRT_OCRAM2_BASE : Z := 0x20200000.
Definition IMXRT_OCRAM2_SIZE : Z := 0x00080000.
Definition IMXRT_FLEXSPI_BASE : Z := 0x60000000.

Definition IMXRT_FLEXSPI1_BASE : Z := 0x402a8000.
Definition IMXRT_FLEXSPI1_MOD_CTRL0 : Z := IMXRT_FLEXSPI1_BASE + 0x000.
Definition IMXRT_FLEXSPI1_INT : Z := IMXRT_FLEXSPI1_BASE + 0x014.
Definition IMXRT_FLEXSPI1_LUT_KEY : Z := IMXRT_FLEXSPI1_BASE + 0x018.
Definition IMXRT_FLEXSPI1_LUT_CTRL : Z := IMXRT_FLEXSPI1_BASE + 0x01c.
Definition IMXRT_FLEXSPI1_CTRL1 : Z := IMXRT_FLEXSPI1_BASE + 0x070.
Definition IMXRT_FLEXSPI1_PRG_CTRL0 : Z := IMXRT_FLEXSPI1_BASE + 0x0a0.
Definition IMXRT_FLEXSPI1_PRG_CTRL1 : Z := IMXRT_FLEXSPI1_BASE + 0x0a4.
Definition IMXRT_FLEXSPI1_PRG_CMD : Z := IMXRT_FLEXSPI1_BASE + 0x0b0.
Definition IMXRT_FLEXSPI1_PRG_READ_FIFO_CTRL : Z := IMXRT_FLEXSPI1_BASE + 0x0b8.
Definition IMXRT_FLEXSPI1_PRG_WRITE_FIFO_CTRL : Z := IMXRT_FLEXSPI1_BASE + 0x0bc.
Definition IMXRT_FLEXSPI1_PRG_READ_FIFO : Z := IMXRT_FLEXSPI1_BASE + 0x100.
Definition IMXRT_FLEXSPI1_PRG_WRITE_FIFO : Z := IMXRT_FLEXSPI1_BASE + 0x180.
Definition IMXRT_FLEXSPI1_LUT_BASE : Z := IMXRT_FLEXSPI1_BASE + 0x200.

Definition IMXRT_FLEXSPI1_MOD_CTRL0_SUSPEND : Z := 0x00000002.
Definition IMXRT_FLEXSPI1_INT_PRG_CMD_DONE : Z := 0x00000001.
Definition IMXRT_FLEXSPI1_INT_READ_FIFO_FULL : Z := 0x00000020.
Definition IMXRT_FLEXSPI1_INT_WRITE_FIFO_EMPTY : Z := 0x00000040.
Definition IMXRT_FLEXSPI1_LUT_KEY_VALUE : Z := 0x5af05af0.
Definition IMXRT_FLEXSPI1_LUT_CTRL_LOCK : Z := 0x00000001.
Definition IMXRT_FLEXSPI1_LUT_CTRL_UNLOCK : Z := 0x00000002.
Definition IMXRT_FLEXSPI1_CTRL1_CAS_MASK : Z := 0x00007800.
Definition IMXRT_FLEXSPI1_CTRL1_CAS_SHIFT : Z := 11.
Definition IMXRT_FLEXSPI1_PRG_LENGTH (x : Z) : Z := Z.land x 0x0000ffff.
Definition IMXRT_FLEXSPI1_PRG_LUT_INDEX_0 : Z := 0.
Definition IMXRT_FLEXSPI1_PRG_RUN : Z := 0x00000001.
Definition IMXRT_FLEXSPI1_PRG_FIFO_CTRL_CLR : Z := 0x00000001.
Definition IMXRT_FLEXSPI1_PRG_FIFO_CTRL_WATERMARK (x : Z) : Z :=
  u32 (Z.shiftl (Z.land (u32 (Z.shiftr (u32 (x + 7)) 3 - 1)) 0xf) 2).

Definition IMXRT_FLEXSPI_LUT_OPCODE (x : Z) : Z := Z.shiftl (Z.land x 0x3f) 2.
Definition IMXRT_FLEXSPI_LUT_MODE_SERIAL : Z := 0x0.
Definition IMXRT_FLEXSPI_LUT_MODE_DUAL : Z := 0x1.
Definition IMXRT_FLEXSPI_LUT_MODE_QUAD : Z := 0x2.
Definition IMXRT_FLEXSPI_LUT_MODE_OCT : Z := 0x3.

Definition IMXRT_FLEXSPI_LUT_OP_STOP : Z := 0x00.
Definition IMXRT_FLEXSPI_LUT_OP_COMMAND : Z := 0x01.
Definition IMXRT_FLEXSPI_LUT_OP_CADDR : Z := 0x03.
Definition IMXRT_FLEXSPI_LUT_OP_RADDR : Z := 0x02.
Definition IMXRT_FLEXSPI_LUT_OP_DUMMY_CYCLES : Z := 0x0c.
Definition IMXRT_FLEXSPI_LUT_OP_READ : Z := 0x09.
Definition IMXRT_FLEXSPI_LUT_OP_WRITE : Z := 0x08.

Definition IMXRT_SPI_FLASH_OPCODE_MASK : Z := 0x000000ff.
Definition IMXRT_SPI_FLASH_OPCODE (x : Z) : Z := Z.land x IMXRT_SPI_FLASH_OPCODE_MASK.
Definition IMXRT_SPI_FLASH_DUMMY_MASK : Z := 0x0000ff00.
Definition IMXRT_SPI_FLASH_DUMMY_SHIFT : Z := 8.
Definition IMXRT_SPI_FLASH_DUMMY_LEN (x : Z) : Z :=
  Z.land (u32 (Z.shiftl x IMXRT_SPI_FLASH_DUMMY_SHIFT)) IMXRT_SPI_FLASH_DUMMY_MASK.
Definition IMXRT_SPI_FLASH_OPCODE_MODE_MASK : Z := 0x00010000.
Definition IMXRT_SPI_FLASH_OPCODE_ONLY : Z := Z.shiftl 0 16.
Definition IMXRT_SPI_FLASH_OPCODE_3B_ADDR : Z := Z.shiftl 1 16.
Definition IMXRT_SPI_FLASH_DATA_IN : Z := Z.shiftl 0 17.
Definition IMXRT_SPI_FLASH_DATA_OUT : Z := Z.shiftl 1 17.

Definition SPI_FLASH_OPCODE_SECTOR_ERASE : Z := 0x20.
Definition SPI_FLASH_CMD_WRITE_ENABLE : Z :=
  Z.lor (Z.lor IMXRT_SPI_FLASH_OPCODE_ONLY (IMXRT_SPI_FLASH_DUMMY_LEN 0))
    (IMXRT_SPI_FLASH_OPCODE 0x06).
Definition SPI_FLASH_CMD_CHIP_ERASE : Z :=
  Z.lor (Z.lor IMXRT_SPI_FLASH_OPCODE_ONLY (IMXRT_SPI_FLASH_DUMMY_LEN 0))
    (IMXRT_SPI_FLASH_OPCODE 0x60).
Definition SPI_FLASH_CMD_READ_STATUS : Z :=
  Z.lor (Z.lor (Z.lor IMXRT_SPI_FLASH_OPCODE_ONLY IMXRT_SPI_FLASH_DATA_IN)
           (IMXRT_SPI_FLASH_DUMMY_LEN 0))
    (IMXRT_SPI_FLASH_OPCODE 0x05).
Definition SPI_FLASH_CMD_READ_JEDEC_ID : Z :=
  Z.lor (Z.lor (Z.lor IMXRT_SPI_FLASH_OPCODE_ONLY IMXRT_SPI_FLASH_DATA_IN)
           (IMXRT_SPI_FLASH_DUMMY_LEN 0))
    (IMXRT_SPI_FLASH_OPCODE 0x9f).
Definition SPI_FLASH_CMD_READ_SFDP : Z :=
  Z.lor (Z.lor (Z.lor IMXRT_SPI_FLASH_OPCODE_3B_ADDR IMXRT_SPI_FLASH_DATA_IN)
           (IMXRT_SPI_FLASH_DUMMY_LEN 8))
    (IMXRT_SPI_FLASH_OPCODE 0x5a).

Definition SPI_FLASH_STATUS_BUSY : Z := 0x01.
Definition SPI_FLASH_STATUS_WRITE_ENABLED : Z := 0x02.

(** ** Data model (lines 135-154) *)

Inductive imxrt_boot_src_e : Set :=
  | boot_spi_flash_nor
  | boot_sd_card
  | boot_emmc
  | boot_slc_nand
  | boot_parallel_nor
  | boot_spi_flash_nand.

Definition imxrt_boot_src_eqb (a b : imxrt_boot_src_e) : bool :=
  match a, b with
  | boot_spi_flash_nor, boot_spi_flash_nor
  | boot_sd_card, boot_sd_card
  | boot_emmc, boot_emmc
  | boot_slc_nand, boot_slc_nand
  | boot_parallel_nor, boot_parallel_nor
  | boot_spi_flash_nand, boot_spi_flash_nand => true
  | _, _ => false
  end.

(** One slot of the programmable sequence LUT: two bytes, operand first. *)
Record imxrt_flexspi_lut_insn_s : Set := mk_insn {
  value : Z;
  opcode_mode : Z
}.

(** The value of a zero-initialised slot: the implicit STOP instruction. *)
Definition lut_stop : imxrt_flexspi_lut_insn_s := mk_insn 0 0.

Record imxrt_priv_s : Set := mk_priv {
  boot_source : imxrt_boot_src_e;
  flexspi_module_state : Z;
  flexspi_lut_state : Z;
  flexspi_lut_seq : list imxrt_flexspi_lut_insn_s
}.

(** What [calloc] hands out: every field zero. *)
Definition priv_zero : imxrt_priv_s :=
  mk_priv boot_spi_flash_nor 0 0 (replicate 8 lut_stop).

(** ** Boot source classifier (lines 269-289) *)

Definition imxrt_boot_source (boot_cfg : Z) : imxrt_boot_src_e :=
  let boot_src := u8 (Z.land boot_cfg 0xf0) in
  if boot_src =? 0x00 then boot_spi_flash_nor
  else if Z.land boot_src 0xc0 =? 0x40 then boot_sd_card
  else if Z.land boot_src 0xc0 =? 0x80 then boot_emmc
  else if Z.land boot_src 0xe0 =? 0x20 then boot_slc_nand
  else if boot_src =? 0x10 then boot_parallel_nor
  else boot_spi_flash_nand.

(** The classification table as the specification words it, on the value
    already masked to bits [7:4]; first match wins. *)
Definition classify_spec (masked : Z) : imxrt_boot_src_e :=
  if masked =? 0x00 then boot_spi_flash_nor
  else if Z.land masked 0xc0 =? 0x40 then boot_sd_card
  else if Z.land masked 0xc0 =? 0x80 then boot_emmc
  else if Z.land masked 0xe0 =? 0x20 then boot_slc_nand
  else if masked =? 0x10 then boot_parallel_nor
  else boot_spi_flash_nand.

(** The same table read off the upper nibble of the low byte. *)
Definition boot_source_of_nibble (n : Z) : imxrt_boot_src_e :=
  nth (Z.to_nat n)
    [ boot_spi_flash_nor; boot_parallel_nor; boot_slc_nand; boot_slc_nand;
      boot_sd_card; boot_sd_card; boot_sd_card; boot_sd_card;
      boot_emmc; boot_emmc; boot_emmc; boot_emmc;
      boot_spi_flash_nand; boot_spi_flash_nand; boot_spi_flash_nand;
      boot_spi_flash_nand ]
    boot_spi_flash_nand.

(** ** The debug transport and the attached target *)

(** The raw memory primitives of the debug transport, seen from the
    device's side: each access may change the state of the remote chip
    (a controller reacting to a register write, a FIFO draining).  The
    driver assumes nothing else about them. *)
Class Transport (dev : Type) : Type := {
  dev_read32 : Z -> dev -> Z * dev;
  dev_write32 : Z -> Z -> dev -> dev;
  dev_read : Z -> nat -> dev -> list Z * dev;
  dev_write : Z -> list Z -> dev -> dev
}.

(** One bus transaction, with the value that travelled. *)
Inductive bus_op : Type :=
  | Rd32 (addr val : Z)
  | Wr32 (addr val : Z)
  | RdBlk (addr : Z) (data : list Z)
  | WrBlk (addr : Z) (data : list Z).

Inductive hook_fn : Set :=
  | fn_imxrt_spi_mass_erase
  | fn_imxrt_enter_flash_mode
  | fn_imxrt_exit_flash_mode.

Record target_ram_s : Set := mk_ram {
  ram_start : Z;
  ram_length : Z
}.

Record target_flash_s : Set := mk_flash {
  flash_start : Z;
  flash_length : Z;
  flash_blocksize : Z;
  flash_erased : Z
}.

(** The fields of [spi_parameters_s] the driver assigns (line 180-183). *)
Record spi_parameters_s : Set := mk_spi_parameters {
  page_size : Z;
  sector_size : Z;
  capacity : Z;
  sector_erase_opcode : Z
}.

(** Modelled from the spec: the declaration of [spi_flash_id_s] is not in
    the source file; the JEDEC ID response is three bytes, byte 0 the
    manufacturer, byte 1 the type, byte 2 the capacity exponent. *)
Record spi_flash_id_s : Set := mk_flash_id {
  id_manufacturer : Z;
  id_type : Z;
  id_capacity : Z
}.

Definition flash_id_of_bytes (bs : list Z) : spi_flash_id_s :=
  mk_flash_id (nth 0 bs 0) (nth 1 bs 0) (nth 2 bs 0).

(** The attached target handle: the fields of [target_s] the driver
    touches, the remote chip behind the transport, the journal of bus
    transactions, the number of allocations the host heap can still
    satisfy, and the number of progress ticks printed. *)
Record target_s (dev : Type) : Type := mk_target {
  part_id : Z;
  target_storage : option imxrt_priv_s;
  target_options : Z;
  driver : string;
  ram : list target_ram_s;
  flash : list target_flash_s;
  mass_erase : option hook_fn;
  enter_flash_mode : option hook_fn;
  exit_flash_mode : option hook_fn;
  heap : nat;
  progress : nat;
  link : dev;
  journal : list bus_op
}.

Arguments mk_target {dev}.
Arguments part_id {dev}.
Arguments target_storage {dev}.
Arguments target_options {dev}.
Arguments driver {dev}.
Arguments ram {dev}.
Arguments flash {dev}.
Arguments mass_erase {dev}.
Arguments enter_flash_mode {dev}.
Arguments exit_flash_mode {dev}.
Arguments heap {dev}.
Arguments progress {dev}.
Arguments link {dev}.
Arguments journal {dev}.

(** How a run of driver code ends. *)
Inductive outcome (A : Type) : Type :=
  | Done (a : A)
  | Spin
  | Undef.

Arguments Done {A}.
Arguments Spin {A}.
Arguments Undef {A}.

(** Driver code: a function of the target handle. *)
Definition M (dev A : Type) : Type := target_s dev -> outcome (A * target_s dev).

Definition ret {dev A} (a : A) : M dev A := fun t => Done (a, t).

Definition bind {dev A B} (m : M dev A) (k : A -> M dev B) : M dev B :=
  fun t =>
    match m t with
    | Done (a, t') => k a t'
    | Spin => Spin
    | Undef => Undef
    end.

Definition undefined {dev A} : M dev A := fun _ => Undef.
Definition spin {dev A} : M dev A := fun _ => Spin.

Declare Scope drv_scope.
Delimit Scope drv_scope with drv.
Notation "'let!' x ':=' m 'in' k" := (bind m (fun x => k))
  (at level 10, x name, m at level 100, k at level 200) : drv_scope.
Notation "'do!' m 'in' k" := (bind m (fun _ => k))
  (at level 10, m at level 100, k at level 200) : drv_scope.
Local Open Scope drv_scope.

Section Driver.
Context {dev : Type} {T : Transport dev}.

(** *** Field updates of the target handle *)

Definition with_link (d : dev) (op : bus_op) (t : target_s dev) : target_s dev :=
  mk_target (part_id t) (target_storage t) (target_options t) (driver t)
    (ram t) (flash t) (mass_erase t) (enter_flash_mode t) (exit_flash_mode t)
    (heap t) (progress t) d (journal t ++ [op]).

Definition with_storage (s : option imxrt_priv_s) (t : target_s dev) : target_s dev :=
  mk_target (part_id t) s (target_options t) (driver t)
    (ram t) (flash t) (mass_erase t) (enter_flash_mode t) (exit_flash_mode t)
    (heap t) (progress t) (link t) (journal t).

Definition with_identity (opts : Z) (name : string) (t : target_s dev) : target_s dev :=
  mk_target (part_id t) (target_storage t) opts name
    (ram t) (flash t) (mass_erase t) (enter_flash_mode t) (exit_flash_mode t)
    (heap t) (progress t) (link t) (journal t).

Definition with_ram (r : list target_ram_s) (t : target_s dev) : target_s dev :=
  mk_target (part_id t) (target_storage t) (target_options t) (driver t)
    r (flash t) (mass_erase t) (enter_flash_mode t) (exit_flash_mode t)
    (heap t) (progress t) (link t) (journal t).

Definition with_flash (f : list target_flash_s) (t : target_s dev) : target_s dev :=
  mk_target (part_id t) (target_storage t) (target_options t) (driver t)
    (ram t) f (mass_erase t) (enter_flash_mode t) (exit_flash_mode t)
    (heap t) (progress t) (link t) (journal t).

Definition with_hooks (me en ex : option hook_fn) (t : target_s dev) : target_s dev :=
  mk_target (part_id t) (target_storage t) (target_options t) (driver t)
    (ram t) (flash t) me en ex
    (heap t) (progress t) (link t) (journal t).

Definition with_heap (h : nat) (t : target_s dev) : target_s dev :=
  mk_target (part_id t) (target_storage t) (target_options t) (driver t)
    (ram t) (flash t) (mass_erase t) (enter_flash_mode t) (exit_flash_mode t)
    h (progress t) (link t) (journal t).

Definition with_progress (p : nat) (t : target_s dev) : target_s dev :=
  mk_target (part_id t) (target_storage t) (target_options t) (driver t)
    (ram t) (flash t) (mass_erase t) (enter_flash_mode t) (exit_flash_mode t)
    (heap t) p (link t) (journal t).

(** *** The four transport primitives, as the driver calls them

    The C prototypes fix the shapes: a 32-bit read returns a
    [uint32_t], a 32-bit write takes one, a block read fills exactly
    [len] bytes. *)

Definition target_mem_read32 (addr : Z) : M dev Z :=
  fun t =>
    let answer := dev_read32 addr (link t) in
    let v := u32 answer.1 in
    Done (v, with_link answer.2 (Rd32 addr v) t).

Definition target_mem_write32 (addr val : Z) : M dev unit :=
  fun t =>
    Done (tt, with_link (dev_write32 addr (u32 val) (link t)) (Wr32 addr (u32 val)) t).

Definition target_mem_read (src : Z) (len : nat) : M dev (list Z) :=
  fun t =>
    let answer := dev_read src len (link t) in
    let data := map u8 (resize len 0 answer.1) in
    Done (data, with_link answer.2 (RdBlk src data) t).

Definition target_mem_write (dest : Z) (data : list Z) : M dev unit :=
  fun t => Done (tt, with_link (dev_write dest data (link t)) (WrBlk dest data) t).

(** *** The private driver state behind [target->target_storage] *)

Definition get_priv : M dev imxrt_priv_s :=
  fun t =>
    match target_storage t with
    | Some priv => Done (priv, t)
    | None => Undef
    end.

Definition modify_priv (f : imxrt_priv_s -> imxrt_priv_s) : M dev unit :=
  fun t =>
    match target_storage t with
    | Some priv => Done (tt, with_storage (Some (f priv)) t)
    | None => Undef
    end.

Definition set_flexspi_module_state (v : Z) (p : imxrt_priv_s) : imxrt_priv_s :=
  mk_priv (boot_source p) v (flexspi_lut_state p) (flexspi_lut_seq p).
Definition set_flexspi_lut_state (v : Z) (p : imxrt_priv_s) : imxrt_priv_s :=
  mk_priv (boot_source p) (flexspi_module_state p) v (flexspi_lut_seq p).
Definition set_flexspi_lut_seq (s : list imxrt_flexspi_lut_insn_s) (p : imxrt_priv_s)
  : imxrt_priv_s :=
  mk_priv (boot_source p) (flexspi_module_state p) (flexspi_lut_state p) s.
Definition set_boot_source (b : imxrt_boot_src_e) (p : imxrt_priv_s) : imxrt_priv_s :=
  mk_priv b (flexspi_module_state p) (flexspi_lut_state p) (flexspi_lut_seq p).

(** *** Memory layout of the sequence LUT: 8 slots of 2 bytes *)

Definition lut_bytes (seq : list imxrt_flexspi_lut_insn_s) : list Z :=
  flat_map (fun i => [value i; opcode_mode i]) seq.

Fixpoint lut_of_bytes (bs : list Z) : list imxrt_flexspi_lut_insn_s :=
  match bs with
  | v :: om :: rest => mk_insn v om :: lut_of_bytes rest
  | _ => []
  end.

(** *** Controller state guard (lines 291-326) *)

Definition imxrt_enter_flash_mode : M dev bool :=
  (* Start by checking that the controller isn't suspended *)
  let! v := target_mem_read32 IMXRT_FLEXSPI1_MOD_CTRL0 in
  do! modify_priv (set_flexspi_module_state v) in
  let! priv := get_priv in
  do! (if Z.land (flexspi_module_state priv) IMXRT_FLEXSPI1_MOD_CTRL0_SUSPEND =? 0
       then ret tt
       else target_mem_write32 IMXRT_FLEXSPI1_MOD_CTRL0
              (Z.land (flexspi_module_state priv)
                 (not32 IMXRT_FLEXSPI1_MOD_CTRL0_SUSPEND))) in
  (* Clear all outstanding interrupts so we can consume their status cleanly *)
  let! pending := target_mem_read32 IMXRT_FLEXSPI1_INT in
  do! target_mem_write32 IMXRT_FLEXSPI1_INT pending in
  (* Tell the controller we want to use the entire read FIFO *)
  do! target_mem_write32 IMXRT_FLEXSPI1_PRG_READ_FIFO_CTRL
        (Z.lor (IMXRT_FLEXSPI1_PRG_FIFO_CTRL_WATERMARK 128)
           IMXRT_FLEXSPI1_PRG_FIFO_CTRL_CLR) in
  (* Tell the controller we want to use the entire write FIFO *)
  do! target_mem_write32 IMXRT_FLEXSPI1_PRG_WRITE_FIFO_CTRL
        (Z.lor (IMXRT_FLEXSPI1_PRG_FIFO_CTRL_WATERMARK 128)
           IMXRT_FLEXSPI1_PRG_FIFO_CTRL_CLR) in
  (* Then unlock the sequence LUT so we can use it to run Flash commands *)
  let! l := target_mem_read32 IMXRT_FLEXSPI1_LUT_CTRL in
  do! modify_priv (set_flexspi_lut_state l) in
  let! priv := get_priv in
  do! (if flexspi_lut_state priv =? IMXRT_FLEXSPI1_LUT_CTRL_UNLOCK
       then ret tt
       else
         do! target_mem_write32 IMXRT_FLEXSPI1_LUT_KEY IMXRT_FLEXSPI1_LUT_KEY_VALUE in
         target_mem_write32 IMXRT_FLEXSPI1_LUT_CTRL IMXRT_FLEXSPI1_LUT_CTRL_UNLOCK) in
  ret true.

Definition imxrt_exit_flash_mode : M dev bool :=
  let! priv := get_priv in
  (* To leave Flash mode, we do things in the opposite order to entering. *)
  do! (if flexspi_lut_state priv =? IMXRT_FLEXSPI1_LUT_CTRL_UNLOCK
       then ret tt
       else
         do! target_mem_write32 IMXRT_FLEXSPI1_LUT_KEY IMXRT_FLEXSPI1_LUT_KEY_VALUE in
         target_mem_write32 IMXRT_FLEXSPI1_LUT_CTRL (flexspi_lut_state priv)) in
  do! target_mem_write32 IMXRT_FLEXSPI1_MOD_CTRL0 (flexspi_module_state priv) in
  ret true.

(** *** Command sequencer (lines 328-396) *)

(** [sequence[i].opcode_mode = x] and [sequence[i].value = x] on the
    local 8-slot array; both fields are [uint8_t].  A store past the
    end of the array has no defined behaviour. *)
Definition store_opcode_mode (i : nat) (x : Z) (sequence : list imxrt_flexspi_lut_insn_s)
  : M dev (list imxrt_flexspi_lut_insn_s) :=
  match sequence !! i with
  | Some insn => ret (<[i := mk_insn (value insn) (u8 x)]> sequence)
  | None => undefined
  end.

Definition store_value (i : nat) (x : Z) (sequence : list imxrt_flexspi_lut_insn_s)
  : M dev (list imxrt_flexspi_lut_insn_s) :=
  match sequence !! i with
  | Some insn => ret (<[i := mk_insn (u8 x) (opcode_mode insn)]> sequence)
  | None => undefined
  end.

(** Lines 336-367: the local array [sequence] and the write index
    [offset] once the new slot 0 sequence has been built. *)
Definition imxrt_spi_build_sequence (command length : Z)
  : M dev (list imxrt_flexspi_lut_insn_s * nat) :=
  let sequence := replicate 8 lut_stop in
  (* Start by writing the command opcode to the Flash *)
  let! sequence :=
    store_opcode_mode 0
      (Z.lor (IMXRT_FLEXSPI_LUT_OPCODE IMXRT_FLEXSPI_LUT_OP_COMMAND)
         IMXRT_FLEXSPI_LUT_MODE_SERIAL) sequence in
  let! sequence := store_value 0 (Z.land command IMXRT_SPI_FLASH_OPCODE_MASK) sequence in
  let offset := 1%nat in
  (* Then, if the command has an address, perform the necessary addressing *)
  let! addressed :=
    (if Z.land command IMXRT_SPI_FLASH_OPCODE_MODE_MASK =? IMXRT_SPI_FLASH_OPCODE_3B_ADDR
     then
       let! ctrl1 := target_mem_read32 IMXRT_FLEXSPI1_CTRL1 in
       let column_address_bits :=
         u8 (Z.shiftr (Z.land ctrl1 IMXRT_FLEXSPI1_CTRL1_CAS_MASK)
               IMXRT_FLEXSPI1_CTRL1_CAS_SHIFT) in
       let! sequence :=
         store_opcode_mode offset
           (Z.lor (IMXRT_FLEXSPI_LUT_OPCODE IMXRT_FLEXSPI_LUT_OP_RADDR)
              IMXRT_FLEXSPI_LUT_MODE_SERIAL) sequence in
       let! sequence := store_value offset (u32 (24 - column_address_bits)) sequence in
       let offset := S offset in
       if column_address_bits =? 0
       then ret (sequence, offset)
       else
         let! sequence :=
           store_opcode_mode offset
             (Z.lor (IMXRT_FLEXSPI_LUT_OPCODE IMXRT_FLEXSPI_LUT_OP_CADDR)
                IMXRT_FLEXSPI_LUT_MODE_SERIAL) sequence in
         let! sequence := store_value offset column_address_bits sequence in
         ret (sequence, S offset)
     else ret (sequence, offset)) in
  let sequence := addressed.1 in
  let offset := addressed.2 in
  let! sequence :=
    store_opcode_mode offset
      (Z.lor (IMXRT_FLEXSPI_LUT_OPCODE IMXRT_FLEXSPI_LUT_OP_DUMMY_CYCLES)
         IMXRT_FLEXSPI_LUT_MODE_SERIAL) sequence in
  let! sequence :=
    store_value offset
      (Z.shiftr (Z.land command IMXRT_SPI_FLASH_DUMMY_MASK) IMXRT_SPI_FLASH_DUMMY_SHIFT)
      sequence in
  let offset := S offset in
  (* Now run the data phase based on the operation's data direction *)
  if length =? 0
  then ret (sequence, offset)
  else
    let! sequence :=
      (if Z.land command IMXRT_SPI_FLASH_DATA_OUT =? 0
       then
         store_opcode_mode offset
           (Z.lor (IMXRT_FLEXSPI_LUT_OPCODE IMXRT_FLEXSPI_LUT_OP_READ)
              IMXRT_FLEXSPI_LUT_MODE_SERIAL) sequence
       else
         store_opcode_mode offset
           (Z.lor (IMXRT_FLEXSPI_LUT_OPCODE IMXRT_FLEXSPI_LUT_OP_WRITE)
              IMXRT_FLEXSPI_LUT_MODE_SERIAL) sequence) in
    let! sequence := store_value offset 0 sequence in
    ret (sequence, S offset).

Definition imxrt_spi_configure_sequence (command address length : Z) : M dev unit :=
  (* Read the current value of the LUT index to use *)
  let! saved := target_mem_read IMXRT_FLEXSPI1_LUT_BASE 16 in
  do! modify_priv (set_flexspi_lut_seq (lut_of_bytes saved)) in
  (* Build a new slot 0 sequence to run *)
  let! built := imxrt_spi_build_sequence command length in
  let sequence := built.1 in
  (* Write the new sequence to the programmable sequence LUT *)
  do! target_mem_write IMXRT_FLEXSPI1_LUT_BASE (lut_bytes sequence) in
  (* Write the address, if any, to the sequence address register *)
  do! (if Z.land command IMXRT_SPI_FLASH_OPCODE_MODE_MASK =? IMXRT_SPI_FLASH_OPCODE_3B_ADDR
       then target_mem_write32 IMXRT_FLEXSPI1_PRG_CTRL0 address
       else ret tt) in
  (* Write the command data length and sequence index *)
  target_mem_write32 IMXRT_FLEXSPI1_PRG_CTRL1
    (Z.lor IMXRT_FLEXSPI1_PRG_LUT_INDEX_0 (IMXRT_FLEXSPI1_PRG_LENGTH length)).

Definition imxrt_spi_restore : M dev unit :=
  let! priv := get_priv in
  (* Write the original LUT contents back so as not to perturb the firmware *)
  target_mem_write IMXRT_FLEXSPI1_LUT_BASE (lut_bytes (flexspi_lut_seq priv)).

(** The [while] of line 392, with a budget of polls. *)
Fixpoint poll_cmd_done (budget : nat) : M dev unit :=
  match budget with
  | O => spin
  | S budget' =>
      let! status := target_mem_read32 IMXRT_FLEXSPI1_INT in
      if Z.land status IMXRT_FLEXSPI1_INT_PRG_CMD_DONE =? 0
      then poll_cmd_done budget'
      else ret tt
  end.

Definition imxrt_spi_wait_complete (budget : nat) : M dev unit :=
  (* Set the sequence running *)
  do! target_mem_write32 IMXRT_FLEXSPI1_PRG_CMD IMXRT_FLEXSPI1_PRG_RUN in
  (* Wait till it finishes *)
  do! poll_cmd_done budget in
  (* Then clear the interrupt bit it sets. *)
  target_mem_write32 IMXRT_FLEXSPI1_INT IMXRT_FLEXSPI1_INT_PRG_CMD_DONE.

(** *** Transfer primitives (lines 398-441) *)

(** [memcpy(buffer, data, length)] out of the 128-byte scratch array:
    reading past its end has no defined behaviour. *)
Definition memcpy_out (data : list Z) (length : Z) : M dev (list Z) :=
  if length <=? Z.of_nat (List.length data)
  then ret (take (Z.to_nat length) data)
  else undefined.

(** [memcpy(data, buffer, length)] into the zeroed 128-byte scratch
    array: writing past its end, or reading past the end of the
    caller's buffer, has no defined behaviour. *)
Definition memcpy_in (data buffer : list Z) (length : Z) : M dev (list Z) :=
  if (length <=? Z.of_nat (List.length data)) && (length <=? Z.of_nat (List.length buffer))
  then ret (take (Z.to_nat length) buffer ++ drop (Z.to_nat length) data)
  else undefined.

Definition imxrt_spi_read (budget : nat) (command address length : Z) : M dev (list Z) :=
  (* Configure the programmable sequence LUT and execute the read *)
  do! imxrt_spi_configure_sequence command address length in
  do! imxrt_spi_wait_complete budget in
  (* Transfer the resulting data into the target buffer *)
  let! data := target_mem_read IMXRT_FLEXSPI1_PRG_READ_FIFO 128 in
  let! buffer := memcpy_out data length in
  do! target_mem_write32 IMXRT_FLEXSPI1_INT IMXRT_FLEXSPI1_INT_READ_FIFO_FULL in
  (* And restore the sequence LUT when we're done *)
  do! imxrt_spi_restore in
  ret buffer.

Definition imxrt_spi_write (budget : nat) (command address : Z) (buffer : list Z)
    (length : Z) : M dev unit :=
  (* Configure the programmable sequence LUT *)
  do! imxrt_spi_configure_sequence command address length in
  (* Transfer the data into the transmit FIFO ready *)
  do! (if length =? 0
       then ret tt
       else
         let! data := memcpy_in (replicate 128 0) buffer length in
         do! target_mem_write IMXRT_FLEXSPI1_PRG_WRITE_FIFO
               (take (Z.to_nat (Z.land (length + 3) (not32 3))) data) in
         (* Tell the controller we've filled the write FIFO *)
         target_mem_write32 IMXRT_FLEXSPI1_INT IMXRT_FLEXSPI1_INT_WRITE_FIFO_EMPTY) in
  (* Execute the write and restore the sequence LUT when we're done *)
  do! imxrt_spi_wait_complete budget in
  imxrt_spi_restore.

Definition imxrt_spi_read_sfdp (budget : nat) (address length : Z) : M dev (list Z) :=
  imxrt_spi_read budget SPI_FLASH_CMD_READ_SFDP address length.

Definition imxrt_spi_read_status (budget : nat) : M dev Z :=
  let! buffer := imxrt_spi_read budget SPI_FLASH_CMD_READ_STATUS 0 1 in
  ret (nth 0 buffer 0).

Definition imxrt_spi_run_command (budget : nat) (command : Z) : M dev unit :=
  imxrt_spi_write budget command 0 [] 0.

(** *** Mass erase (lines 443-459) *)

(** [target_print_progress(&timeout)]: host-side display only. *)
Definition target_print_progress : M dev unit :=
  fun t => Done (tt, with_progress (S (progress t)) t).

(** The [while] of line 455, with a budget of status reads; each
    status read polls for command completion within [budget] too. *)
Fixpoint poll_erase_busy (budget polls : nat) : M dev unit :=
  match polls with
  | O => spin
  | S polls' =>
      let! status := imxrt_spi_read_status budget in
      if Z.land status SPI_FLASH_STATUS_BUSY =? 0
      then ret tt
      else
        do! target_print_progress in
        poll_erase_busy budget polls'
  end.

Definition imxrt_spi_mass_erase (budget : nat) : M dev bool :=
  do! imxrt_enter_flash_mode in
  do! imxrt_spi_run_command budget SPI_FLASH_CMD_WRITE_ENABLE in
  let! status := imxrt_spi_read_status budget in
  if Z.land status SPI_FLASH_STATUS_WRITE_ENABLED =? 0
  then
    do! imxrt_exit_flash_mode in
    ret false
  else
    do! imxrt_spi_run_command budget SPI_FLASH_CMD_CHIP_ERASE in
    do! poll_erase_busy budget budget in
    imxrt_exit_flash_mode.

End Driver.

(** ** Flash registration and probe (lines 164-267) *)

(** The collaborators of the host framework the probe path calls and the
    build-time constants it uses, none of which this file defines:
    the SFDP decoder (driven through a read callback taking an address
    and a byte count), the reset-inhibit option bit of [cortexm.h], and
    whether the build carries debug output. *)
Class Framework (dev : Type) : Type := {
  sfdp_read_parameters : (Z -> Z -> M dev (list Z)) -> M dev (option spi_parameters_s);
  CORTEXM_TOPT_INHIBIT_NRST : Z;
  ENABLE_DEBUG : bool
}.

Section Probe.
Context {dev : Type} {T : Transport dev} {F : Framework dev}.

(** [calloc(1, size)]: succeeds while the heap budget lasts. *)
Definition calloc : M dev bool :=
  fun t =>
    match heap t with
    | O => Done (false, t)
    | S h => Done (true, with_heap h t)
    end.

(** Modelled from the spec: the RAM-region and flash-region registrars
    of the host framework are not in the source file; they take the
    region over into the target's region lists. *)
Definition target_add_ram (start len : Z) : M dev unit :=
  fun t => Done (tt, with_ram (ram t ++ [mk_ram start len]) t).

Definition target_add_flash (f : target_flash_s) : M dev unit :=
  fun t => Done (tt, with_flash (flash t ++ [f]) t).

(** Lines 177-184: [spi_parameters] after the discovery attempt, given
    what the SFDP decoder reported. *)
Definition imxrt_flash_geometry (discovered : option spi_parameters_s) (length : Z)
  : spi_parameters_s :=
  match discovered with
  | Some spi_parameters => spi_parameters
  | None =>
      (* SFDP readout failed, so make some assumptions and hope for the best. *)
      mk_spi_parameters 256 4096 length SPI_FLASH_OPCODE_SECTOR_ERASE
  end.

Definition imxrt_add_flash (budget : nat) (length : Z) : M dev unit :=
  let! allocated := calloc in
  if negb allocated
  then ret tt
  else
    let! discovered := sfdp_read_parameters (imxrt_spi_read_sfdp budget) in
    let spi_parameters := imxrt_flash_geometry discovered length in
    target_add_flash
      (mk_flash IMXRT_FLEXSPI_BASE (capacity spi_parameters)
         (sector_size spi_parameters) 0xff).

(** [1U << n] on a 32-bit unsigned: defined only for [n < 32]. *)
Definition shl1_u32 (n : Z) : M dev Z :=
  if n <? 32 then ret (u32 (Z.shiftl 1 n)) else undefined.

Definition serial_flash_boot (b : imxrt_boot_src_e) : bool :=
  imxrt_boot_src_eqb b boot_spi_flash_nor || imxrt_boot_src_eqb b boot_spi_flash_nand.

(** Line 255: the JEDEC ID read back is taken as valid. *)
Definition flash_id_valid (flash_id : spi_flash_id_s) : bool :=
  negb (id_manufacturer flash_id =? 0xff)
  && negb (id_type flash_id =? 0xff)
  && negb (id_capacity flash_id =? 0xff).

Definition install_hooks : M dev unit :=
  fun t =>
    Done (tt, with_hooks (Some fn_imxrt_spi_mass_erase)
                (Some fn_imxrt_enter_flash_mode)
                (Some fn_imxrt_exit_flash_mode) t).

(** Lines 245-263: the body of the branch taken when the part boots
    from serial NOR or serial NAND flash. *)
Definition imxrt_probe_flash (budget : nat) : M dev unit :=
  (* Try to detect the Flash that should be attached *)
  do! imxrt_enter_flash_mode in
  let! id_bytes := imxrt_spi_read budget SPI_FLASH_CMD_READ_JEDEC_ID 0 3 in
  let flash_id := flash_id_of_bytes id_bytes in
  do! install_hooks in
  (* If we read out valid Flash information, set up a region for it *)
  do! (if flash_id_valid flash_id
       then
         let! capacity := shl1_u32 (id_capacity flash_id) in
         imxrt_add_flash budget capacity
       else ret tt) in
  do! imxrt_exit_flash_mode in
  ret tt.

Definition imxrt_probe (budget : nat) : M dev bool :=
  fun t =>
    (* If the part number fails to match, instantly return. *)
    if negb (part_id t =? 0x88c)
    then Done (false, t)
    else
      (let! allocated := calloc in
       if negb allocated
       then ret false
       else
         do! (fun t => Done (tt, with_storage (Some priv_zero) t)) in
         do! (fun t =>
                Done (tt, with_identity
                            (Z.lor (target_options t) CORTEXM_TOPT_INHIBIT_NRST)
                            "i.MXRT10xx"%string t)) in
         do! (if ENABLE_DEBUG
              then
                let! boot_mode := target_mem_read32 IMXRT_SRC_BOOT_MODE2 in
                ret tt
              else ret tt) in
         let! boot_cfg := target_mem_read32 IMXRT_SRC_BOOT_MODE1 in
         do! modify_priv (set_boot_source (imxrt_boot_source boot_cfg)) in
         (* Build the RAM map for the part *)
         do! target_add_ram IMXRT_OCRAM1_BASE IMXRT_OCRAM1_SIZE in
         do! target_add_ram IMXRT_OCRAM2_BASE IMXRT_OCRAM2_SIZE in
         let! priv := get_priv in
         do! (if serial_flash_boot (boot_source priv)
              then imxrt_probe_flash budget
              else ret tt) in
         ret true) t.

End Probe.

(** ** The sequencer's program, as the specification words it *)

Inductive addressing_e : Set := AddrNone | ThreeByteAddress.
Inductive direction_e : Set := DirIn | DirOut.

Record flash_command : Set := mk_flash_command {
  fc_opcode : Z;
  fc_dummy : Z;
  fc_addressing : addressing_e;
  fc_direction : direction_e
}.

(** The descriptor carried by a 32-bit command word: bits [7:0] opcode,
    bits [15:8] dummy cycles, bit 16 addressing, bit 17 direction. *)
Definition descriptor_of (command : Z) : flash_command :=
  mk_flash_command
    (Z.land command 0xff)
    (Z.land (Z.shiftr command 8) 0xff)
    (if Z.testbit command 16 then ThreeByteAddress else AddrNone)
    (if Z.testbit command 17 then DirOut else DirIn).

Inductive lut_op : Set :=
  | Command | RowAddress | ColumnAddress | DummyCycles | Read | Write.

Definition lut_op_code (op : lut_op) : Z :=
  match op with
  | Command => 0x01
  | RowAddress => 0x02
  | ColumnAddress => 0x03
  | DummyCycles => 0x0c
  | Read => 0x09
  | Write => 0x08
  end.

(** An instruction of class [op] with the given operand, serial mode. *)
Definition insn (op : lut_op) (operand : Z) : imxrt_flexspi_lut_insn_s :=
  mk_insn operand (Z.lor (Z.shiftl (lut_op_code op) 2) 0).

(** The populated prefix of the program. *)
Definition program_prefix (c : flash_command) (column_bits length : Z)
  : list imxrt_flexspi_lut_insn_s :=
  [insn Command (fc_opcode c)]
  ++ match fc_addressing c with
     | ThreeByteAddress =>
         insn RowAddress (24 - column_bits)
         :: (if column_bits =? 0 then [] else [insn ColumnAddress column_bits])
     | AddrNone => []
     end
  ++ [insn DummyCycles (fc_dummy c)]
  ++ (if 0 <? length
      then [match fc_direction c with
            | DirIn => insn Read 0
            | DirOut => insn Write 0
            end]
      else []).

(** The 8-slot program: the prefix, then implicit Stop. *)
Definition program_spec (c : flash_command) (column_bits length : Z)
  : list imxrt_flexspi_lut_insn_s :=
  let prefix := program_prefix c column_bits length in
  prefix ++ replicate (8 - List.length prefix) lut_stop.

Definition is_stop (i : imxrt_flexspi_lut_insn_s) : bool :=
  (value i =? 0) && (opcode_mode i =? 0).

(** Number of slots that hold something other than the Stop instruction. *)
Fixpoint populated (seq : list imxrt_flexspi_lut_insn_s) : nat :=
  match seq with
  | [] => 0
  | i :: rest => ((if is_stop i then 0 else 1) + populated rest)%nat
  end.

(** The column-address bit count held in bits [14:11] of Flash Control 1. *)
Definition column_bits_of (ctrl1 : Z) : Z :=
  Z.shiftr (Z.land ctrl1 IMXRT_FLEXSPI1_CTRL1_CAS_MASK) IMXRT_FLEXSPI1_CTRL1_CAS_SHIFT.

(** ** Reading the journal *)

Definition is_lut_write (op : bus_op) : bool :=
  match op with
  | WrBlk a _ => a =? IMXRT_FLEXSPI1_LUT_BASE
  | _ => false
  end.

(** The blocks written to the sequence LUT, oldest first. *)
Fixpoint lut_writes (ops : list bus_op) : list (list Z) :=
  match ops with
  | [] => []
  | WrBlk a data :: rest =>
      if a =? IMXRT_FLEXSPI1_LUT_BASE then data :: lut_writes rest else lut_writes rest
  | _ :: rest => lut_writes rest
  end.

(** The windows read from the read FIFO, oldest first. *)
Fixpoint fifo_reads (ops : list bus_op) : list (list Z) :=
  match ops with
  | [] => []
  | RdBlk a data :: rest =>
      if a =? IMXRT_FLEXSPI1_PRG_READ_FIFO then data :: fifo_reads rest else fifo_reads rest
  | _ :: rest => fifo_reads rest
  end.

(** The interrupt-status values a completed poll loop has seen: every one
    but the last without the command-done flag, the last with it. *)
Definition poll_trace (seen : list Z) : Prop :=
  exists waiting done,
    seen = waiting ++ [done]
    /\ Forall (fun v => Z.land v IMXRT_FLEXSPI1_INT_PRG_CMD_DONE = 0) waiting
    /\ Z.land done IMXRT_FLEXSPI1_INT_PRG_CMD_DONE <> 0.

(** ** Controller state that nobody else touches *)

Section Plain.
Context {dev : Type} {T : Transport dev}.

(** What a 32-bit read of [a] would return now. *)
Definition peek32 (a : Z) (d : dev) : Z := u32 (dev_read32 a d).1.

(** What a read of the 8-slot sequence LUT would return now. *)
Definition peek_lut (d : dev) : list Z :=
  map u8 (resize 16 0 (dev_read IMXRT_FLEXSPI1_LUT_BASE 16 d).1).

(** The bytes [lo, hi) are left alone by a bus access: reads never
    disturb them, nor do writes that do not overlap them. *)
Record undisturbed {X : Type} (lo hi : Z) (view : dev -> X) : Prop := {
  und_read32 : forall a d, view (dev_read32 a d).2 = view d;
  und_read : forall a n d, view (dev_read a n d).2 = view d;
  und_write32 : forall a v d, a + 4 <= lo \/ hi <= a -> view (dev_write32 a v d) = view d;
  und_write : forall a bs d,
    a + Z.of_nat (List.length bs) <= lo \/ hi <= a -> view (dev_write a bs d) = view d
}.

(** The register at [a] is plain storage owned by the debugger for the
    duration: it reads back what was written, and nothing else moves it. *)
Record plain_register (a : Z) : Prop := {
  reg_frame : undisturbed a (a + 4) (peek32 a);
  reg_read_back : forall v d, 0 <= v < 2 ^ 32 -> peek32 a (dev_write32 a v d) = v
}.

(** The sequence LUT is plain storage that no other actor mutates. *)
Record plain_lut : Prop := {
  lut_frame :
    undisturbed IMXRT_FLEXSPI1_LUT_BASE (IMXRT_FLEXSPI1_LUT_BASE + 16) peek_lut;
  lut_read_back : forall bs d,
    List.length bs = 16%nat ->
    peek_lut (dev_write IMXRT_FLEXSPI1_LUT_BASE bs d) = map u8 bs
}.

End Plain.

(** ** Bus traffic of the sequencer, as the specification orders it *)

(** Programming one command: capture the LUT, fetch the column-address
    bit count when the command is addressed, write the new program, the
    address if any, then the length with sequence index 0. *)
Definition configure_ops (command address length : Z) (saved : list Z) (ctrl1 : Z)
  : list bus_op :=
  [RdBlk IMXRT_FLEXSPI1_LUT_BASE saved]
  ++ (if Z.testbit command 16 then [Rd32 IMXRT_FLEXSPI1_CTRL1 ctrl1] else [])
  ++ [WrBlk IMXRT_FLEXSPI1_LUT_BASE
        (lut_bytes (program_spec (descriptor_of command) (column_bits_of ctrl1) length))]
  ++ (if Z.testbit command 16 then [Wr32 IMXRT_FLEXSPI1_PRG_CTRL0 (u32 address)] else [])
  ++ [Wr32 IMXRT_FLEXSPI1_PRG_CTRL1 (Z.land length 0xffff)].

(** Running it: trigger, poll the interrupt status (seeing [seen]),
    acknowledge command-done. *)
Definition wait_ops (seen : list Z) : list bus_op :=
  [Wr32 IMXRT_FLEXSPI1_PRG_CMD 1]
  ++ map (Rd32 IMXRT_FLEXSPI1_INT) seen
  ++ [Wr32 IMXRT_FLEXSPI1_INT 1].

Definition restore_ops (saved : list Z) : list bus_op :=
  [WrBlk IMXRT_FLEXSPI1_LUT_BASE saved].

Definition read_ops (command address length : Z) (saved : list Z) (ctrl1 : Z)
    (seen window : list Z) : list bus_op :=
  configure_ops command address length saved ctrl1
  ++ wait_ops seen
  ++ [RdBlk IMXRT_FLEXSPI1_PRG_READ_FIFO window;
      Wr32 IMXRT_FLEXSPI1_INT IMXRT_FLEXSPI1_INT_READ_FIFO_FULL]
  ++ restore_ops saved.

(** The bytes staged in the write FIFO: the caller's bytes, zero-padded
    up to a 4-byte boundary. *)
Definition staged (buffer : list Z) (length : Z) : list Z :=
  take (Z.to_nat (Z.land (length + 3) (not32 3)))
    (take (Z.to_nat length) buffer ++ drop (Z.to_nat length) (replicate 128 0)).

Definition write_ops (command address : Z) (buffer : list Z) (length : Z)
    (saved : list Z) (ctrl1 : Z) (seen : list Z) : list bus_op :=
  configure_ops command address length saved ctrl1
  ++ (if length =? 0
      then []
      else [WrBlk IMXRT_FLEXSPI1_PRG_WRITE_FIFO (staged buffer length);
            Wr32 IMXRT_FLEXSPI1_INT IMXRT_FLEXSPI1_INT_WRITE_FIFO_EMPTY])
  ++ wait_ops seen
  ++ restore_ops saved.

(** Entering guarded mode on a controller whose module control reads
    [m], with pending interrupts [pending]: the traffic up to the read
    of the LUT lock state. *)
Definition enter_head_ops (m pending : Z) : list bus_op :=
  [Rd32 IMXRT_FLEXSPI1_MOD_CTRL0 m]
  ++ (if Z.land m IMXRT_FLEXSPI1_MOD_CTRL0_SUSPEND =? 0
      then []
      else [Wr32 IMXRT_FLEXSPI1_MOD_CTRL0 (Z.land m 0xfffffffd)])
  ++ [Rd32 IMXRT_FLEXSPI1_INT pending;
      Wr32 IMXRT_FLEXSPI1_INT pending;
      Wr32 IMXRT_FLEXSPI1_PRG_READ_FIFO_CTRL 61;
      Wr32 IMXRT_FLEXSPI1_PRG_WRITE_FIFO_CTRL 61].

(** ... and all of it, the lock state reading [l]. *)
Definition enter_ops (m pending l : Z) : list bus_op :=
  enter_head_ops m pending
  ++ [Rd32 IMXRT_FLEXSPI1_LUT_CTRL l]
  ++ (if l =? IMXRT_FLEXSPI1_LUT_CTRL_UNLOCK
      then []
      else [Wr32 IMXRT_FLEXSPI1_LUT_KEY IMXRT_FLEXSPI1_LUT_KEY_VALUE;
            Wr32 IMXRT_FLEXSPI1_LUT_CTRL IMXRT_FLEXSPI1_LUT_CTRL_UNLOCK]).

(** Leaving it with the captured module control [m] and lock state [l]. *)
Definition exit_ops (m l : Z) : list bus_op :=
  (if l =? IMXRT_FLEXSPI1_LUT_CTRL_UNLOCK
   then []
   else [Wr32 IMXRT_FLEXSPI1_LUT_KEY IMXRT_FLEXSPI1_LUT_KEY_VALUE;
         Wr32 IMXRT_FLEXSPI1_LUT_CTRL (u32 l)])
  ++ [Wr32 IMXRT_FLEXSPI1_MOD_CTRL0 (u32 m)].

(** ** Replaying a journal on the device *)

Section Replay.
Context {dev : Type} {T : Transport dev}.

Definition apply_op (d : dev) (op : bus_op) : dev :=
  match op with
  | Rd32 a _ => (dev_read32 a d).2
  | Wr32 a v => dev_write32 a v d
  | RdBlk a data => (dev_read a (List.length data) d).2
  | WrBlk a data => dev_write a data d
  end.

Definition replay (ops : list bus_op) (d : dev) : dev := fold_left apply_op ops d.

(** The fields of the handle that bus traffic leaves alone. *)
Record same_handle (t t' : target_s dev) : Prop := {
  same_part_id : part_id t' = part_id t;
  same_options : target_options t' = target_options t;
  same_driver : driver t' = driver t;
  same_ram : ram t' = ram t;
  same_flash : flash t' = flash t;
  same_mass_erase : mass_erase t' = mass_erase t;
  same_enter_flash_mode : enter_flash_mode t' = enter_flash_mode t;
  same_exit_flash_mode : exit_flash_mode t' = exit_flash_mode t;
  same_heap : heap t' = heap t
}.

(** [t'] is [t] after exactly the bus transactions [ops], in order. *)
Record after (ops : list bus_op) (t t' : target_s dev) : Prop := {
  after_journal : journal t' = journal t ++ ops;
  after_link : link t' = replay ops (link t);
  after_handle : same_handle t t'
}.

(** A bus transaction that cannot move the bytes [lo, hi). *)
Definition op_away (lo hi : Z) (op : bus_op) : Prop :=
  match op with
  | Rd32 _ _ | RdBlk _ _ => True
  | Wr32 a _ => a + 4 <= lo \/ hi <= a
  | WrBlk a data => a + Z.of_nat (List.length data) <= lo \/ hi <= a
  end.


(** Bus traffic that stays clear of the two registers the state guard
    saves and restores. *)
Definition guard_away (ops : list bus_op) : Prop :=
  Forall (op_away IMXRT_FLEXSPI1_MOD_CTRL0 (IMXRT_FLEXSPI1_MOD_CTRL0 + 4)) ops
  /\ Forall (op_away IMXRT_FLEXSPI1_LUT_CTRL (IMXRT_FLEXSPI1_LUT_CTRL + 4)) ops.

End Replay.

(** ** A bench device

    A small executable stand-in for the chip behind the debug link, used
    to run the driver on concrete inputs: plain registers, the sequence
    LUT, the two FIFOs, an interrupt-status register whose command-done
    flag rises a configurable number of polls after a trigger, and a
    serial flash answering the five commands of the driver. *)
Module Bench.

Record chip : Type := mk_chip {
  regs : list (Z * Z);
  lut : list Z;
  rx_fifo : list Z;
  tx_fifo : list Z;
  int_flags : Z;
  latency : nat;
  running : option nat;
  flash_status : Z;
  flash_jedec : list Z;
  flash_honours_wren : bool;
  erase_polls : nat;
  busy_left : nat
}.

Fixpoint lookup_reg (a : Z) (rs : list (Z * Z)) : Z :=
  match rs with
  | [] => 0
  | (a', v) :: rest => if a' =? a then v else lookup_reg a rest
  end.

Definition set_regs (rs : list (Z * Z)) (c : chip) : chip :=
  mk_chip rs (lut c) (rx_fifo c) (tx_fifo c) (int_flags c) (latency c) (running c)
    (flash_status c) (flash_jedec c) (flash_honours_wren c) (erase_polls c) (busy_left c).

Definition set_lut (l : list Z) (c : chip) : chip :=
  mk_chip (regs c) l (rx_fifo c) (tx_fifo c) (int_flags c) (latency c) (running c)
    (flash_status c) (flash_jedec c) (flash_honours_wren c) (erase_polls c) (busy_left c).

Definition set_tx_fifo (l : list Z) (c : chip) : chip :=
  mk_chip (regs c) (lut c) (rx_fifo c) l (int_flags c) (latency c) (running c)
    (flash_status c) (flash_jedec c) (flash_honours_wren c) (erase_polls c) (busy_left c).

Definition set_int (flags : Z) (r : option nat) (c : chip) : chip :=
  mk_chip (regs c) (lut c) (rx_fifo c) (tx_fifo c) flags (latency c) r
    (flash_status c) (flash_jedec c) (flash_honours_wren c) (erase_polls c) (busy_left c).

Definition set_flash (rx : list Z) (status : Z) (busy : nat) (c : chip) : chip :=
  mk_chip (regs c) (lut c) rx (tx_fifo c) (int_flags c) (latency c) (running c)
    status (flash_jedec c) (flash_honours_wren c) (erase_polls c) busy.

(** The flash executes the opcode held in slot 0 of the LUT. *)
Definition execute (c : chip) : chip :=
  let opcode := nth 0 (lut c) 0 in
  if opcode =? 0x06 then
    set_flash (rx_fifo c)
      (if flash_honours_wren c then Z.lor (flash_status c) 2 else flash_status c)
      (busy_left c) c
  else if opcode =? 0x60 then
    (if Z.land (flash_status c) 2 =? 0 then c
     else set_flash (rx_fifo c) 1 (erase_polls c) c)
  else if opcode =? 0x05 then
    match busy_left c with
    | O => set_flash (resize 128 0 [flash_status c])
             (Z.land (flash_status c) 0xfe) O c
    | S n => set_flash (resize 128 0 [flash_status c]) (flash_status c) n c
    end
  else if opcode =? 0x9f then
    set_flash (resize 128 0 (flash_jedec c)) (flash_status c) (busy_left c) c
  else
    set_flash (replicate 128 0xff) (flash_status c) (busy_left c) c.

Definition read32 (a : Z) (c : chip) : Z * chip :=
  if a =? IMXRT_FLEXSPI1_INT then
    match running c with
    | Some O =>
        (Z.lor (int_flags c) 1, set_int (Z.lor (int_flags c) 1) None c)
    | Some (S n) => (int_flags c, set_int (int_flags c) (Some n) c)
    | None => (int_flags c, c)
    end
  else (lookup_reg a (regs c), c).

Definition write32 (a v : Z) (c : chip) : chip :=
  if a =? IMXRT_FLEXSPI1_PRG_CMD then
    (if Z.land v 1 =? 0 then c
     else set_int (Z.land (int_flags c) 0xfffffffe) (Some (latency c)) (execute c))
  else if a =? IMXRT_FLEXSPI1_INT then
    set_int (Z.land (int_flags c) (Z.lxor v 0xffffffff)) (running c) c
  else set_regs ((a, v) :: regs c) c.

Definition read (a : Z) (n : nat) (c : chip) : list Z * chip :=
  if a =? IMXRT_FLEXSPI1_LUT_BASE then (resize n 0 (lut c), c)
  else if a =? IMXRT_FLEXSPI1_PRG_READ_FIFO then (resize n 0 (rx_fifo c), c)
  else (replicate n 0, c).

Definition write (a : Z) (bs : list Z) (c : chip) : chip :=
  if a =? IMXRT_FLEXSPI1_LUT_BASE then
    set_lut (map u8 (take 16 bs) ++ drop (List.length bs) (lut c)) c
  else if a =? IMXRT_FLEXSPI1_PRG_WRITE_FIFO then set_tx_fifo bs c
  else c.

#[global] Instance transport : Transport chip := {
  dev_read32 := read32;
  dev_write32 := write32;
  dev_read := read;
  dev_write := write
}.

(** A stand-in for the SFDP decoder: it fetches the 8-byte header
    through the callback and accepts a table only under the "SFDP"
    signature, then reporting one fixed geometry. *)
Definition sfdp (read_sfdp : Z -> Z -> M chip (list Z))
  : M chip (option spi_parameters_s) :=
  let! header := read_sfdp 0 8 in
  if decide (take 4 header = [0x53; 0x46; 0x44; 0x50])
  then ret (Some (mk_spi_parameters 256 4096 0x1000000 0x20))
  else ret None.

#[global] Instance framework : Framework chip := {
  sfdp_read_parameters := sfdp;
  CORTEXM_TOPT_INHIBIT_NRST := 4;
  ENABLE_DEBUG := false
}.

(** A chip out of reset: firmware sequence in the LUT, controller
    suspended and LUT locked, boot configuration [boot_cfg]. *)
Definition firmware_lut : list Z :=
  [0xeb; 0x04; 0x18; 0x0a; 0x06; 0x32; 0x04; 0x26; 0; 0; 0; 0; 0; 0; 0; 0].

Definition power_on (boot_cfg : Z) (jedec : list Z) (wren : bool) (lat : nat) : chip :=
  mk_chip
    [(IMXRT_SRC_BOOT_MODE1, boot_cfg);
     (IMXRT_FLEXSPI1_MOD_CTRL0, 0xffff0002);
     (IMXRT_FLEXSPI1_LUT_CTRL, 1);
     (IMXRT_FLEXSPI1_CTRL1, 0x00001863)]
    firmware_lut (replicate 128 0) [] 0 lat None 0 jedec wren 2 0.

(** A freshly attached target handle in front of such a chip. *)
Definition attach (storage : option imxrt_priv_s) (c : chip) : target_s chip :=
  mk_target 0x88c storage 0 ""%string [] [] None None None 4 0 c [].

(** Three benches booting from serial NOR: a 4 MiB flash with JEDEC ID
    ef 40 16; the same flash ignoring Write Enable; and a flash whose
    ID reads back ef ff 16. *)
Definition healthy : chip := power_on 0x00 [0xef; 0x40; 0x16] true 1.
Definition write_protected : chip := power_on 0x00 [0xef; 0x40; 0x16] false 1.
Definition partial_id : chip := power_on 0x00 [0xef; 0xff; 0x16] true 1.

End Bench.

(** ** Further vocabulary for the properties below *)

(** A command word put together the way lines 118-130 put together the
    five command words of the driver. *)
Definition imxrt_spi_flash_cmd (mode direction dummy opcode : Z) : Z :=
  Z.lor (Z.lor (Z.lor mode direction) (IMXRT_SPI_FLASH_DUMMY_LEN dummy))
    (IMXRT_SPI_FLASH_OPCODE opcode).


Section Responsive.
Context {dev : Type} {T : Transport dev}.

(** The interrupt status shows command-done at one of its next [k]
    reads. *)
Fixpoint done_within (k : nat) (d : dev) : bool :=
  match k with
  | O => false
  | S k' =>
      negb (Z.land (peek32 IMXRT_FLEXSPI1_INT d) IMXRT_FLEXSPI1_INT_PRG_CMD_DONE =? 0)
      || done_within k' (dev_read32 IMXRT_FLEXSPI1_INT d).2
  end.

(** Driver code that leaves the sequence LUT reading as it found it,
    and the private state allocated. *)
Definition keeps_lut {A : Type} (m : M dev A) : Prop :=
  forall (t t' : target_s dev) r p,
    target_storage t = Some p ->
    m t = Done (r, t') ->
    peek_lut (link t') = peek_lut (link t)
    /\ exists p', target_storage t' = Some p'.

(** Driver code that, on a target whose private state is allocated,
    reaches no operation without defined behaviour and leaves the
    private state allocated. *)
Definition well_defined {A : Type} (m : M dev A) : Prop :=
  forall (t : target_s dev) p,
    target_storage t = Some p ->
    m t <> Undef
    /\ forall r t', m t = Done (r, t') -> exists p', target_storage t' = Some p'.


(** The handle at line 243, once the probe has claimed the part: the
    private state allocated out of a heap of [S h] and holding the
    boot source for [boot_cfg], the identity set, the two OCRAM
    regions added, and the boot-configuration reads [ops] done. *)
Definition claimed_target {F : Framework dev} (t : target_s dev) (h : nat)
    (ops : list bus_op) (boot_cfg : Z) : target_s dev :=
  mk_target (part_id t)
    (Some (set_boot_source (imxrt_boot_source boot_cfg) priv_zero))
    (Z.lor (target_options t) CORTEXM_TOPT_INHIBIT_NRST) "i.MXRT10xx"%string
    (ram t ++ [mk_ram IMXRT_OCRAM1_BASE IMXRT_OCRAM1_SIZE;
               mk_ram IMXRT_OCRAM2_BASE IMXRT_OCRAM2_SIZE])
    (flash t) (mass_erase t) (enter_flash_mode t) (exit_flash_mode t)
    h (progress t) (replay ops (link t)) (journal t ++ ops).

(** [t'] is [t] after the bus transactions [ops] and the registration
    of the flash regions [regions], each out of one heap allocation;
    nothing else of the handle has moved. *)
Record registered (ops : list bus_op) (regions : list target_flash_s)
    (t t' : target_s dev) : Prop := {
  registered_journal : journal t' = journal t ++ ops;
  registered_link : link t' = replay ops (link t);
  registered_flash : flash t' = flash t ++ regions;
  registered_heap : (heap t' + List.length regions = heap t)%nat;
  registered_part_id : part_id t' = part_id t;
  registered_options : target_options t' = target_options t;
  registered_driver : driver t' = driver t;
  registered_ram : ram t' = ram t;
  registered_mass_erase : mass_erase t' = mass_erase t;
  registered_enter_flash_mode : enter_flash_mode t' = enter_flash_mode t;
  registered_exit_flash_mode : exit_flash_mode t' = exit_flash_mode t
}.

(** A flash region as line 187-191 fill it in. *)
Definition flexspi_region (f : target_flash_s) : Prop :=
  flash_start f = IMXRT_FLEXSPI_BASE /\ flash_erased f = 0xff.

(** The SFDP decoder is not in the source file.  What the probe needs
    of it to leave the controller as found: driven through the
    driver's SFDP read, it does bus transactions only, none of them on
    the two guarded registers, and leaves the guard's snapshot and the
    LUT alone. *)
Definition discovery_contained {F : Framework dev} (budget : nat) : Prop :=
  forall (t t' : target_s dev) priv found,
    target_storage t = Some priv ->
    sfdp_read_parameters (imxrt_spi_read_sfdp budget) t = Done (found, t') ->
    exists ops priv',
      after ops t t'
      /\ guard_away ops
      /\ target_storage t' = Some priv'
      /\ flexspi_module_state priv' = flexspi_module_state priv
      /\ flexspi_lut_state priv' = flexspi_lut_state priv
      /\ (plain_lut -> peek_lut (link t') = peek_lut (link t)).

End Responsive.

(** * Properties *)

(** ** Arithmetic on bytes and words *)

Lemma all_below_spec n f :
  all_below n f = true -> forall x, 0 <= x < Z.of_nat n -> f x = true.
Proof.
  induction n as [|k IH]; intros Hall x Hx; [lia|].
  cbn [all_below] in Hall. apply andb_true_iff in Hall as [Hk Hrest].
  destruct (Z.eq_dec x (Z.of_nat k)) as [->|Hne]; [exact Hk|].
  apply IH; [exact Hrest|lia].
Qed.

Lemma u8_range x : 0 <= u8 x < 256.
Proof. unfold u8. apply Z.mod_pos_bound. lia. Qed.

Lemma u32_range x : 0 <= u32 x < 2 ^ 32.
Proof. unfold u32. apply Z.mod_pos_bound. lia. Qed.

Lemma u8_small x : 0 <= x < 256 -> u8 x = x.
Proof. intros H. unfold u8. apply Z.mod_small. lia. Qed.

Lemma u32_small x : 0 <= x < 2 ^ 32 -> u32 x = x.
Proof. intros H. unfold u32. apply Z.mod_small. lia. Qed.

Lemma u8_idem x : u8 (u8 x) = u8 x.
Proof. apply u8_small, u8_range. Qed.

Lemma u32_idem x : u32 (u32 x) = u32 x.
Proof. apply u32_small, u32_range. Qed.

Lemma map_u8_idem (bs : list Z) : map u8 (map u8 bs) = map u8 bs.
Proof. induction bs as [|b bs IH]; cbn; [reflexivity|]. now rewrite u8_idem, IH. Qed.

Lemma land_byte x : Z.land x 0xff = x mod 256.
Proof. change 0xff with (Z.ones 8). rewrite Z.land_ones by lia. reflexivity. Qed.

Lemma land_halfword x : Z.land x 0xffff = x mod 65536.
Proof. change 0xffff with (Z.ones 16). rewrite Z.land_ones by lia. reflexivity. Qed.

Lemma land_pow2 c n :
  0 <= n -> Z.land c (2 ^ n) = if Z.testbit c n then 2 ^ n else 0.
Proof.
  intros Hn. apply Z.bits_inj'. intros i Hi.
  rewrite Z.land_spec, Z.pow2_bits_eqb by lia.
  destruct (Z.eqb_spec n i) as [->|Hne].
  - destruct (Z.testbit c i); [now rewrite Z.pow2_bits_true by lia|now rewrite Z.bits_0].
  - rewrite andb_false_r.
    destruct (Z.testbit c n); [now rewrite Z.pow2_bits_false by lia|now rewrite Z.bits_0].
Qed.

(** ** The boot source classifier *)

Lemma land_f0_byte cfg : Z.land cfg 0xf0 = Z.land (cfg mod 256) 0xf0.
Proof. rewrite <- land_byte, <- Z.land_assoc. reflexivity. Qed.

Lemma boot_source_low_byte cfg : imxrt_boot_source cfg = imxrt_boot_source (cfg mod 256).
Proof.
  unfold imxrt_boot_source. rewrite (land_f0_byte cfg), (land_f0_byte (cfg mod 256)).
  rewrite Z.mod_mod by lia. reflexivity.
Qed.

Lemma boot_src_eqb_eq a b : imxrt_boot_src_eqb a b = true -> a = b.
Proof. destruct a, b; cbn; congruence. Qed.

Lemma nibble_of_byte cfg : (cfg / 16) mod 16 = (cfg mod 256) / 16.
Proof. Z.to_euclidean_division_equations. lia. Qed.

(** C4.  The classifier is a function of the boot-configuration word
    that looks at bits [7:4] only: it is the first-match-wins table of
    the specification applied to the word masked with 0xf0, hence a
    function of the upper nibble of the low byte; the six named byte
    values map to the six variants, and every value has exactly one
    classification. *)
Theorem boot_source_classifier :
  (forall cfg, imxrt_boot_source cfg = classify_spec (Z.land cfg 0xf0))
  /\ (forall cfg, imxrt_boot_source cfg = boot_source_of_nibble ((cfg / 16) mod 16))
  /\ (forall cfg, imxrt_boot_source cfg = imxrt_boot_source (Z.land cfg 0xf0))
  /\ (forall cfg, exists! v, imxrt_boot_source cfg = v)
  /\ imxrt_boot_source 0x00 = boot_spi_flash_nor
  /\ imxrt_boot_source 0x40 = boot_sd_card
  /\ imxrt_boot_source 0x80 = boot_emmc
  /\ imxrt_boot_source 0x20 = boot_slc_nand
  /\ imxrt_boot_source 0x10 = boot_parallel_nor
  /\ imxrt_boot_source 0xc0 = boot_spi_flash_nand.
Proof.
  assert (Hbyte : forall x, 0 <= x < 256 ->
            imxrt_boot_source x = classify_spec (Z.land x 0xf0)
            /\ imxrt_boot_source x = boot_source_of_nibble (x / 16)
            /\ imxrt_boot_source x = imxrt_boot_source (Z.land x 0xf0)).
  { intros x Hx.
    pose proof (all_below_spec 256
      (fun x =>
         imxrt_boot_src_eqb (imxrt_boot_source x) (classify_spec (Z.land x 0xf0))
         && imxrt_boot_src_eqb (imxrt_boot_source x) (boot_source_of_nibble (x / 16))
         && imxrt_boot_src_eqb (imxrt_boot_source x)
              (imxrt_boot_source (Z.land x 0xf0)))) as Hall.
    specialize (Hall ltac:(vm_compute; reflexivity) x ltac:(lia)). cbv beta in Hall.
    apply andb_true_iff in Hall as [Hall H3]. apply andb_true_iff in Hall as [H1 H2].
    auto using boot_src_eqb_eq. }
  assert (Hmod : forall cfg, 0 <= cfg mod 256 < 256)
    by (intros cfg; apply Z.mod_pos_bound; lia).
  repeat split; try reflexivity.
  - intros cfg. rewrite boot_source_low_byte, land_f0_byte. now apply Hbyte.
  - intros cfg. rewrite boot_source_low_byte, nibble_of_byte. now apply Hbyte.
  - intros cfg. rewrite boot_source_low_byte, land_f0_byte. now apply Hbyte.
  - intros cfg. exists (imxrt_boot_source cfg). split; [reflexivity|auto].
Qed.

(** ** The synthesized program *)

Lemma mode_bit command :
  (Z.land command IMXRT_SPI_FLASH_OPCODE_MODE_MASK =? IMXRT_SPI_FLASH_OPCODE_3B_ADDR)
  = Z.testbit command 16.
Proof.
  change IMXRT_SPI_FLASH_OPCODE_MODE_MASK with (2 ^ 16).
  change IMXRT_SPI_FLASH_OPCODE_3B_ADDR with (2 ^ 16).
  rewrite land_pow2 by lia. destruct (Z.testbit command 16); reflexivity.
Qed.

Lemma direction_bit command :
  (Z.land command IMXRT_SPI_FLASH_DATA_OUT =? 0) = negb (Z.testbit command 17).
Proof.
  change IMXRT_SPI_FLASH_DATA_OUT with (2 ^ 17).
  rewrite land_pow2 by lia. destruct (Z.testbit command 17); reflexivity.
Qed.

Lemma column_bits_range ctrl1 : 0 <= column_bits_of ctrl1 <= 15.
Proof.
  unfold column_bits_of, IMXRT_FLEXSPI1_CTRL1_CAS_MASK, IMXRT_FLEXSPI1_CTRL1_CAS_SHIFT.
  rewrite Z.shiftr_land. change (Z.shiftr 0x7800 11) with (Z.ones 4).
  rewrite Z.land_ones by lia.
  pose proof (Z.mod_pos_bound (Z.shiftr ctrl1 11) (2 ^ 4)). lia.
Qed.

Lemma opcode_field command :
  u8 (Z.land command IMXRT_SPI_FLASH_OPCODE_MASK) = Z.land command 0xff.
Proof.
  unfold IMXRT_SPI_FLASH_OPCODE_MASK. rewrite land_byte.
  apply u8_small, Z.mod_pos_bound. lia.
Qed.

Lemma dummy_field command :
  u8 (Z.shiftr (Z.land command IMXRT_SPI_FLASH_DUMMY_MASK) IMXRT_SPI_FLASH_DUMMY_SHIFT)
  = Z.land (Z.shiftr command 8) 0xff.
Proof.
  unfold IMXRT_SPI_FLASH_DUMMY_MASK, IMXRT_SPI_FLASH_DUMMY_SHIFT.
  rewrite Z.shiftr_land. change (Z.shiftr 0xff00 8) with 0xff.
  rewrite land_byte. apply u8_small, Z.mod_pos_bound. lia.
Qed.

Lemma column_field ctrl1 : u8 (column_bits_of ctrl1) = column_bits_of ctrl1.
Proof. apply u8_small. pose proof (column_bits_range ctrl1). lia. Qed.

(** The row-address operand is computed without wrap-around. *)
Lemma row_field ctrl1 :
  u8 (u32 (24 - column_bits_of ctrl1)) = 24 - column_bits_of ctrl1.
Proof.
  pose proof (column_bits_range ctrl1).
  rewrite u32_small by lia. apply u8_small. lia.
Qed.

Lemma program_prefix_length c column_bits length :
  (2 <= List.length (program_prefix c column_bits length) <= 5)%nat.
Proof.
  unfold program_prefix.
  destruct (fc_addressing c), (column_bits =? 0), (0 <? length); cbn; lia.
Qed.

Lemma program_spec_length c column_bits length :
  List.length (program_spec c column_bits length) = 8%nat.
Proof.
  unfold program_spec. pose proof (program_prefix_length c column_bits length).
  cbv zeta. rewrite length_app, length_replicate. lia.
Qed.

Lemma populated_app a b : populated (a ++ b) = (populated a + populated b)%nat.
Proof. induction a as [|i a IH]; cbn; [reflexivity|]. rewrite IH. lia. Qed.

Lemma populated_stop n : populated (replicate n lut_stop) = 0%nat.
Proof. induction n as [|n IH]; cbn; [reflexivity|exact IH]. Qed.

Lemma insn_not_stop op operand : is_stop (insn op operand) = false.
Proof. unfold is_stop. destruct op; cbn; apply andb_false_r. Qed.

(** Every slot of the prefix is populated, and only those. *)
Lemma populated_program_spec c column_bits length :
  populated (program_spec c column_bits length)
  = List.length (program_prefix c column_bits length).
Proof.
  unfold program_spec. cbv zeta. rewrite populated_app, populated_stop, Nat.add_0_r.
  unfold program_prefix.
  destruct (fc_addressing c), (column_bits =? 0), (0 <? length), (fc_direction c);
    cbn [populated app List.length]; rewrite ?insn_not_stop; reflexivity.
Qed.

Section Sequencer.
Context {dev : Type} {T : Transport dev}.

(** What lines 336-367 compute: the program of the specification for
    the descriptor in [command], with the column-address bit count
    fetched from Flash Control 1 when the command is addressed. *)
Lemma build_sequence_run command length (t : target_s dev) :
  0 <= length ->
  imxrt_spi_build_sequence command length t
  = if Z.testbit command 16
    then
      let ctrl1 := u32 (dev_read32 IMXRT_FLEXSPI1_CTRL1 (link t)).1 in
      Done ((program_spec (descriptor_of command) (column_bits_of ctrl1) length,
             List.length
               (program_prefix (descriptor_of command) (column_bits_of ctrl1) length)),
            with_link (dev_read32 IMXRT_FLEXSPI1_CTRL1 (link t)).2
              (Rd32 IMXRT_FLEXSPI1_CTRL1 ctrl1) t)
    else
      Done ((program_spec (descriptor_of command) 0 length,
             List.length (program_prefix (descriptor_of command) 0 length)), t).
Proof.
  intros Hlen.
  assert (Hdata : (0 <? length) = negb (length =? 0)).
  { destruct (Z.eqb_spec length 0), (Z.ltb_spec 0 length); cbn; try reflexivity; lia. }
  unfold imxrt_spi_build_sequence, program_spec, program_prefix, descriptor_of.
  cbn [fc_opcode fc_dummy fc_addressing fc_direction].
  rewrite Hdata. rewrite mode_bit, direction_bit.
  set (ctrl1 := u32 (dev_read32 IMXRT_FLEXSPI1_CTRL1 (link t)).1).
  destruct (Z.testbit command 16); cbv zeta.
  - cbv beta iota zeta delta [bind ret store_opcode_mode store_value target_mem_read32
                                lookup list_lookup replicate insert list_insert].
    fold ctrl1.
    change (Z.shiftr (Z.land ctrl1 IMXRT_FLEXSPI1_CTRL1_CAS_MASK)
              IMXRT_FLEXSPI1_CTRL1_CAS_SHIFT) with (column_bits_of ctrl1).
    rewrite !column_field, row_field, opcode_field.
    destruct (column_bits_of ctrl1 =? 0), (length =? 0), (Z.testbit command 17);
      cbv beta iota zeta delta [bind ret store_opcode_mode store_value
                                  lookup list_lookup replicate insert list_insert];
      cbn [fst snd value opcode_mode negb app List.length Nat.sub lut_stop];
      rewrite ?dummy_field; reflexivity.
  - cbv beta iota zeta delta [bind ret store_opcode_mode store_value
                                lookup list_lookup replicate insert list_insert].
    rewrite opcode_field.
    destruct (length =? 0), (Z.testbit command 17);
      cbv beta iota zeta delta [bind ret store_opcode_mode store_value
                                  lookup list_lookup replicate insert list_insert];
      cbn [fst snd value opcode_mode negb app List.length Nat.sub lut_stop];
      rewrite ?dummy_field; reflexivity.
Qed.

(** Only whether [length] is zero matters to the builder. *)
Lemma build_sequence_abs command length (t : target_s dev) :
  imxrt_spi_build_sequence command length t
  = imxrt_spi_build_sequence command (Z.abs length) t.
Proof.
  unfold imxrt_spi_build_sequence.
  replace (Z.abs length =? 0) with (length =? 0); [reflexivity|].
  destruct (Z.eqb_spec length 0), (Z.eqb_spec (Z.abs length) 0); try reflexivity; lia.
Qed.

(** C9.  For every command word, every transfer length and every state
    of the chip, building the sequence completes without a store past
    the end of the 8-slot array (the builder never reaches undefined
    behaviour), leaves an 8-slot array in which exactly [offset] slots
    are populated, and [offset] is at most 5, hence at most 8.  The
    column-address bit count is a 4-bit field, so it lies in 0..15 and
    the row-address operand 24 - columnBits is stored without
    wrap-around, as a value in 9..24; on an addressed command slot 1
    holds exactly that RowAddress instruction, for the count read from
    Flash Control 1. *)
Theorem sequence_capacity command length (t : target_s dev) :
  exists sequence offset t',
    imxrt_spi_build_sequence command length t = Done ((sequence, offset), t')
    /\ List.length sequence = 8%nat
    /\ populated sequence = offset
    /\ (offset <= 5)%nat
    /\ (populated sequence <= 8)%nat
    /\ (forall ctrl1,
          0 <= column_bits_of ctrl1 <= 15
          /\ u8 (u32 (24 - u8 (column_bits_of ctrl1))) = 24 - column_bits_of ctrl1
          /\ 9 <= 24 - column_bits_of ctrl1 <= 24)
    /\ (if Z.testbit command 16
        then sequence !! 1%nat
             = Some (insn RowAddress
                       (24 - column_bits_of (peek32 IMXRT_FLEXSPI1_CTRL1 (link t))))
        else True).
Proof.
  rewrite build_sequence_abs, build_sequence_run by lia.
  assert (Hfield : forall ctrl1,
            0 <= column_bits_of ctrl1 <= 15
            /\ u8 (u32 (24 - u8 (column_bits_of ctrl1))) = 24 - column_bits_of ctrl1
            /\ 9 <= 24 - column_bits_of ctrl1 <= 24).
  { intros ctrl1. pose proof (column_bits_range ctrl1).
    rewrite column_field, row_field. lia. }
  destruct (Z.testbit command 16) eqn:Hmode; cbv zeta;
    eexists _, _, _; (split; [reflexivity|]);
    rewrite program_spec_length, populated_program_spec;
    match goal with
    | |- context [program_prefix ?c ?cb ?l] =>
        pose proof (program_prefix_length c cb l)
    end;
    repeat split; try lia; try apply Hfield.
  unfold program_spec, program_prefix, descriptor_of.
  cbn [fc_addressing]. rewrite Hmode. reflexivity.
Qed.

End Sequencer.

(** ** Runs of driver code *)

Lemma land_u32 a b : 0 <= b < 2 ^ 32 -> u32 (Z.land a b) = Z.land a b.
Proof.
  intros Hb. unfold u32.
  assert (Hmask : Z.land b (Z.ones 32) = b)
    by (rewrite Z.land_ones by lia; apply Z.mod_small; lia).
  rewrite <- Hmask at 2. rewrite Z.land_assoc, Z.land_ones by lia. reflexivity.
Qed.

Section Runs.
Context {dev : Type} {T : Transport dev}.

Lemma bind_done {A B} (m : M dev A) (k : A -> M dev B) t r t' :
  bind m k t = Done (r, t') ->
  exists a t1, m t = Done (a, t1) /\ k a t1 = Done (r, t').
Proof.
  unfold bind. destruct (m t) as [[a t1]| |]; [|discriminate..].
  intros H. exists a, t1. split; [reflexivity|exact H].
Qed.

Lemma bind_run {A B} (m : M dev A) (k : A -> M dev B) t a t1 :
  m t = Done (a, t1) -> bind m k t = k a t1.
Proof. intros H. unfold bind. rewrite H. reflexivity. Qed.

Lemma replay_app ops1 ops2 (d : dev) :
  replay (ops1 ++ ops2) d = replay ops2 (replay ops1 d).
Proof. apply fold_left_app. Qed.

Lemma same_handle_refl (t : target_s dev) : same_handle t t.
Proof. constructor; reflexivity. Qed.

Lemma same_handle_trans (t1 t2 t3 : target_s dev) :
  same_handle t1 t2 -> same_handle t2 t3 -> same_handle t1 t3.
Proof. intros [] []. constructor; congruence. Qed.

Lemma after_nil (t : target_s dev) : after [] t t.
Proof. constructor; [now rewrite app_nil_r|reflexivity|apply same_handle_refl]. Qed.

Lemma after_app ops1 ops2 (t t1 t2 : target_s dev) :
  after ops1 t t1 -> after ops2 t1 t2 -> after (ops1 ++ ops2) t t2.
Proof.
  intros [J1 L1 H1] [J2 L2 H2]. constructor.
  - rewrite J2, J1, app_assoc. reflexivity.
  - rewrite L2, L1, replay_app. reflexivity.
  - eapply same_handle_trans; eassumption.
Qed.

Lemma after_storage ops (t t' : target_s dev) s :
  after ops t t' -> after ops t (with_storage s t').
Proof. intros [J L []]. constructor; [exact J|exact L|constructor; assumption]. Qed.

(** Accesses that stay clear of a stretch of bytes leave its view alone. *)
Lemma replay_undisturbed {X} lo hi (view : dev -> X) ops d :
  undisturbed lo hi view -> Forall (op_away lo hi) ops ->
  view (replay ops d) = view d.
Proof.
  intros [R32 R W32 W] Hall. revert d.
  induction Hall as [|op ops Hop _ IH]; intros d; [reflexivity|].
  cbn [replay fold_left]. change (fold_left apply_op ops) with (replay ops).
  rewrite IH. destruct op; cbn [apply_op op_away] in *; auto.
Qed.

(** *** The transport primitives *)

Lemma read32_run a (t : target_s dev) :
  exists t', target_mem_read32 a t = Done (peek32 a (link t), t')
    /\ after [Rd32 a (peek32 a (link t))] t t'
    /\ target_storage t' = target_storage t.
Proof.
  eexists. split; [reflexivity|]. split; [|reflexivity].
  constructor; [reflexivity|reflexivity|constructor; reflexivity].
Qed.

Lemma write32_run a v (t : target_s dev) :
  exists t', target_mem_write32 a v t = Done (tt, t')
    /\ after [Wr32 a (u32 v)] t t'
    /\ target_storage t' = target_storage t.
Proof.
  eexists. split; [reflexivity|]. split; [|reflexivity].
  constructor; [reflexivity|reflexivity|constructor; reflexivity].
Qed.

Lemma read_run a n (t : target_s dev) :
  exists t',
    let data := map u8 (resize n 0 (dev_read a n (link t)).1) in
    target_mem_read a n t = Done (data, t')
    /\ after [RdBlk a data] t t'
    /\ target_storage t' = target_storage t
    /\ List.length data = n.
Proof.
  eexists. cbv zeta. split; [reflexivity|].
  assert (Hlen : List.length (map u8 (resize n 0 (dev_read a n (link t)).1)) = n)
    by (rewrite length_map, length_resize; reflexivity).
  split; [|split; [reflexivity|exact Hlen]].
  constructor; [reflexivity| |constructor; reflexivity].
  cbn [with_link link replay fold_left apply_op]. rewrite Hlen. reflexivity.
Qed.

Lemma write_run a data (t : target_s dev) :
  exists t', target_mem_write a data t = Done (tt, t')
    /\ after [WrBlk a data] t t'
    /\ target_storage t' = target_storage t.
Proof.
  eexists. split; [reflexivity|]. split; [|reflexivity].
  constructor; [reflexivity|reflexivity|constructor; reflexivity].
Qed.

(** *** Stepping through a run

    Each lemma runs the first action of a [bind] from a state reached
    by the transactions [acc], and extends [acc]. *)

Lemma bind_ret {A B} (a : A) (k : A -> M dev B) t : bind (ret a) k t = k a t.
Proof. reflexivity. Qed.

Lemma bind_ret_r {A} (m : M dev A) t : bind m ret t = m t.
Proof. unfold bind, ret. destruct (m t) as [[a t1]| |]; reflexivity. Qed.

Lemma bind_assoc {A B C} (m : M dev A) (f : A -> M dev B) (g : B -> M dev C) t :
  bind (bind m f) g t = bind m (fun a => bind (f a) g) t.
Proof. unfold bind. destruct (m t) as [[a t1]| |]; reflexivity. Qed.

Lemma step_read32 {B} a (k : Z -> M dev B) {acc t ti p} :
  after acc t ti -> target_storage ti = Some p ->
  exists tj,
    bind (target_mem_read32 a) k ti = k (peek32 a (replay acc (link t))) tj
    /\ after (acc ++ [Rd32 a (peek32 a (replay acc (link t)))]) t tj
    /\ target_storage tj = Some p.
Proof.
  intros A S. destruct (read32_run a ti) as (tj & E & A' & S').
  rewrite (after_link _ _ _ A) in E, A'.
  exists tj. split; [apply (bind_run _ _ _ _ _ E)|].
  split; [eapply after_app; eassumption|congruence].
Qed.

Lemma step_write32 {B} a v (k : unit -> M dev B) {acc t ti p} :
  after acc t ti -> target_storage ti = Some p ->
  exists tj,
    bind (target_mem_write32 a v) k ti = k tt tj
    /\ after (acc ++ [Wr32 a (u32 v)]) t tj
    /\ target_storage tj = Some p.
Proof.
  intros A S. destruct (write32_run a v ti) as (tj & E & A' & S').
  exists tj. split; [apply (bind_run _ _ _ _ _ E)|].
  split; [eapply after_app; eassumption|congruence].
Qed.

Lemma step_read {B} a n (k : list Z -> M dev B) {acc t ti p} :
  after acc t ti -> target_storage ti = Some p ->
  exists tj,
    let data := map u8 (resize n 0 (dev_read a n (replay acc (link t))).1) in
    bind (target_mem_read a n) k ti = k data tj
    /\ after (acc ++ [RdBlk a data]) t tj
    /\ target_storage tj = Some p.
Proof.
  intros A S. destruct (read_run a n ti) as (tj & E & A' & S' & _).
  rewrite (after_link _ _ _ A) in E, A'.
  exists tj. cbv zeta. split; [apply (bind_run _ _ _ _ _ E)|].
  split; [eapply after_app; eassumption|congruence].
Qed.

Lemma step_write {B} a data (k : unit -> M dev B) {acc t ti p} :
  after acc t ti -> target_storage ti = Some p ->
  exists tj,
    bind (target_mem_write a data) k ti = k tt tj
    /\ after (acc ++ [WrBlk a data]) t tj
    /\ target_storage tj = Some p.
Proof.
  intros A S. destruct (write_run a data ti) as (tj & E & A' & S').
  exists tj. split; [apply (bind_run _ _ _ _ _ E)|].
  split; [eapply after_app; eassumption|congruence].
Qed.

Lemma step_get_priv {B} (k : imxrt_priv_s -> M dev B) {acc t ti p} :
  after acc t ti -> target_storage ti = Some p ->
  exists tj,
    bind get_priv k ti = k p tj
    /\ after acc t tj
    /\ target_storage tj = Some p.
Proof.
  intros A S. exists ti. split; [|split; assumption].
  unfold bind, get_priv. rewrite S. reflexivity.
Qed.

Lemma step_modify_priv {B} f (k : unit -> M dev B) {acc t ti p} :
  after acc t ti -> target_storage ti = Some p ->
  exists tj,
    bind (modify_priv f) k ti = k tt tj
    /\ after acc t tj
    /\ target_storage tj = Some (f p).
Proof.
  intros A S. exists (with_storage (Some (f p)) ti).
  split; [|split; [apply after_storage, A|reflexivity]].
  unfold bind, modify_priv. rewrite S. reflexivity.
Qed.

End Runs.

(** One step of a run recorded in [Hrun], from the state described by
    [A] (the transactions so far) and [S] (the private state). *)
Ltac run_done Hrun A S tj E A' S' :=
  cbv zeta in E, A';
  rewrite E in Hrun; clear E A S;
  rewrite <- ?app_assoc in A'; cbn [app] in A';
  rename A' into A; rename S' into S.

Ltac run_step Hrun A S :=
  let tj := fresh "t" in
  let E := fresh "E" in
  let A' := fresh "A" in
  let S' := fresh "S" in
  lazymatch type of Hrun with
  | _ = bind (ret _) _ _ => rewrite bind_ret in Hrun
  | _ = bind (bind _ _) _ _ => rewrite bind_assoc in Hrun
  | _ = bind (target_mem_read32 ?a) ?k _ =>
      destruct (step_read32 a k A S) as (tj & E & A' & S'); run_done Hrun A S tj E A' S'
  | _ = bind (target_mem_write32 ?a ?v) ?k _ =>
      destruct (step_write32 a v k A S) as (tj & E & A' & S'); run_done Hrun A S tj E A' S'
  | _ = bind (target_mem_read ?a ?n) ?k _ =>
      destruct (step_read a n k A S) as (tj & E & A' & S'); run_done Hrun A S tj E A' S'
  | _ = bind (target_mem_write ?a ?d) ?k _ =>
      destruct (step_write a d k A S) as (tj & E & A' & S'); run_done Hrun A S tj E A' S'
  | _ = bind get_priv ?k _ =>
      destruct (step_get_priv k A S) as (tj & E & A' & S'); run_done Hrun A S tj E A' S'
  | _ = bind (modify_priv ?f) ?k _ =>
      destruct (step_modify_priv f k A S) as (tj & E & A' & S'); run_done Hrun A S tj E A' S'
  end.

(** Turns the last action of a run into a [bind] so that it can be stepped. *)
Ltac run_last Hrun :=
  lazymatch type of Hrun with
  | _ = ?m ?ti => rewrite <- (bind_ret_r m ti) in Hrun
  end.

Create HintDb imxrt_map.
#[global] Hint Unfold
  IMXRT_FLEXSPI1_MOD_CTRL0 IMXRT_FLEXSPI1_INT IMXRT_FLEXSPI1_LUT_KEY
  IMXRT_FLEXSPI1_LUT_CTRL IMXRT_FLEXSPI1_CTRL1 IMXRT_FLEXSPI1_PRG_CTRL0
  IMXRT_FLEXSPI1_PRG_CTRL1 IMXRT_FLEXSPI1_PRG_CMD IMXRT_FLEXSPI1_PRG_READ_FIFO_CTRL
  IMXRT_FLEXSPI1_PRG_WRITE_FIFO_CTRL IMXRT_FLEXSPI1_PRG_READ_FIFO
  IMXRT_FLEXSPI1_PRG_WRITE_FIFO IMXRT_FLEXSPI1_LUT_BASE IMXRT_FLEXSPI1_BASE
  IMXRT_SRC_BOOT_MODE1 IMXRT_SRC_BOOT_MODE2 IMXRT_SRC_BASE : imxrt_map.

(** Address arithmetic on the register map. *)
Ltac map_lia := autounfold with imxrt_map in *; cbn [List.length] in *; lia.

Section Guard.
Context {dev : Type} {T : Transport dev}.

Lemma u32_peek32 a (d : dev) : u32 (peek32 a d) = peek32 a d.
Proof. apply u32_idem. Qed.

Lemma peek32_range a (d : dev) : 0 <= peek32 a d < 2 ^ 32.
Proof. apply u32_range. Qed.

Lemma enter_run (t : target_s dev) priv :
  target_storage t = Some priv ->
  exists pending t1,
    let m := peek32 IMXRT_FLEXSPI1_MOD_CTRL0 (link t) in
    let l := peek32 IMXRT_FLEXSPI1_LUT_CTRL (replay (enter_head_ops m pending) (link t)) in
    imxrt_enter_flash_mode t = Done (true, t1)
    /\ after (enter_ops m pending l) t t1
    /\ target_storage t1
       = Some (set_flexspi_lut_state l (set_flexspi_module_state m priv)).
Proof.
  intros S. pose proof (after_nil t) as A.
  remember (imxrt_enter_flash_mode t) as run eqn:Hrun.
  unfold imxrt_enter_flash_mode in Hrun.
  do 3 run_step Hrun A S.
  cbn [replay fold_left flexspi_module_state set_flexspi_module_state] in *.
  set (m := peek32 IMXRT_FLEXSPI1_MOD_CTRL0 (link t)) in *.
  assert (Hsus : u32 (Z.land m (not32 IMXRT_FLEXSPI1_MOD_CTRL0_SUSPEND))
                 = Z.land m 0xfffffffd) by (apply land_u32; vm_compute; split; congruence).
  assert (Hwm : u32 (Z.lor (IMXRT_FLEXSPI1_PRG_FIFO_CTRL_WATERMARK 128)
                       IMXRT_FLEXSPI1_PRG_FIFO_CTRL_CLR) = 61) by reflexivity.
  destruct (Z.land m IMXRT_FLEXSPI1_MOD_CTRL0_SUSPEND =? 0) eqn:Hc;
    do 2 run_step Hrun A S; rewrite ?Hsus in *;
    set (pending := peek32 IMXRT_FLEXSPI1_INT _) in *;
    assert (Hp : u32 pending = pending) by apply u32_peek32;
    do 6 run_step Hrun A S;
    cbn [flexspi_lut_state set_flexspi_lut_state] in *;
    rewrite Hp, Hwm in *;
    exists pending; unfold enter_ops, enter_head_ops; rewrite Hc; cbn [app];
    set (l := peek32 IMXRT_FLEXSPI1_LUT_CTRL _) in *;
    (destruct (l =? IMXRT_FLEXSPI1_LUT_CTRL_UNLOCK) eqn:Hl;
     [run_step Hrun A S|do 3 run_step Hrun A S]);
    eexists; (split; [exact Hrun|]); (split; [exact A|exact S]).
Qed.

Lemma exit_run (t : target_s dev) priv :
  target_storage t = Some priv ->
  exists t1,
    imxrt_exit_flash_mode t = Done (true, t1)
    /\ after (exit_ops (flexspi_module_state priv) (flexspi_lut_state priv)) t t1
    /\ target_storage t1 = Some priv.
Proof.
  intros S. pose proof (after_nil t) as A.
  remember (imxrt_exit_flash_mode t) as run eqn:Hrun.
  unfold imxrt_exit_flash_mode in Hrun. run_step Hrun A S.
  unfold exit_ops.
  destruct (flexspi_lut_state priv =? IMXRT_FLEXSPI1_LUT_CTRL_UNLOCK);
    [do 2 run_step Hrun A S|do 4 run_step Hrun A S];
    eexists; (split; [exact Hrun|]); (split; [exact A|exact S]).
Qed.

Lemma exit_unallocated (t : target_s dev) :
  target_storage t = None -> imxrt_exit_flash_mode t = Undef.
Proof. intros S. unfold imxrt_exit_flash_mode, bind, get_priv. rewrite S. reflexivity. Qed.

(** Leaving guarded mode never reports failure. *)
Lemma imxrt_exit_flash_mode_true (t t' : target_s dev) r :
  imxrt_exit_flash_mode t = Done (r, t') -> r = true.
Proof.
  intros Hrun. destruct (target_storage t) as [priv|] eqn:S.
  - destruct (exit_run t priv S) as (t1 & E & _). congruence.
  - rewrite exit_unallocated in Hrun by exact S. discriminate.
Qed.

Lemma replay_snoc ops op (d : dev) : replay (ops ++ [op]) d = apply_op (replay ops d) op.
Proof. rewrite replay_app. reflexivity. Qed.

(** Nothing on the way into guarded mode, up to the read of the lock
    state, writes the LUT lock register. *)
Lemma enter_head_away m pending :
  Forall (op_away IMXRT_FLEXSPI1_LUT_CTRL (IMXRT_FLEXSPI1_LUT_CTRL + 4))
    (enter_head_ops m pending).
Proof.
  unfold enter_head_ops.
  destruct (Z.land m IMXRT_FLEXSPI1_MOD_CTRL0_SUSPEND =? 0);
    repeat constructor; cbn [op_away]; map_lia.
Qed.

(** C3.  On a target whose private state is allocated, entering guarded
    mode and then leaving it both return true.  Leaving writes the
    module-control value captured at entry back verbatim as its last
    transaction, preceded, exactly when the captured lock state is not
    the unlocked value, by the unlock key and the captured lock state.
    When Module Control 0 and LUT Control are plain registers that no
    other actor mutates, both read afterwards what they read before
    entering. *)
Theorem guard_round_trip (t : target_s dev) priv :
  target_storage t = Some priv ->
  exists pending t1 t2,
    let m := peek32 IMXRT_FLEXSPI1_MOD_CTRL0 (link t) in
    let l := peek32 IMXRT_FLEXSPI1_LUT_CTRL (replay (enter_head_ops m pending) (link t)) in
    imxrt_enter_flash_mode t = Done (true, t1)
    /\ imxrt_exit_flash_mode t1 = Done (true, t2)
    /\ target_storage t1 = Some (mk_priv (boot_source priv) m l (flexspi_lut_seq priv))
    /\ after (enter_ops m pending l) t t1
    /\ after (exit_ops m l) t1 t2
    /\ u32 m = m /\ u32 l = l
    /\ (plain_register IMXRT_FLEXSPI1_MOD_CTRL0 ->
        plain_register IMXRT_FLEXSPI1_LUT_CTRL ->
        l = peek32 IMXRT_FLEXSPI1_LUT_CTRL (link t)
        /\ peek32 IMXRT_FLEXSPI1_MOD_CTRL0 (link t2) = m
        /\ peek32 IMXRT_FLEXSPI1_LUT_CTRL (link t2)
           = peek32 IMXRT_FLEXSPI1_LUT_CTRL (link t)).
Proof.
  intros S.
  destruct (enter_run t priv S) as (pending & t1 & Henter & A1 & S1).
  cbv zeta in Henter, A1, S1.
  destruct (exit_run t1 _ S1) as (t2 & Hexit & A2 & S2).
  cbn [flexspi_module_state flexspi_lut_state set_flexspi_lut_state
       set_flexspi_module_state] in A2.
  exists pending, t1, t2. cbv zeta.
  set (m := peek32 IMXRT_FLEXSPI1_MOD_CTRL0 (link t)) in *.
  set (l := peek32 IMXRT_FLEXSPI1_LUT_CTRL _) in *.
  assert (Hm : u32 m = m) by apply u32_peek32.
  assert (Hl : u32 l = l) by apply u32_peek32.
  repeat (split; [first [assumption|reflexivity]|]).
  intros Pm Pl.
  assert (Hl0 : l = peek32 IMXRT_FLEXSPI1_LUT_CTRL (link t)).
  { subst l. apply replay_undisturbed with (1 := reg_frame _ Pl), enter_head_away. }
  split; [exact Hl0|].
  rewrite (after_link _ _ _ A2), (after_link _ _ _ A1). split.
  - unfold exit_ops. rewrite replay_snoc. cbn [apply_op].
    rewrite Hm. apply (reg_read_back _ Pm), peek32_range.
  - unfold exit_ops, enter_ops.
    destruct (l =? IMXRT_FLEXSPI1_LUT_CTRL_UNLOCK).
    + rewrite <- replay_app, app_nil_r.
      apply replay_undisturbed with (1 := reg_frame _ Pl).
      rewrite !Forall_app. repeat split; [apply enter_head_away|..];
        repeat constructor; cbn [op_away]; map_lia.
    + cbn [app replay fold_left apply_op].
      rewrite (und_write32 _ _ _ (reg_frame _ Pl)) by map_lia.
      rewrite Hl, (reg_read_back _ Pl) by apply peek32_range. exact Hl0.
Qed.

End Guard.

(** ** The sequencer and the transfer primitives *)

Lemma lut_bytes_of_bytes n (bs : list Z) :
  List.length bs = (2 * n)%nat -> lut_bytes (lut_of_bytes bs) = bs.
Proof.
  revert bs. induction n as [|n IH]; intros bs Hlen.
  - destruct bs; [reflexivity|discriminate].
  - destruct bs as [|v [|om rest]]; cbn in Hlen; try lia.
    cbn [lut_of_bytes lut_bytes flat_map app value opcode_mode].
    f_equal. f_equal. apply IH. lia.
Qed.

Lemma program_spec_unaddressed command cb cb' length :
  Z.testbit command 16 = false ->
  program_spec (descriptor_of command) cb length
  = program_spec (descriptor_of command) cb' length.
Proof.
  intros H. unfold program_spec, program_prefix, descriptor_of.
  cbn [fc_addressing]. rewrite H. reflexivity.
Qed.

Lemma lut_writes_app ops1 ops2 : lut_writes (ops1 ++ ops2) = lut_writes ops1 ++ lut_writes ops2.
Proof.
  induction ops1 as [|op ops1 IH]; [reflexivity|].
  destruct op; cbn [app lut_writes]; try exact IH.
  destruct (_ =? _); cbn [app]; [f_equal|]; exact IH.
Qed.

Lemma lut_writes_rd32 a seen : lut_writes (map (Rd32 a) seen) = [].
Proof. induction seen as [|v seen IH]; [reflexivity|exact IH]. Qed.

Section Transfers.
Context {dev : Type} {T : Transport dev}.

Lemma peek_lut_length (d : dev) : List.length (peek_lut d) = 16%nat.
Proof. unfold peek_lut. rewrite length_map, length_resize. reflexivity. Qed.

Lemma peek_lut_bytes (d : dev) : map u8 (peek_lut d) = peek_lut d.
Proof. apply map_u8_idem. Qed.

Lemma step_build {B} command length
    (k : list imxrt_flexspi_lut_insn_s * nat -> M dev B) {acc t ti p} :
  0 <= length ->
  after acc t ti -> target_storage ti = Some p ->
  exists tj,
    let ctrl1 := peek32 IMXRT_FLEXSPI1_CTRL1 (replay acc (link t)) in
    let cb := column_bits_of ctrl1 in
    bind (imxrt_spi_build_sequence command length) k ti
    = k (program_spec (descriptor_of command) cb length,
         List.length (program_prefix (descriptor_of command) cb length)) tj
    /\ after (acc ++ (if Z.testbit command 16
                      then [Rd32 IMXRT_FLEXSPI1_CTRL1 ctrl1] else [])) t tj
    /\ target_storage tj = Some p.
Proof.
  intros Hlen A S. cbv zeta. unfold bind at 1. rewrite build_sequence_run by exact Hlen.
  destruct (Z.testbit command 16) eqn:Hmode.
  - cbv zeta. destruct (read32_run IMXRT_FLEXSPI1_CTRL1 ti) as (tj & E & A' & S').
    unfold target_mem_read32 in E. cbv zeta in E. injection E as E.
    unfold peek32 in *. rewrite <- (after_link _ _ _ A). rewrite E.
    exists tj. split; [reflexivity|].
    split; [eapply after_app; eassumption|congruence].
  - exists ti. rewrite app_nil_r. split; [|split; assumption].
    unfold program_spec, program_prefix, descriptor_of. cbn [fc_addressing].
    rewrite Hmode. reflexivity.
Qed.

Lemma configure_run command address length (t : target_s dev) priv :
  0 <= length ->
  target_storage t = Some priv ->
  exists t1,
    let saved := peek_lut (link t) in
    let ctrl1 := peek32 IMXRT_FLEXSPI1_CTRL1
                   (replay [RdBlk IMXRT_FLEXSPI1_LUT_BASE saved] (link t)) in
    imxrt_spi_configure_sequence command address length t = Done (tt, t1)
    /\ after (configure_ops command address length saved ctrl1) t t1
    /\ target_storage t1 = Some (set_flexspi_lut_seq (lut_of_bytes saved) priv).
Proof.
  intros Hlen S. pose proof (after_nil t) as A.
  remember (imxrt_spi_configure_sequence command address length t) as run eqn:Hrun.
  unfold imxrt_spi_configure_sequence in Hrun.
  do 2 run_step Hrun A S. cbn [replay fold_left] in *.
  change (map u8 (resize 16 0 (dev_read IMXRT_FLEXSPI1_LUT_BASE 16 (link t)).1))
    with (peek_lut (link t)) in *.
  set (saved := peek_lut (link t)) in *.
  lazymatch type of Hrun with
  | _ = bind _ ?k _ =>
      destruct (step_build command length k Hlen A S) as (t2 & E & A' & S')
  end.
  cbv zeta in E, A'. rewrite E in Hrun. clear E A S. rename A' into A, S' into S.
  cbn [fst] in Hrun. rewrite mode_bit in Hrun.
  set (ctrl1 := peek32 IMXRT_FLEXSPI1_CTRL1 _) in *.
  assert (Hl : u32 (Z.lor IMXRT_FLEXSPI1_PRG_LUT_INDEX_0 (IMXRT_FLEXSPI1_PRG_LENGTH length))
               = Z.land length 0xffff).
  { unfold IMXRT_FLEXSPI1_PRG_LUT_INDEX_0, IMXRT_FLEXSPI1_PRG_LENGTH.
    rewrite Z.lor_0_l. apply land_u32. lia. }
  unfold configure_ops.
  destruct (Z.testbit command 16);
    do 2 run_step Hrun A S; run_last Hrun; run_step Hrun A S;
    rewrite Hl in A; rewrite <- ?app_assoc in A; cbn [app] in *;
    eexists; (split; [exact Hrun|]); (split; [exact A|exact S]).
Qed.

Lemma configure_unallocated command address length (t : target_s dev) :
  target_storage t = None ->
  imxrt_spi_configure_sequence command address length t = Undef.
Proof.
  intros S. unfold imxrt_spi_configure_sequence.
  destruct (read_run IMXRT_FLEXSPI1_LUT_BASE 16 t) as (t1 & E & _ & S1 & _).
  cbv zeta in E. rewrite (bind_run _ _ _ _ _ E).
  unfold bind, modify_priv. rewrite S1, S. reflexivity.
Qed.

(** Calling into a function whose run from [ti] is known. *)
Lemma step_call {A B} (m : M dev A) (k : A -> M dev B) {acc t ti} ops a tj :
  after acc t ti -> m ti = Done (a, tj) -> after ops ti tj ->
  bind m k ti = k a tj /\ after (acc ++ ops) t tj.
Proof.
  intros A0 E A1. split; [apply (bind_run _ _ _ _ _ E)|eapply after_app; eassumption].
Qed.

Lemma restore_run (t : target_s dev) priv :
  target_storage t = Some priv ->
  exists t1,
    imxrt_spi_restore t = Done (tt, t1)
    /\ after (restore_ops (lut_bytes (flexspi_lut_seq priv))) t t1
    /\ target_storage t1 = Some priv.
Proof.
  intros S. pose proof (after_nil t) as A.
  remember (imxrt_spi_restore t) as run eqn:Hrun.
  unfold imxrt_spi_restore in Hrun. run_step Hrun A S. run_last Hrun. run_step Hrun A S.
  eexists. split; [exact Hrun|]. split; [exact A|exact S].
Qed.

(** A poll loop that ends has seen the command-done flag exactly on
    its last read of the interrupt status. *)
Lemma poll_cmd_done_inv budget (t t' : target_s dev) u :
  poll_cmd_done budget t = Done (u, t') ->
  exists seen,
    poll_trace seen
    /\ (List.length seen <= budget)%nat
    /\ after (map (Rd32 IMXRT_FLEXSPI1_INT) seen) t t'
    /\ target_storage t' = target_storage t.
Proof.
  revert t. induction budget as [|budget IH]; intros t Hrun; [discriminate|].
  cbn [poll_cmd_done] in Hrun.
  destruct (read32_run IMXRT_FLEXSPI1_INT t) as (t1 & E & A1 & S1).
  rewrite (bind_run _ _ _ _ _ E) in Hrun.
  set (v := peek32 IMXRT_FLEXSPI1_INT (link t)) in *.
  destruct (Z.land v IMXRT_FLEXSPI1_INT_PRG_CMD_DONE =? 0) eqn:Hv.
  - destruct (IH _ Hrun) as (seen & (waiting & done & -> & Hw & Hd) & Hlen & A & S).
    exists (v :: waiting ++ [done]). split; [|split; [|split]].
    + exists (v :: waiting), done. split; [reflexivity|].
      split; [constructor; [now apply Z.eqb_eq|exact Hw]|exact Hd].
    + cbn [List.length]. lia.
    + apply (after_app [_] _ _ _ _ A1 A).
    + congruence.
  - injection Hrun as _ <-. exists [v]. split; [|split; [|split]].
    + exists [], v. split; [reflexivity|]. split; [constructor|now apply Z.eqb_neq].
    + cbn [List.length]. lia.
    + exact A1.
    + exact S1.
Qed.

Lemma wait_inv budget (t t' : target_s dev) u :
  imxrt_spi_wait_complete budget t = Done (u, t') ->
  exists seen,
    poll_trace seen
    /\ after (wait_ops seen) t t'
    /\ target_storage t' = target_storage t.
Proof.
  intros Hrun. unfold imxrt_spi_wait_complete in Hrun.
  destruct (write32_run IMXRT_FLEXSPI1_PRG_CMD IMXRT_FLEXSPI1_PRG_RUN t)
    as (t1 & E1 & A1 & S1).
  rewrite (bind_run _ _ _ _ _ E1) in Hrun.
  apply bind_done in Hrun as (u2 & t2 & Hpoll & Hrun).
  destruct (poll_cmd_done_inv _ _ _ _ Hpoll) as (seen & Hseen & _ & A2 & S2).
  destruct (write32_run IMXRT_FLEXSPI1_INT IMXRT_FLEXSPI1_INT_PRG_CMD_DONE t2)
    as (t3 & E3 & A3 & S3).
  rewrite E3 in Hrun. injection Hrun as _ <-.
  exists seen. split; [exact Hseen|]. split; [|congruence].
  unfold wait_ops. eapply after_app; [exact A1|]. eapply after_app; eassumption.
Qed.

(** Waiting for completion, as a step of a run that ends. *)
Lemma step_wait {B} budget (k : unit -> M dev B) {acc t ti p} x :
  after acc t ti -> target_storage ti = Some p ->
  bind (imxrt_spi_wait_complete budget) k ti = Done x ->
  exists seen tj,
    poll_trace seen
    /\ k tt tj = Done x
    /\ after (acc ++ wait_ops seen) t tj
    /\ target_storage tj = Some p.
Proof.
  intros A S Hrun. destruct x as [r t'].
  apply bind_done in Hrun as ([] & tj & Hwait & Hrun).
  destruct (wait_inv _ _ _ _ Hwait) as (seen & Hseen & A1 & S1).
  exists seen, tj. split; [exact Hseen|]. split; [exact Hrun|].
  split; [eapply after_app; eassumption|congruence].
Qed.

Lemma read_inv budget command address length (t t' : target_s dev) buffer priv :
  0 <= length ->
  target_storage t = Some priv ->
  imxrt_spi_read budget command address length t = Done (buffer, t') ->
  exists seen window,
    let saved := peek_lut (link t) in
    let ctrl1 := peek32 IMXRT_FLEXSPI1_CTRL1
                   (replay [RdBlk IMXRT_FLEXSPI1_LUT_BASE saved] (link t)) in
    length <= 128
    /\ poll_trace seen
    /\ List.length window = 128%nat
    /\ window = map u8 (resize 128 0
                  (dev_read IMXRT_FLEXSPI1_PRG_READ_FIFO 128
                     (replay (configure_ops command address length saved ctrl1
                              ++ wait_ops seen) (link t))).1)
    /\ buffer = take (Z.to_nat length) window
    /\ after (read_ops command address length saved ctrl1 seen window) t t'
    /\ target_storage t' = Some (set_flexspi_lut_seq (lut_of_bytes saved) priv).
Proof.
  intros Hlen S Hrun. symmetry in Hrun. unfold imxrt_spi_read in Hrun.
  destruct (configure_run command address length t priv Hlen S) as (t1 & E & A & S1).
  cbv zeta in E, A, S1. rewrite (bind_run _ _ _ _ _ E) in Hrun. clear E S.
  set (saved := peek_lut (link t)) in *.
  set (ctrl1 := peek32 IMXRT_FLEXSPI1_CTRL1 _) in *.
  symmetry in Hrun.
  destruct (step_wait _ _ _ (after_app _ _ _ _ _ (after_nil t) A) S1 Hrun)
    as (seen & t2 & Hseen & Hrun2 & A2 & S2).
  cbn [app] in A2. clear Hrun A S1. symmetry in Hrun2.
  run_step Hrun2 A2 S2.
  set (window := map u8 (resize 128 0 _)) in *.
  assert (Hwin : List.length window = 128%nat)
    by (subst window; rewrite length_map, length_resize; reflexivity).
  unfold memcpy_out in Hrun2. rewrite Hwin in Hrun2.
  destruct (length <=? Z.of_nat 128) eqn:Hle; [|discriminate].
  apply Z.leb_le in Hle.
  run_step Hrun2 A2 S2. run_step Hrun2 A2 S2.
  unfold imxrt_spi_restore in Hrun2.
  do 3 run_step Hrun2 A2 S2.
  cbn [flexspi_lut_seq set_flexspi_lut_seq] in A2.
  rewrite (lut_bytes_of_bytes 8) in A2 by apply peek_lut_length.
  injection Hrun2 as -> ->.
  exists seen, window. cbv zeta. fold saved. fold ctrl1.
  repeat (split; [first [assumption|reflexivity|lia]|]).
  exact S2.
Qed.

Lemma write_inv budget command address buffer length (t t' : target_s dev) u priv :
  0 <= length ->
  target_storage t = Some priv ->
  imxrt_spi_write budget command address buffer length t = Done (u, t') ->
  exists seen,
    let saved := peek_lut (link t) in
    let ctrl1 := peek32 IMXRT_FLEXSPI1_CTRL1
                   (replay [RdBlk IMXRT_FLEXSPI1_LUT_BASE saved] (link t)) in
    (length = 0 \/ (length <= 128 /\ length <= Z.of_nat (List.length buffer)))
    /\ poll_trace seen
    /\ after (write_ops command address buffer length saved ctrl1 seen) t t'
    /\ target_storage t' = Some (set_flexspi_lut_seq (lut_of_bytes saved) priv).
Proof.
  intros Hlen S Hrun. symmetry in Hrun. unfold imxrt_spi_write in Hrun.
  destruct (configure_run command address length t priv Hlen S) as (t1 & E & A & S1).
  cbv zeta in E, A, S1. rewrite (bind_run _ _ _ _ _ E) in Hrun. clear E S.
  set (saved := peek_lut (link t)) in *.
  set (ctrl1 := peek32 IMXRT_FLEXSPI1_CTRL1 _) in *.
  pose proof (after_app _ _ _ _ _ (after_nil t) A) as A1. cbn [app] in A1. clear A.
  unfold write_ops.
  assert (Hfin : forall acc ti,
            after acc t ti ->
            target_storage ti = Some (set_flexspi_lut_seq (lut_of_bytes saved) priv) ->
            Done (u, t') = bind (imxrt_spi_wait_complete budget)
                             (fun _ => imxrt_spi_restore) ti ->
            exists seen,
              poll_trace seen
              /\ after (acc ++ wait_ops seen ++ restore_ops saved) t t'
              /\ target_storage t'
                 = Some (set_flexspi_lut_seq (lut_of_bytes saved) priv)).
  { intros acc ti A S Hr. symmetry in Hr.
    destruct (step_wait _ _ _ A S Hr) as (seen & t2 & Hseen & Hr2 & A2 & S2).
    symmetry in Hr2. cbv beta in Hr2. unfold imxrt_spi_restore in Hr2.
    run_step Hr2 A2 S2. run_last Hr2. run_step Hr2 A2 S2.
    cbn [flexspi_lut_seq set_flexspi_lut_seq] in A2.
    rewrite (lut_bytes_of_bytes 8) in A2 by apply peek_lut_length.
    injection Hr2 as -> ->. exists seen. split; [exact Hseen|].
    split; [|exact S2]. unfold restore_ops. rewrite <- ?app_assoc in *. exact A2. }
  destruct (length =? 0) eqn:Hz.
  - run_step Hrun A1 S1. destruct (Hfin _ _ A1 S1 Hrun) as (seen & Hseen & A2 & S2).
    exists seen. cbv zeta. apply Z.eqb_eq in Hz.
    split; [left; exact Hz|]. split; [exact Hseen|]. split; [exact A2|exact S2].
  - rewrite bind_assoc in Hrun. unfold memcpy_in in Hrun.
    rewrite length_replicate in Hrun.
    destruct ((length <=? Z.of_nat 128) && (length <=? Z.of_nat (List.length buffer)))
      eqn:Hfit; [|discriminate].
    apply andb_true_iff in Hfit as [H1 H2]. apply Z.leb_le in H1, H2.
    do 4 run_step Hrun A1 S1.
    destruct (Hfin _ _ A1 S1 Hrun) as (seen & Hseen & A2 & S2).
    exists seen. cbv zeta.
    split; [right; lia|]. split; [exact Hseen|]. split; [|exact S2].
    rewrite <- ?app_assoc in A2. exact A2.
Qed.

(** Writing the saved bytes back leaves the LUT reading as before. *)
Lemma lut_restored ops (t t' : target_s dev) :
  plain_lut ->
  after (ops ++ restore_ops (peek_lut (link t))) t t' ->
  peek_lut (link t') = peek_lut (link t).
Proof.
  intros P A. rewrite (after_link _ _ _ A). unfold restore_ops.
  rewrite replay_snoc. cbn [apply_op].
  rewrite (lut_read_back P) by apply peek_lut_length. apply peek_lut_bytes.
Qed.

End Transfers.

Section SequencerClaims.
Context {dev : Type} {T : Transport dev}.

Lemma configure_lut_writes command address length saved ctrl1 :
  lut_writes (configure_ops command address length saved ctrl1)
  = [lut_bytes (program_spec (descriptor_of command) (column_bits_of ctrl1) length)].
Proof. unfold configure_ops. destruct (Z.testbit command 16); reflexivity. Qed.

(** C1.  On a target whose private state is allocated, programming a
    command always completes and writes to the sequence LUT, once,
    the 8-slot program of the specification for the descriptor the
    command word carries: Command with the opcode; on a 3-byte
    addressed command RowAddress with 24 minus the column-address bit
    count read from Flash Control 1, then ColumnAddress with that
    count only when it is nonzero; DummyCycles with the dummy count;
    Read or Write by direction only when the length is positive; Stop
    in every remaining slot.  An unaddressed command of length 0
    populates exactly 2 slots, an addressed one with column count 0
    and positive length exactly 4. *)
Theorem sequencer_program command address length (t : target_s dev) priv :
  0 <= length ->
  target_storage t = Some priv ->
  exists t',
    let saved := peek_lut (link t) in
    let ctrl1 := peek32 IMXRT_FLEXSPI1_CTRL1
                   (replay [RdBlk IMXRT_FLEXSPI1_LUT_BASE saved] (link t)) in
    let c := descriptor_of command in
    let program := program_spec c (column_bits_of ctrl1) length in
    imxrt_spi_configure_sequence command address length t = Done (tt, t')
    /\ after (configure_ops command address length saved ctrl1) t t'
    /\ lut_writes (configure_ops command address length saved ctrl1)
       = [lut_bytes program]
    /\ List.length program = 8%nat
    /\ populated program
       = List.length (program_prefix c (column_bits_of ctrl1) length)
    /\ (fc_addressing c = AddrNone -> length = 0 ->
        program = [insn Command (fc_opcode c); insn DummyCycles (fc_dummy c);
                   lut_stop; lut_stop; lut_stop; lut_stop; lut_stop; lut_stop]
        /\ populated program = 2%nat)
    /\ (fc_addressing c = ThreeByteAddress -> column_bits_of ctrl1 = 0 -> 0 < length ->
        program = [insn Command (fc_opcode c); insn RowAddress 24;
                   insn DummyCycles (fc_dummy c);
                   match fc_direction c with
                   | DirIn => insn Read 0
                   | DirOut => insn Write 0
                   end;
                   lut_stop; lut_stop; lut_stop; lut_stop]
        /\ populated program = 4%nat).
Proof.
  intros Hlen S.
  destruct (configure_run command address length t priv Hlen S) as (t' & E & A & _).
  exists t'. cbv zeta in *.
  set (ctrl1 := peek32 IMXRT_FLEXSPI1_CTRL1 _) in *.
  split; [exact E|]. split; [exact A|].
  split; [apply configure_lut_writes|].
  split; [apply program_spec_length|].
  split; [apply populated_program_spec|].
  split.
  - intros Haddr ->. rewrite populated_program_spec.
    unfold program_spec, program_prefix. rewrite Haddr. split; reflexivity.
  - intros Haddr Hcb Hpos. rewrite populated_program_spec.
    unfold program_spec, program_prefix. rewrite Haddr, Hcb.
    replace (0 <? length) with true by (symmetry; apply Z.ltb_lt; exact Hpos).
    split; reflexivity.
Qed.

Lemma read_unallocated budget command address length (t : target_s dev) :
  target_storage t = None ->
  imxrt_spi_read budget command address length t = Undef.
Proof.
  intros S. unfold imxrt_spi_read, bind at 1.
  rewrite configure_unallocated by exact S. reflexivity.
Qed.

Lemma write_unallocated budget command address buffer length (t : target_s dev) :
  target_storage t = None ->
  imxrt_spi_write budget command address buffer length t = Undef.
Proof.
  intros S. unfold imxrt_spi_write, bind at 1.
  rewrite configure_unallocated by exact S. reflexivity.
Qed.

(** C8.  A read of at most 128 bytes that completes has performed, in
    this order and nothing else: the programming of the sequence (the
    length masked to 16 bits and sequence index 0 written to Sequence
    Control 1), the trigger and the poll for command-done with its
    acknowledgement, one read of the 128-byte read-FIFO window, the
    acknowledgement of read-FIFO-full, and the write-back of the saved
    LUT; what the caller receives is exactly the first [length] bytes
    of the window.  A read of more than 128 bytes never completes: it
    runs into undefined behaviour unless it already spins in the poll. *)
Theorem spi_read_protocol :
  (forall budget command address length (t t' : target_s dev) buffer,
      0 <= length <= 128 ->
      imxrt_spi_read budget command address length t = Done (buffer, t') ->
      exists priv seen window,
        let saved := peek_lut (link t) in
        let ctrl1 := peek32 IMXRT_FLEXSPI1_CTRL1
                       (replay [RdBlk IMXRT_FLEXSPI1_LUT_BASE saved] (link t)) in
        target_storage t = Some priv
        /\ poll_trace seen
        /\ List.length window = 128%nat
        /\ after (read_ops command address length saved ctrl1 seen window) t t'
        /\ buffer = take (Z.to_nat length) window
        /\ List.length buffer = Z.to_nat length
        /\ target_storage t' = Some (set_flexspi_lut_seq (lut_of_bytes saved) priv))
  /\ (forall budget command address length (t : target_s dev),
         128 < length ->
         imxrt_spi_read budget command address length t = Undef
         \/ imxrt_spi_read budget command address length t = Spin).
Proof.
  split.
  - intros budget command address length t t' buffer Hlen Hrun.
    destruct (target_storage t) as [priv|] eqn:S;
      [|rewrite read_unallocated in Hrun by exact S; discriminate].
    destruct (read_inv _ _ _ _ _ _ _ _ (proj1 Hlen) S Hrun)
      as (seen & window & _ & Hseen & Hwin & _ & Hbuf & A & S').
    exists priv, seen, window. cbv zeta.
    repeat (split; [first [assumption|reflexivity]|]).
    split; [|exact S']. rewrite Hbuf, length_take. lia.
  - intros budget command address length t Hlen.
    destruct (imxrt_spi_read budget command address length t) as [[buffer t']| |] eqn:Hrun;
      [exfalso|auto..].
    destruct (target_storage t) as [priv|] eqn:S;
      [|rewrite read_unallocated in Hrun by exact S; discriminate].
    assert (Hpos : 0 <= length) by lia.
    destruct (read_inv _ _ _ _ _ _ _ _ Hpos S Hrun) as (seen & window & Hle & _). lia.
Qed.

Lemma read_ops_restore command address length saved ctrl1 seen window :
  read_ops command address length saved ctrl1 seen window
  = (configure_ops command address length saved ctrl1 ++ wait_ops seen
     ++ [RdBlk IMXRT_FLEXSPI1_PRG_READ_FIFO window;
         Wr32 IMXRT_FLEXSPI1_INT IMXRT_FLEXSPI1_INT_READ_FIFO_FULL])
    ++ restore_ops saved.
Proof. unfold read_ops. rewrite <- !app_assoc. reflexivity. Qed.

Lemma write_ops_restore command address buffer length saved ctrl1 seen :
  write_ops command address buffer length saved ctrl1 seen
  = (configure_ops command address length saved ctrl1
     ++ (if length =? 0
         then []
         else [WrBlk IMXRT_FLEXSPI1_PRG_WRITE_FIFO (staged buffer length);
               Wr32 IMXRT_FLEXSPI1_INT IMXRT_FLEXSPI1_INT_WRITE_FIFO_EMPTY])
     ++ wait_ops seen)
    ++ restore_ops saved.
Proof. unfold write_ops. rewrite <- !app_assoc. reflexivity. Qed.

Lemma configure_ops_head command address length saved ctrl1 :
  configure_ops command address length saved ctrl1
  = RdBlk IMXRT_FLEXSPI1_LUT_BASE saved
    :: tl (configure_ops command address length saved ctrl1).
Proof. reflexivity. Qed.

(** C2.  Every read and every write through the sequencer that
    completes has, as its first transaction, captured the 8-slot LUT
    into the private state, has written the LUT exactly twice, first
    with the new program and last of all with the captured bytes
    verbatim, after the run and any data transfer; so when the LUT is
    plain storage that no other actor mutates, it reads after the
    operation what it read before. *)
Theorem lut_save_restore :
  (forall budget command address length (t t' : target_s dev) buffer,
      0 <= length ->
      imxrt_spi_read budget command address length t = Done (buffer, t') ->
      exists priv seen window front,
        let saved := peek_lut (link t) in
        let ctrl1 := peek32 IMXRT_FLEXSPI1_CTRL1
                       (replay [RdBlk IMXRT_FLEXSPI1_LUT_BASE saved] (link t)) in
        let ops := read_ops command address length saved ctrl1 seen window in
        target_storage t = Some priv
        /\ after ops t t'
        /\ ops = RdBlk IMXRT_FLEXSPI1_LUT_BASE saved :: front
                 ++ [WrBlk IMXRT_FLEXSPI1_LUT_BASE saved]
        /\ lut_writes ops
           = [lut_bytes (program_spec (descriptor_of command)
                           (column_bits_of ctrl1) length); saved]
        /\ target_storage t' = Some (set_flexspi_lut_seq (lut_of_bytes saved) priv)
        /\ lut_bytes (lut_of_bytes saved) = saved
        /\ (plain_lut -> peek_lut (link t') = peek_lut (link t)))
  /\ (forall budget command address buffer length (t t' : target_s dev) u,
         0 <= length ->
         imxrt_spi_write budget command address buffer length t = Done (u, t') ->
         exists priv seen front,
           let saved := peek_lut (link t) in
           let ctrl1 := peek32 IMXRT_FLEXSPI1_CTRL1
                          (replay [RdBlk IMXRT_FLEXSPI1_LUT_BASE saved] (link t)) in
           let ops := write_ops command address buffer length saved ctrl1 seen in
           target_storage t = Some priv
           /\ after ops t t'
           /\ ops = RdBlk IMXRT_FLEXSPI1_LUT_BASE saved :: front
                    ++ [WrBlk IMXRT_FLEXSPI1_LUT_BASE saved]
           /\ lut_writes ops
              = [lut_bytes (program_spec (descriptor_of command)
                              (column_bits_of ctrl1) length); saved]
           /\ target_storage t' = Some (set_flexspi_lut_seq (lut_of_bytes saved) priv)
           /\ lut_bytes (lut_of_bytes saved) = saved
           /\ (plain_lut -> peek_lut (link t') = peek_lut (link t))).
Proof.
  split.
  - intros budget command address length t t' buffer Hlen Hrun.
    destruct (target_storage t) as [priv|] eqn:S;
      [|rewrite read_unallocated in Hrun by exact S; discriminate].
    destruct (read_inv _ _ _ _ _ _ _ _ Hlen S Hrun)
      as (seen & window & _ & _ & _ & _ & _ & A & S').
    cbv zeta in A, S'. eexists priv, seen, window, _. cbv zeta.
    split; [reflexivity|]. split; [exact A|].
    split; [rewrite read_ops_restore, configure_ops_head; reflexivity|].
    split.
    { unfold read_ops, wait_ops, restore_ops.
      rewrite !lut_writes_app, configure_lut_writes, lut_writes_rd32. reflexivity. }
    split; [exact S'|].
    split; [apply (lut_bytes_of_bytes 8), peek_lut_length|].
    intros P. rewrite read_ops_restore in A. exact (lut_restored _ _ _ P A).
  - intros budget command address buffer length t t' u Hlen Hrun.
    destruct (target_storage t) as [priv|] eqn:S;
      [|rewrite write_unallocated in Hrun by exact S; discriminate].
    destruct (write_inv _ _ _ _ _ _ _ _ _ Hlen S Hrun) as (seen & _ & _ & A & S').
    cbv zeta in A, S'. eexists priv, seen, _. cbv zeta.
    split; [reflexivity|]. split; [exact A|].
    split; [rewrite write_ops_restore, configure_ops_head; reflexivity|].
    split.
    { unfold write_ops, wait_ops, restore_ops.
      rewrite !lut_writes_app, configure_lut_writes, lut_writes_rd32.
      destruct (length =? 0); reflexivity. }
    split; [exact S'|].
    split; [apply (lut_bytes_of_bytes 8), peek_lut_length|].
    intros P. rewrite write_ops_restore in A. exact (lut_restored _ _ _ P A).
Qed.

End SequencerClaims.

(** ** Mass erase *)

Section MassErase.
Context {dev : Type} {T : Transport dev}.

(** A whole command through the write primitive, as a step of a run
    that ends. *)
Lemma step_spi_write {B} budget command address buffer length
    (k : unit -> M dev B) {acc t ti p} x :
  0 <= length ->
  after acc t ti -> target_storage ti = Some p ->
  bind (imxrt_spi_write budget command address buffer length) k ti = Done x ->
  exists seen saved ctrl1 tj,
    k tt tj = Done x
    /\ poll_trace seen
    /\ after (acc ++ write_ops command address buffer length saved ctrl1 seen) t tj
    /\ target_storage tj = Some (set_flexspi_lut_seq (lut_of_bytes saved) p).
Proof.
  intros Hlen A S Hrun. destruct x as [r t'].
  apply bind_done in Hrun as ([] & tj & Hw & Hrun).
  destruct (write_inv _ _ _ _ _ _ _ _ _ Hlen S Hw) as (seen & _ & Hseen & A1 & S1).
  cbv zeta in A1, S1. eexists seen, _, _, tj.
  split; [exact Hrun|]. split; [exact Hseen|].
  split; [eapply after_app; eassumption|exact S1].
Qed.

Lemma step_spi_read {B} budget command address length
    (k : list Z -> M dev B) {acc t ti p} x :
  0 <= length ->
  after acc t ti -> target_storage ti = Some p ->
  bind (imxrt_spi_read budget command address length) k ti = Done x ->
  exists seen saved ctrl1 window tj,
    k (take (Z.to_nat length) window) tj = Done x
    /\ poll_trace seen
    /\ List.length window = 128%nat
    /\ length <= 128
    /\ after (acc ++ read_ops command address length saved ctrl1 seen window) t tj
    /\ target_storage tj = Some (set_flexspi_lut_seq (lut_of_bytes saved) p).
Proof.
  intros Hlen A S Hrun. destruct x as [r t'].
  apply bind_done in Hrun as (buffer & tj & Hr & Hrun).
  destruct (read_inv _ _ _ _ _ _ _ _ Hlen S Hr)
    as (seen & window & Hle & Hseen & Hwin & _ & -> & A1 & S1).
  cbv zeta in A1, S1. eexists seen, _, _, window, tj.
  split; [exact Hrun|]. split; [exact Hseen|]. split; [exact Hwin|].
  split; [exact Hle|].
  split; [eapply after_app; eassumption|exact S1].
Qed.

(** The status byte handed back is the first byte of the FIFO window. *)
Lemma step_read_status {B} budget (k : Z -> M dev B) {acc t ti p} x :
  after acc t ti -> target_storage ti = Some p ->
  bind (imxrt_spi_read_status budget) k ti = Done x ->
  exists seen saved ctrl1 window tj,
    k (nth 0 window 0) tj = Done x
    /\ poll_trace seen
    /\ List.length window = 128%nat
    /\ after (acc ++ read_ops SPI_FLASH_CMD_READ_STATUS 0 1 saved ctrl1 seen window) t tj
    /\ target_storage tj = Some (set_flexspi_lut_seq (lut_of_bytes saved) p).
Proof.
  intros A S Hrun. unfold imxrt_spi_read_status in Hrun. rewrite bind_assoc in Hrun.
  assert (Hone : 0 <= 1) by lia.
  destruct (step_spi_read _ _ _ _ _ _ Hone A S Hrun)
    as (seen & saved & ctrl1 & window & tj & Hk & Hseen & Hwin & _ & A1 & S1).
  rewrite bind_ret in Hk.
  exists seen, saved, ctrl1, window, tj.
  replace (nth 0 (take (Z.to_nat 1) window) 0) with (nth 0 window 0) in Hk
    by (destruct window; [discriminate|reflexivity]).
  auto.
Qed.

Lemma rd32_away lo hi a seen : Forall (op_away lo hi) (map (Rd32 a) seen).
Proof. induction seen; constructor; [exact I|assumption]. Qed.

Lemma guard_away_app ops1 ops2 :
  guard_away ops1 -> guard_away ops2 -> guard_away (ops1 ++ ops2).
Proof. intros [] []. split; apply Forall_app; auto. Qed.

Lemma guard_away_nil : guard_away [].
Proof. split; constructor. Qed.

Lemma configure_ops_guard_away command address length saved ctrl1 :
  guard_away (configure_ops command address length saved ctrl1).
Proof.
  unfold configure_ops.
  split; destruct (Z.testbit command 16); repeat constructor; cbn [op_away]; map_lia.
Qed.

Lemma wait_ops_guard_away seen : guard_away (wait_ops seen).
Proof.
  unfold wait_ops.
  split; repeat (apply Forall_app; split); try apply rd32_away;
    repeat constructor; cbn [op_away]; map_lia.
Qed.

Lemma read_ops_guard_away command address length saved ctrl1 seen window :
  guard_away (read_ops command address length saved ctrl1 seen window).
Proof.
  unfold read_ops, restore_ops.
  apply guard_away_app; [apply configure_ops_guard_away|].
  apply guard_away_app; [apply wait_ops_guard_away|].
  split; repeat constructor; cbn [op_away]; map_lia.
Qed.

Lemma write_ops_guard_away command address buffer length saved ctrl1 seen :
  guard_away (write_ops command address buffer length saved ctrl1 seen).
Proof.
  unfold write_ops, restore_ops.
  apply guard_away_app; [apply configure_ops_guard_away|].
  apply guard_away_app;
    [destruct (length =? 0); split; repeat constructor; cbn [op_away]; map_lia|].
  apply guard_away_app; [apply wait_ops_guard_away|].
  split; repeat constructor; cbn [op_away]; map_lia.
Qed.

(** A busy poll that ends has only issued status reads; the guard's
    snapshot in the private state is as before. *)
Lemma step_poll_erase_busy {B} budget polls (k : unit -> M dev B) {acc t ti p} x :
  after acc t ti -> target_storage ti = Some p ->
  bind (poll_erase_busy budget polls) k ti = Done x ->
  exists ops p' tj,
    k tt tj = Done x
    /\ after (acc ++ ops) t tj
    /\ guard_away ops
    /\ target_storage tj = Some p'
    /\ flexspi_module_state p' = flexspi_module_state p
    /\ flexspi_lut_state p' = flexspi_lut_state p.
Proof.
  revert acc ti p. induction polls as [|polls IH]; intros acc ti p A S Hrun;
    [discriminate|].
  cbn [poll_erase_busy] in Hrun. rewrite bind_assoc in Hrun.
  destruct (step_read_status _ _ _ A S Hrun)
    as (seen & saved & ctrl1 & window & tj & Hk & _ & _ & A1 & S1).
  destruct (Z.land (nth 0 window 0) SPI_FLASH_STATUS_BUSY =? 0).
  - rewrite bind_ret in Hk. eexists _, _, tj.
    split; [exact Hk|]. split; [exact A1|].
    split; [apply read_ops_guard_away|]. split; [exact S1|]. split; reflexivity.
  - rewrite bind_assoc in Hk.
    assert (A2 : after (acc ++ read_ops SPI_FLASH_CMD_READ_STATUS 0 1 saved ctrl1 seen window)
                   t (with_progress (Datatypes.S (progress tj)) tj)).
    { destruct A1 as [J L []]. constructor; [exact J|exact L|constructor; assumption]. }
    assert (Hk2 : bind (poll_erase_busy budget polls) k
                    (with_progress (Datatypes.S (progress tj)) tj) = Done x) by exact Hk.
    destruct (IH _ _ _ A2 S1 Hk2) as (ops & p' & tk & Hk3 & A3 & G3 & S3 & Hm & Hl).
    eexists _, p', tk. split; [exact Hk3|].
    split; [rewrite app_assoc; exact A3|].
    split; [apply guard_away_app; [apply read_ops_guard_away|exact G3]|].
    split; [exact S3|]. split; [exact Hm|exact Hl].
Qed.

(** What a mass erase that returns has done: entered guarded mode,
    issued Write Enable, read the status byte, and then either left
    guarded mode at once with [false], the write-enabled bit being
    clear, or issued Chip Erase, polled the status, left guarded mode
    and returned [true]. *)
Lemma mass_erase_inv budget (t t' : target_s dev) b priv :
  target_storage t = Some priv ->
  imxrt_spi_mass_erase budget t = Done (b, t') ->
  exists pending seen1 saved1 ctrl1 seen2 saved2 ctrl2 window more,
    let m := peek32 IMXRT_FLEXSPI1_MOD_CTRL0 (link t) in
    let l := peek32 IMXRT_FLEXSPI1_LUT_CTRL (replay (enter_head_ops m pending) (link t)) in
    let status := nth 0 window 0 in
    after (enter_ops m pending l
           ++ write_ops SPI_FLASH_CMD_WRITE_ENABLE 0 [] 0 saved1 ctrl1 seen1
           ++ read_ops SPI_FLASH_CMD_READ_STATUS 0 1 saved2 ctrl2 seen2 window
           ++ more ++ exit_ops m l) t t'
    /\ poll_trace seen1 /\ poll_trace seen2
    /\ List.length window = 128%nat
    /\ guard_away more
    /\ (if Z.land status SPI_FLASH_STATUS_WRITE_ENABLED =? 0
        then b = false /\ more = []
        else b = true
             /\ exists seen3 saved3 ctrl3 polling,
                  more = write_ops SPI_FLASH_CMD_CHIP_ERASE 0 [] 0 saved3 ctrl3 seen3
                         ++ polling).
Proof.
  intros S Hrun. unfold imxrt_spi_mass_erase in Hrun.
  destruct (enter_run t priv S) as (pending & t1 & E & A & S1).
  cbv zeta in E, A, S1. rewrite (bind_run _ _ _ _ _ E) in Hrun. clear E.
  set (m := peek32 IMXRT_FLEXSPI1_MOD_CTRL0 (link t)) in *.
  set (l := peek32 IMXRT_FLEXSPI1_LUT_CTRL _) in *.
  pose proof (after_app _ _ _ _ _ (after_nil t) A) as A1. cbn [app] in A1. clear A.
  unfold imxrt_spi_run_command in Hrun.
  assert (Hzero : 0 <= 0) by lia.
  destruct (step_spi_write _ _ _ _ _ _ _ Hzero A1 S1 Hrun)
    as (seen1 & saved1 & ctrl1 & t2 & Hrun2 & Hseen1 & A2 & S2).
  destruct (step_read_status _ _ _ A2 S2 Hrun2)
    as (seen2 & saved2 & ctrl2 & window & t3 & Hrun3 & Hseen2 & Hwin & A3 & S3).
  exists pending, seen1, saved1, ctrl1, seen2, saved2, ctrl2, window. cbv zeta.
  destruct (Z.land (nth 0 window 0) SPI_FLASH_STATUS_WRITE_ENABLED =? 0).
  - destruct (exit_run t3 _ S3) as (t4 & E4 & A4 & _).
    rewrite (bind_run _ _ _ _ _ E4) in Hrun3. injection Hrun3 as <- <-.
    cbn [flexspi_module_state flexspi_lut_state set_flexspi_lut_seq
         set_flexspi_lut_state set_flexspi_module_state] in A4.
    exists []. split.
    { pose proof (after_app _ _ _ _ _ A3 A4) as A5.
      rewrite <- !app_assoc in A5. exact A5. }
    repeat (split; [first [assumption|apply guard_away_nil]|]). split; reflexivity.
  - destruct (step_spi_write _ _ _ _ _ _ _ Hzero A3 S3 Hrun3)
      as (seen3 & saved3 & ctrl3 & t4 & Hrun4 & Hseen3 & A4 & S4).
    destruct (step_poll_erase_busy _ _ _ _ A4 S4 Hrun4)
      as (polling & p' & t5 & Hrun5 & A5 & G5 & S5 & Hm & Hl).
    destruct (exit_run t5 _ S5) as (t6 & E6 & A6 & _).
    rewrite E6 in Hrun5. injection Hrun5 as <- <-.
    rewrite Hm, Hl in A6.
    cbn [flexspi_module_state flexspi_lut_state set_flexspi_lut_seq
         set_flexspi_lut_state set_flexspi_module_state] in A6.
    exists (write_ops SPI_FLASH_CMD_CHIP_ERASE 0 [] 0 saved3 ctrl3 seen3 ++ polling).
    split.
    { pose proof (after_app _ _ _ _ _ A5 A6) as A7.
      rewrite <- !app_assoc in A7. rewrite <- !app_assoc. exact A7. }
    repeat (split; [first [assumption
                          |apply guard_away_app;
                           [apply write_ops_guard_away|assumption]]|]).
    split; [reflexivity|]. exists seen3, saved3, ctrl3, polling. reflexivity.
Qed.

(** Whatever happens between entering and leaving guarded mode, as
    long as it stays clear of the two guarded registers, they read
    afterwards what they read before. *)
Lemma guard_restores m pending l middle (d : dev) :
  plain_register IMXRT_FLEXSPI1_MOD_CTRL0 ->
  plain_register IMXRT_FLEXSPI1_LUT_CTRL ->
  guard_away middle ->
  m = peek32 IMXRT_FLEXSPI1_MOD_CTRL0 d ->
  l = peek32 IMXRT_FLEXSPI1_LUT_CTRL (replay (enter_head_ops m pending) d) ->
  peek32 IMXRT_FLEXSPI1_MOD_CTRL0
    (replay (enter_ops m pending l ++ middle ++ exit_ops m l) d)
  = peek32 IMXRT_FLEXSPI1_MOD_CTRL0 d
  /\ peek32 IMXRT_FLEXSPI1_LUT_CTRL
       (replay (enter_ops m pending l ++ middle ++ exit_ops m l) d)
     = peek32 IMXRT_FLEXSPI1_LUT_CTRL d.
Proof.
  intros Pm Pl [_ Gl] Hm Hl.
  assert (Hm32 : u32 m = m) by (rewrite Hm; apply u32_peek32).
  assert (Hl32 : u32 l = l) by (rewrite Hl; apply u32_peek32).
  assert (Hl0 : l = peek32 IMXRT_FLEXSPI1_LUT_CTRL d).
  { rewrite Hl. apply replay_undisturbed with (1 := reg_frame _ Pl), enter_head_away. }
  split.
  - unfold exit_ops. rewrite !app_assoc, replay_snoc. cbn [apply_op].
    rewrite Hm32, <- Hm. apply (reg_read_back _ Pm). rewrite Hm. apply peek32_range.
  - unfold exit_ops, enter_ops.
    destruct (l =? IMXRT_FLEXSPI1_LUT_CTRL_UNLOCK).
    + apply replay_undisturbed with (1 := reg_frame _ Pl).
      rewrite !Forall_app.
      repeat split; try apply enter_head_away; try exact Gl;
        repeat constructor; cbn [op_away]; map_lia.
    + cbn [app]. rewrite !app_assoc, replay_app.
      match goal with |- context [replay _ (replay ?ops d)] => generalize (replay ops d) end.
      intros d'. cbn [app replay fold_left apply_op].
      rewrite (und_write32 _ _ _ (reg_frame _ Pl)) by map_lia.
      rewrite Hl32, (reg_read_back _ Pl) by (rewrite Hl0; apply peek32_range).
      exact Hl0.
Qed.

Lemma write_enabled_bit status :
  (Z.land status SPI_FLASH_STATUS_WRITE_ENABLED =? 0) = negb (Z.testbit status 1).
Proof.
  change SPI_FLASH_STATUS_WRITE_ENABLED with (2 ^ 1).
  rewrite land_pow2 by lia. destruct (Z.testbit status 1); reflexivity.
Qed.

(** C6.  A mass erase that returns has entered guarded mode, issued
    Write Enable once and read the status byte once; when bit 1 of
    that byte is clear it has then done nothing but leave guarded mode
    and return failure (no second Write Enable, no Chip Erase), and
    this is the only way for it to return failure.  Guarded mode is
    left in every case; where Module Control 0 and LUT Control are
    plain registers they read afterwards what they read before. *)
Theorem mass_erase_abort budget (t t' : target_s dev) b priv :
  target_storage t = Some priv ->
  imxrt_spi_mass_erase budget t = Done (b, t') ->
  exists pending seen1 saved1 ctrl1 seen2 saved2 ctrl2 window more,
    let m := peek32 IMXRT_FLEXSPI1_MOD_CTRL0 (link t) in
    let l := peek32 IMXRT_FLEXSPI1_LUT_CTRL (replay (enter_head_ops m pending) (link t)) in
    let status := nth 0 window 0 in
    let write_enable := write_ops SPI_FLASH_CMD_WRITE_ENABLE 0 [] 0 saved1 ctrl1 seen1 in
    let read_status := read_ops SPI_FLASH_CMD_READ_STATUS 0 1 saved2 ctrl2 seen2 window in
    after (enter_ops m pending l ++ write_enable ++ read_status
           ++ more ++ exit_ops m l) t t'
    /\ (Z.testbit status 1 = false ->
        b = false
        /\ more = []
        /\ lut_writes (write_enable ++ read_status ++ more)
           = [lut_bytes (program_spec (descriptor_of SPI_FLASH_CMD_WRITE_ENABLE)
                           (column_bits_of ctrl1) 0);
              saved1;
              lut_bytes (program_spec (descriptor_of SPI_FLASH_CMD_READ_STATUS)
                           (column_bits_of ctrl2) 1);
              saved2])
    /\ (b = false -> Z.testbit status 1 = false)
    /\ (plain_register IMXRT_FLEXSPI1_MOD_CTRL0 ->
        plain_register IMXRT_FLEXSPI1_LUT_CTRL ->
        peek32 IMXRT_FLEXSPI1_MOD_CTRL0 (link t')
        = peek32 IMXRT_FLEXSPI1_MOD_CTRL0 (link t)
        /\ peek32 IMXRT_FLEXSPI1_LUT_CTRL (link t')
           = peek32 IMXRT_FLEXSPI1_LUT_CTRL (link t)).
Proof.
  intros S Hrun.
  destruct (mass_erase_inv budget t t' b priv S Hrun)
    as (pending & seen1 & saved1 & ctrl1 & seen2 & saved2 & ctrl2 & window & more
        & A & _ & _ & _ & G & Hcase).
  cbv zeta in A, Hcase. rewrite write_enabled_bit in Hcase.
  exists pending, seen1, saved1, ctrl1, seen2, saved2, ctrl2, window, more. cbv zeta.
  split; [exact A|]. split; [|split].
  - intros Hbit. rewrite Hbit in Hcase. destruct Hcase as [-> ->].
    split; [reflexivity|]. split; [reflexivity|].
    rewrite app_nil_r. unfold write_ops, read_ops, wait_ops, restore_ops.
    rewrite !lut_writes_app, !configure_lut_writes, !lut_writes_rd32. reflexivity.
  - intros ->. destruct (Z.testbit (nth 0 window 0) 1); [|reflexivity].
    destruct Hcase as [Hb _]. discriminate.
  - intros Pm Pl. rewrite (after_link _ _ _ A).
    match goal with
    | |- context [replay (?e ++ ?w ++ ?r ++ more ++ ?x) _] =>
        replace (e ++ w ++ r ++ more ++ x) with (e ++ (w ++ r ++ more) ++ x)
          by (rewrite <- !app_assoc; reflexivity)
    end.
    apply guard_restores; try assumption; try reflexivity.
    apply guard_away_app; [apply write_ops_guard_away|].
    apply guard_away_app; [apply read_ops_guard_away|exact G].
Qed.

(** C10.  A mass erase that returns (so every poll ended) returns true
    exactly when bit 1 of the status byte read after Write Enable is
    set: once that check has passed, Chip Erase is issued, the status
    is polled, and the result is that of leaving guarded mode, which
    is true whatever the polled status bytes were. *)
Theorem mass_erase_result budget (t t' : target_s dev) b priv :
  target_storage t = Some priv ->
  imxrt_spi_mass_erase budget t = Done (b, t') ->
  exists pending seen1 saved1 ctrl1 seen2 saved2 ctrl2 window more,
    let m := peek32 IMXRT_FLEXSPI1_MOD_CTRL0 (link t) in
    let l := peek32 IMXRT_FLEXSPI1_LUT_CTRL (replay (enter_head_ops m pending) (link t)) in
    let status := nth 0 window 0 in
    after (enter_ops m pending l
           ++ write_ops SPI_FLASH_CMD_WRITE_ENABLE 0 [] 0 saved1 ctrl1 seen1
           ++ read_ops SPI_FLASH_CMD_READ_STATUS 0 1 saved2 ctrl2 seen2 window
           ++ more ++ exit_ops m l) t t'
    /\ b = Z.testbit status 1
    /\ (b = true <-> Z.land status SPI_FLASH_STATUS_WRITE_ENABLED <> 0)
    /\ (b = true ->
        exists seen3 saved3 ctrl3 polling,
          more = write_ops SPI_FLASH_CMD_CHIP_ERASE 0 [] 0 saved3 ctrl3 seen3 ++ polling).
Proof.
  intros S Hrun.
  destruct (mass_erase_inv budget t t' b priv S Hrun)
    as (pending & seen1 & saved1 & ctrl1 & seen2 & saved2 & ctrl2 & window & more
        & A & _ & _ & _ & _ & Hcase).
  cbv zeta in A, Hcase.
  exists pending, seen1, saved1, ctrl1, seen2, saved2, ctrl2, window, more. cbv zeta.
  split; [exact A|].
  pose proof (write_enabled_bit (nth 0 window 0)) as Hbit.
  destruct (Z.land (nth 0 window 0) SPI_FLASH_STATUS_WRITE_ENABLED =? 0) eqn:Hz.
  - destruct Hcase as [-> ->]. apply Z.eqb_eq in Hz.
    split; [destruct (Z.testbit (nth 0 window 0) 1); [discriminate|reflexivity]|].
    split; [split; [discriminate|intros H; contradiction]|discriminate].
  - destruct Hcase as [-> Hmore]. apply Z.eqb_neq in Hz.
    split; [destruct (Z.testbit (nth 0 window 0) 1); [reflexivity|discriminate]|].
    split; [split; auto|auto].
Qed.

End MassErase.

(** ** Flash registration and probe *)

Section ProbeClaims.
Context {dev : Type} {T : Transport dev} {F : Framework dev}.

(** C7.  When SFDP discovery fails, the geometry used is the default
    one: page size 256, sector size 4096, the caller's fallback
    capacity, and the sector-erase opcode 0x20; for a fallback of
    8388608 it is {256, 4096, 8388608, 0x20}.  A registration whose
    allocation succeeds and whose discovery fails registers, at the
    FlexSPI base address, a region of the fallback capacity with
    4096-byte blocks.  A successful discovery is used as reported. *)
Theorem flash_geometry_fallback :
  (forall length,
      imxrt_flash_geometry None length
      = mk_spi_parameters 256 4096 length SPI_FLASH_OPCODE_SECTOR_ERASE)
  /\ SPI_FLASH_OPCODE_SECTOR_ERASE = 0x20
  /\ imxrt_flash_geometry None 8388608 = mk_spi_parameters 256 4096 8388608 0x20
  /\ (forall spi_parameters length,
         imxrt_flash_geometry (Some spi_parameters) length = spi_parameters)
  /\ (forall budget length (t t1 : target_s dev) h,
         heap t = S h ->
         sfdp_read_parameters (imxrt_spi_read_sfdp budget) (with_heap h t)
         = Done (None, t1) ->
         imxrt_add_flash budget length t
         = Done (tt, with_flash
                       (flash t1 ++ [mk_flash IMXRT_FLEXSPI_BASE length 4096 0xff]) t1)).
Proof.
  repeat split.
  intros budget length t t1 h Hheap Hsfdp.
  unfold imxrt_add_flash, bind at 1, calloc. rewrite Hheap. cbn [negb].
  unfold bind. rewrite Hsfdp. reflexivity.
Qed.

Lemma shl1_u32_inv n (t t' : target_s dev) capacity :
  0 <= n ->
  shl1_u32 n t = Done (capacity, t') -> n < 32 /\ capacity = 2 ^ n /\ t' = t.
Proof.
  intros Hn. unfold shl1_u32. destruct (Z.ltb_spec n 32) as [Hlt|]; [|discriminate].
  intros [= <- <-]. split; [exact Hlt|]. split; [|reflexivity].
  rewrite Z.shiftl_1_l. apply u32_small. split; [apply Z.pow_nonneg; lia|].
  apply Z.pow_lt_mono_r; lia.
Qed.

(** What the serial-flash branch of the probe has done when it returns. *)
Lemma probe_flash_inv budget (t t' : target_s dev) u priv :
  target_storage t = Some priv ->
  imxrt_probe_flash budget t = Done (u, t') ->
  exists t_entered id_bytes t_read,
    imxrt_enter_flash_mode t = Done (true, t_entered)
    /\ imxrt_spi_read budget SPI_FLASH_CMD_READ_JEDEC_ID 0 3 t_entered
       = Done (id_bytes, t_read)
    /\ List.length id_bytes = 3%nat
    /\ Forall (fun byte => 0 <= byte < 256) id_bytes
    /\ let flash_id := flash_id_of_bytes id_bytes in
       let t_hooked := with_hooks (Some fn_imxrt_spi_mass_erase)
                         (Some fn_imxrt_enter_flash_mode)
                         (Some fn_imxrt_exit_flash_mode) t_read in
       flash t_hooked = flash t
       /\ if flash_id_valid flash_id
          then id_capacity flash_id < 32
               /\ exists t_added,
                    imxrt_add_flash budget (2 ^ id_capacity flash_id) t_hooked
                    = Done (tt, t_added)
                    /\ imxrt_exit_flash_mode t_added = Done (true, t')
          else imxrt_exit_flash_mode t_hooked = Done (true, t')
               /\ flash t' = flash t.
Proof.
  intros S Hrun. unfold imxrt_probe_flash in Hrun.
  destruct (enter_run t priv S) as (pending & t1 & E & A1 & S1).
  cbv zeta in E, A1, S1. rewrite (bind_run _ _ _ _ _ E) in Hrun.
  apply bind_done in Hrun as (id_bytes & t2 & Hread & Hrun).
  assert (Hthree : 0 <= 3) by lia.
  destruct (read_inv _ _ _ _ _ _ _ _ Hthree S1 Hread)
    as (seen & window & _ & _ & Hwin & Hwindow & Hbuf & A2 & S2).
  cbv zeta in A2, S2.
  unfold bind at 1, install_hooks in Hrun.
  set (t3 := with_hooks _ _ _ t2) in *.
  assert (S3 : target_storage t3 = target_storage t2) by reflexivity.
  assert (Hflash : flash t3 = flash t).
  { change (flash t3) with (flash t2).
    rewrite (same_flash _ _ (after_handle _ _ _ A2)).
    apply (same_flash _ _ (after_handle _ _ _ A1)). }
  assert (Hbytes : Forall (fun byte => 0 <= byte < 256) id_bytes).
  { rewrite Hbuf. apply Forall_take. rewrite Hwindow.
    apply Forall_forall. intros byte Hin. apply list_elem_of_In in Hin.
    apply in_map_iff in Hin as (raw & <- & _). apply u8_range. }
  exists t1, id_bytes, t2.
  split; [exact E|]. split; [exact Hread|].
  split; [rewrite Hbuf, length_take, Hwin; reflexivity|].
  split; [exact Hbytes|]. cbv zeta. fold t3. split; [exact Hflash|].
  destruct (flash_id_valid (flash_id_of_bytes id_bytes)).
  - rewrite bind_assoc in Hrun.
    apply bind_done in Hrun as (capacity & t4 & Hshl & Hrun).
    assert (Hcap : 0 <= id_capacity (flash_id_of_bytes id_bytes)).
    { unfold flash_id_of_bytes. cbn [id_capacity].
      destruct id_bytes as [|b0 [|b1 [|b2 rest]]]; cbn [nth]; try lia.
      inversion Hbytes as [|? ? _ Hb1]. inversion Hb1 as [|? ? _ Hb2].
      inversion Hb2 as [|? ? Hb _]. lia. }
    destruct (shl1_u32_inv _ _ _ _ Hcap Hshl) as (Hlt & -> & ->).
    split; [exact Hlt|].
    apply bind_done in Hrun as ([] & t5 & Hadd & Hrun).
    apply bind_done in Hrun as (r & t6 & Hexit & Hrun).
    injection Hrun as _ <-.
    exists t5. split; [exact Hadd|].
    destruct (imxrt_exit_flash_mode_true _ _ _ Hexit). exact Hexit.
  - rewrite bind_ret in Hrun.
    apply bind_done in Hrun as (r & t6 & Hexit & Hrun).
    injection Hrun as _ <-.
    assert (S3' : target_storage t3
                  = Some (set_flexspi_lut_seq (lut_of_bytes (peek_lut (link t1)))
                            (set_flexspi_lut_state
                               (peek32 IMXRT_FLEXSPI1_LUT_CTRL
                                  (replay (enter_head_ops
                                             (peek32 IMXRT_FLEXSPI1_MOD_CTRL0 (link t))
                                             pending) (link t)))
                               (set_flexspi_module_state
                                  (peek32 IMXRT_FLEXSPI1_MOD_CTRL0 (link t)) priv))))
      by (rewrite S3; exact S2).
    destruct (exit_run t3 _ S3') as (t7 & E7 & A7 & _).
    rewrite E7 in Hexit. injection Hexit as <- <-.
    split; [exact E7|].
    rewrite (same_flash _ _ (after_handle _ _ _ A7)). exact Hflash.
Qed.

Lemma flash_id_valid_spec flash_id :
  flash_id_valid flash_id = true
  <-> id_manufacturer flash_id <> 0xff
      /\ id_type flash_id <> 0xff
      /\ id_capacity flash_id <> 0xff.
Proof.
  unfold flash_id_valid. rewrite !andb_true_iff, !negb_true_iff, !Z.eqb_neq. tauto.
Qed.

(** C5, as the code has it.  A probe of a matching part whose private
    state could be allocated returns true.  When the boot source read
    from the boot configuration is serial NOR or serial NAND, it enters
    guarded mode, reads the three JEDEC ID bytes, and then: if none of
    the three bytes is 0xff, the capacity exponent is below 32 and
    flash registration is run with fallback capacity 2 ^ exponent
    before guarded mode is left; if any of them is 0xff, guarded mode
    is left at once and the flash regions are those from before the
    probe. *)
Theorem probe_flash_registration budget (t t' : target_s dev) b h :
  part_id t = 0x88c ->
  heap t = S h ->
  imxrt_probe budget t = Done (b, t') ->
  b = true
  /\ (forall flash_id,
        flash_id_valid flash_id = true
        <-> id_manufacturer flash_id <> 0xff
            /\ id_type flash_id <> 0xff
            /\ id_capacity flash_id <> 0xff)
  /\ exists boot_cfg priv t_ready,
       In (Rd32 IMXRT_SRC_BOOT_MODE1 boot_cfg) (journal t_ready)
       /\ target_storage t_ready = Some priv
       /\ boot_source priv = imxrt_boot_source boot_cfg
       /\ flash t_ready = flash t
       /\ if serial_flash_boot (boot_source priv)
          then
            exists t_entered id_bytes t_read,
              imxrt_enter_flash_mode t_ready = Done (true, t_entered)
              /\ imxrt_spi_read budget SPI_FLASH_CMD_READ_JEDEC_ID 0 3 t_entered
                 = Done (id_bytes, t_read)
              /\ List.length id_bytes = 3%nat
              /\ let flash_id := flash_id_of_bytes id_bytes in
                 let t_hooked := with_hooks (Some fn_imxrt_spi_mass_erase)
                                   (Some fn_imxrt_enter_flash_mode)
                                   (Some fn_imxrt_exit_flash_mode) t_read in
                 if flash_id_valid flash_id
                 then id_capacity flash_id < 32
                      /\ exists t_added,
                           imxrt_add_flash budget (2 ^ id_capacity flash_id) t_hooked
                           = Done (tt, t_added)
                           /\ imxrt_exit_flash_mode t_added = Done (true, t')
                 else imxrt_exit_flash_mode t_hooked = Done (true, t')
                      /\ flash t' = flash t
          else t' = t_ready.
Proof.
  intros Hpid Hheap Hrun. unfold imxrt_probe in Hrun.
  rewrite Hpid in Hrun. cbn [Z.eqb Pos.eqb negb] in Hrun.
  unfold bind at 1, calloc in Hrun. rewrite Hheap in Hrun. cbn [negb] in Hrun.
  unfold bind at 1 in Hrun. unfold bind at 1 in Hrun.
  set (t0 := with_identity _ _ _) in Hrun.
  assert (S0 : target_storage t0 = Some priv_zero) by reflexivity.
  assert (F0 : flash t0 = flash t) by reflexivity.
  assert (Hdebug : exists t1,
             target_storage t1 = Some priv_zero /\ flash t1 = flash t
             /\ Done (b, t')
                = (let! boot_cfg := target_mem_read32 IMXRT_SRC_BOOT_MODE1 in
                   do! modify_priv (set_boot_source (imxrt_boot_source boot_cfg)) in
                   do! target_add_ram IMXRT_OCRAM1_BASE IMXRT_OCRAM1_SIZE in
                   do! target_add_ram IMXRT_OCRAM2_BASE IMXRT_OCRAM2_SIZE in
                   let! priv := get_priv in
                   do! (if serial_flash_boot (boot_source priv)
                        then imxrt_probe_flash budget
                        else ret tt) in
                   ret true) t1).
  { destruct ENABLE_DEBUG.
    - rewrite bind_assoc in Hrun. unfold bind at 1, target_mem_read32 in Hrun.
      cbv zeta in Hrun. rewrite bind_ret in Hrun.
      eexists. split; [|split; [|symmetry; exact Hrun]]; reflexivity.
    - rewrite bind_ret in Hrun. exists t0. auto. }
  clear Hrun. destruct Hdebug as (t1 & S1 & F1 & Hrun).
  unfold bind at 1, target_mem_read32 in Hrun. cbv zeta in Hrun.
  set (boot_cfg := u32 (dev_read32 IMXRT_SRC_BOOT_MODE1 (link t1)).1) in *.
  set (t2 := with_link _ _ t1) in Hrun.
  unfold bind at 1, modify_priv in Hrun.
  change (target_storage t2) with (target_storage t1) in Hrun. rewrite S1 in Hrun.
  unfold bind at 1, target_add_ram in Hrun. unfold bind at 1 in Hrun.
  set (t3 := with_ram _ (with_ram _ _)) in Hrun.
  unfold bind at 1, get_priv in Hrun.
  change (target_storage t3) with (Some (set_boot_source (imxrt_boot_source boot_cfg) priv_zero))
    in Hrun.
  cbn [boot_source set_boot_source] in Hrun.
  symmetry in Hrun. apply bind_done in Hrun as (u & t4 & Hflash & Hret).
  injection Hret as <- <-.
  split; [reflexivity|]. split; [apply flash_id_valid_spec|].
  exists boot_cfg, (set_boot_source (imxrt_boot_source boot_cfg) priv_zero), t3.
  split.
  { change (journal t3) with (journal t1 ++ [Rd32 IMXRT_SRC_BOOT_MODE1 boot_cfg]).
    apply in_or_app. right. left. reflexivity. }
  split; [reflexivity|]. split; [reflexivity|].
  split; [exact F1|].
  cbn [boot_source set_boot_source].
  destruct (serial_flash_boot (imxrt_boot_source boot_cfg)).
  - destruct (probe_flash_inv budget t3 t4 u _ eq_refl Hflash)
      as (t_entered & id_bytes & t_read & He & Hr & Hl & _ & Hrest).
    cbv zeta in Hrest. destruct Hrest as [Hf Hrest].
    exists t_entered, id_bytes, t_read.
    split; [exact He|]. split; [exact Hr|]. split; [exact Hl|]. cbv zeta.
    destruct (flash_id_valid (flash_id_of_bytes id_bytes)); [exact Hrest|].
    destruct Hrest as [Hexit Hflash']. split; [exact Hexit|].
    rewrite Hflash'. exact F1.
  - injection Hflash as _ <-. reflexivity.
Qed.

End ProbeClaims.

(** ** Poll budgets

    The budget only bounds the polls: a run that ends within a budget
    ends in the same state, with the same result, within any larger one. *)

Section Budgets.
Context {dev : Type} {T : Transport dev}.











End Budgets.

(** ** The bench device is plain storage where the driver needs it *)

Lemma bench_regs_read32 a c : Bench.regs (Bench.read32 a c).2 = Bench.regs c.
Proof.
  unfold Bench.read32. destruct (a =? IMXRT_FLEXSPI1_INT); [|reflexivity].
  destruct (Bench.running c) as [[|n]|]; reflexivity.
Qed.

Lemma bench_lut_read32 a c : Bench.lut (Bench.read32 a c).2 = Bench.lut c.
Proof.
  unfold Bench.read32. destruct (a =? IMXRT_FLEXSPI1_INT); [|reflexivity].
  destruct (Bench.running c) as [[|n]|]; reflexivity.
Qed.

Lemma bench_execute_keeps c :
  Bench.regs (Bench.execute c) = Bench.regs c
  /\ Bench.lut (Bench.execute c) = Bench.lut c.
Proof.
  unfold Bench.execute.
  repeat match goal with
         | |- context [if ?b then _ else _] => destruct b
         | |- context [match Bench.busy_left c with _ => _ end] =>
             destruct (Bench.busy_left c)
         end; split; reflexivity.
Qed.

Lemma bench_lut_write32 a v c : Bench.lut (Bench.write32 a v c) = Bench.lut c.
Proof.
  unfold Bench.write32.
  destruct (a =? IMXRT_FLEXSPI1_PRG_CMD);
    [destruct (Z.land v 1 =? 0); [reflexivity|apply bench_execute_keeps]|].
  destruct (a =? IMXRT_FLEXSPI1_INT); reflexivity.
Qed.

Lemma bench_regs_write a bs c : Bench.regs (Bench.write a bs c) = Bench.regs c.
Proof.
  unfold Bench.write. destruct (a =? IMXRT_FLEXSPI1_LUT_BASE); [reflexivity|].
  destruct (a =? IMXRT_FLEXSPI1_PRG_WRITE_FIFO); reflexivity.
Qed.

Lemma bench_peek32 a c :
  a <> IMXRT_FLEXSPI1_INT ->
  peek32 a c = u32 (Bench.lookup_reg a (Bench.regs c)).
Proof.
  intros Ha. unfold peek32. cbn [dev_read32 Bench.transport]. unfold Bench.read32.
  destruct (Z.eqb_spec a IMXRT_FLEXSPI1_INT); [contradiction|reflexivity].
Qed.

(** Every register other than the interrupt status and the sequence
    trigger is plain storage on the bench. *)
Lemma bench_plain_register a :
  a <> IMXRT_FLEXSPI1_INT -> a <> IMXRT_FLEXSPI1_PRG_CMD -> plain_register a.
Proof.
  intros Hint Hcmd. split; [split|].
  - intros a' c. rewrite !bench_peek32 by exact Hint.
    cbn [dev_read32 Bench.transport]. now rewrite bench_regs_read32.
  - intros a' n c. rewrite !bench_peek32 by exact Hint.
    cbn [dev_read Bench.transport]. unfold Bench.read.
    destruct (a' =? IMXRT_FLEXSPI1_LUT_BASE); [reflexivity|].
    destruct (a' =? IMXRT_FLEXSPI1_PRG_READ_FIFO); reflexivity.
  - intros a' v c Haway. rewrite !bench_peek32 by exact Hint.
    cbn [dev_write32 Bench.transport]. unfold Bench.write32.
    destruct (a' =? IMXRT_FLEXSPI1_PRG_CMD);
      [destruct (Z.land v 1 =? 0); [reflexivity|]|].
    + cbn [Bench.set_int Bench.regs].
      now rewrite (proj1 (bench_execute_keeps c)).
    + destruct (a' =? IMXRT_FLEXSPI1_INT); [reflexivity|].
      cbn [Bench.set_regs Bench.regs Bench.lookup_reg].
      destruct (Z.eqb_spec a' a); [lia|reflexivity].
  - intros a' bs c _. rewrite !bench_peek32 by exact Hint.
    cbn [dev_write Bench.transport]. now rewrite bench_regs_write.
  - intros v c Hv. rewrite bench_peek32 by exact Hint.
    cbn [dev_write32 Bench.transport]. unfold Bench.write32.
    destruct (Z.eqb_spec a IMXRT_FLEXSPI1_PRG_CMD); [contradiction|].
    destruct (Z.eqb_spec a IMXRT_FLEXSPI1_INT); [contradiction|].
    cbn [Bench.set_regs Bench.regs Bench.lookup_reg]. rewrite Z.eqb_refl.
    apply u32_small. exact Hv.
Qed.

Lemma bench_peek_lut c : peek_lut c = map u8 (resize 16 0 (Bench.lut c)).
Proof.
  unfold peek_lut. cbn [dev_read Bench.transport]. unfold Bench.read.
  change (IMXRT_FLEXSPI1_LUT_BASE =? IMXRT_FLEXSPI1_LUT_BASE) with true.
  cbn [fst]. rewrite (resize_all_alt (resize 16 0 _)) by now rewrite length_resize.
  reflexivity.
Qed.

Lemma bench_plain_lut : plain_lut.
Proof.
  split; [split|].
  - intros a c. rewrite !bench_peek_lut.
    cbn [dev_read32 Bench.transport]. now rewrite bench_lut_read32.
  - intros a n c. rewrite !bench_peek_lut.
    cbn [dev_read Bench.transport]. unfold Bench.read.
    destruct (a =? IMXRT_FLEXSPI1_LUT_BASE); [reflexivity|].
    destruct (a =? IMXRT_FLEXSPI1_PRG_READ_FIFO); reflexivity.
  - intros a v c _. rewrite !bench_peek_lut.
    cbn [dev_write32 Bench.transport]. now rewrite bench_lut_write32.
  - intros a bs c Haway. rewrite !bench_peek_lut.
    cbn [dev_write Bench.transport]. unfold Bench.write.
    destruct (Z.eqb_spec a IMXRT_FLEXSPI1_LUT_BASE) as [->|_].
    + assert (bs = []) as -> by (destruct bs; [reflexivity|cbn [List.length] in Haway; lia]).
      reflexivity.
    + destruct (a =? IMXRT_FLEXSPI1_PRG_WRITE_FIFO); reflexivity.
  - intros bs c Hlen. rewrite bench_peek_lut.
    cbn [dev_write Bench.transport]. unfold Bench.write.
    change (IMXRT_FLEXSPI1_LUT_BASE =? IMXRT_FLEXSPI1_LUT_BASE) with true.
    cbn [Bench.set_lut Bench.lut].
    rewrite take_ge by lia.
    rewrite resize_app by (rewrite length_map; lia).
    apply map_u8_idem.
Qed.

(** ** The claims on the bench *)

Lemma bench_mod_ctrl0 : plain_register IMXRT_FLEXSPI1_MOD_CTRL0.
Proof. apply bench_plain_register; vm_compute; discriminate. Qed.

Lemma bench_lut_ctrl : plain_register IMXRT_FLEXSPI1_LUT_CTRL.
Proof. apply bench_plain_register; vm_compute; discriminate. Qed.

(** The SFDP read command on the healthy bench, whose controller is
    configured for 3 column-address bits: five populated slots. *)
Lemma sequencer_program_witness :
  exists t',
    imxrt_spi_configure_sequence SPI_FLASH_CMD_READ_SFDP 0x10 8
      (Bench.attach (Some priv_zero) Bench.healthy) = Done (tt, t')
    /\ lut_writes (journal t')
       = [[0x5a; 0x04; 21; 0x08; 3; 0x0c; 8; 0x30; 0; 0x24; 0; 0; 0; 0; 0; 0]].
Proof.
  destruct (sequencer_program SPI_FLASH_CMD_READ_SFDP 0x10 8
              (Bench.attach (Some priv_zero) Bench.healthy) priv_zero)
    as (t' & Hrun & A & _); [lia|reflexivity|].
  exists t'. split; [exact Hrun|].
  rewrite (after_journal _ _ _ A). vm_compute. reflexivity.
Defined.

(** Reading the JEDEC ID on the healthy bench leaves the firmware's
    sequence in the LUT. *)
Lemma lut_save_restore_witness :
  exists buffer t',
    imxrt_spi_read 4 SPI_FLASH_CMD_READ_JEDEC_ID 0 3
      (Bench.attach (Some priv_zero) Bench.healthy) = Done (buffer, t')
    /\ peek_lut (link t') = Bench.firmware_lut.
Proof.
  eassert (Hrun : imxrt_spi_read 4 SPI_FLASH_CMD_READ_JEDEC_ID 0 3
                    (Bench.attach (Some priv_zero) Bench.healthy) = Done (_, _))
    by (vm_compute; reflexivity).
  eexists _, _. split; [exact Hrun|].
  assert (Hlen : 0 <= 3) by lia.
  destruct (proj1 lut_save_restore _ _ _ _ _ _ _ Hlen Hrun)
    as (priv & seen & window & front & _ & _ & _ & _ & _ & _ & Hlut).
  rewrite (Hlut bench_plain_lut). vm_compute. reflexivity.
Defined.

(** Entering and leaving guarded mode on a bench whose controller is
    suspended and whose LUT is locked. *)
Lemma guard_round_trip_witness :
  exists t1 t2,
    imxrt_enter_flash_mode (Bench.attach (Some priv_zero) Bench.healthy) = Done (true, t1)
    /\ imxrt_exit_flash_mode t1 = Done (true, t2)
    /\ peek32 IMXRT_FLEXSPI1_MOD_CTRL0 (link t2) = 0xffff0002
    /\ peek32 IMXRT_FLEXSPI1_LUT_CTRL (link t2) = 1.
Proof.
  destruct (guard_round_trip (Bench.attach (Some priv_zero) Bench.healthy) priv_zero)
    as (pending & t1 & t2 & Henter & Hexit & _ & _ & _ & _ & _ & Hregs); [reflexivity|].
  destruct (Hregs bench_mod_ctrl0 bench_lut_ctrl) as (_ & Hm & Hl).
  exists t1, t2. split; [exact Henter|]. split; [exact Hexit|].
  split; [rewrite Hm|rewrite Hl]; vm_compute; reflexivity.
Defined.

(** Probing the healthy bench: SFDP discovery fails there, so the region
    registered has the capacity derived from the JEDEC ID. *)
Lemma probe_flash_registration_witness :
  exists b t',
    imxrt_probe 8 (Bench.attach None Bench.healthy) = Done (b, t')
    /\ b = true
    /\ flash t' = [mk_flash 0x60000000 4194304 4096 0xff].
Proof.
  eassert (Hrun : imxrt_probe 8 (Bench.attach None Bench.healthy) = Done (_, _))
    by (vm_compute; reflexivity).
  eexists _, _. split; [exact Hrun|].
  split; [|vm_compute; reflexivity].
  exact (proj1 (probe_flash_registration 8 (Bench.attach None Bench.healthy) _ _ 3%nat
                  eq_refl eq_refl Hrun)).
Defined.

(** The original wording fails on a flash whose ID reads ef ff 16: the
    three bytes are not all 0xff, yet the probe, which returns true,
    registers no flash region and never runs flash registration: the
    heap still holds all but the one allocation of the private state,
    and no SFDP read was ever programmed into the LUT. *)
Lemma probe_partial_id_counterexample :
  exists t',
    imxrt_probe 8 (Bench.attach None Bench.partial_id) = Done (true, t')
    /\ map (take 3) (fifo_reads (journal t')) = [[0xef; 0xff; 0x16]]
    /\ [0xef; 0xff; 0x16] <> [0xff; 0xff; 0xff]
    /\ flash t' = []
    /\ heap t' = 3%nat
    /\ forallb (fun program => negb (nth 0 program 0 =? 0x5a))
         (lut_writes (journal t')) = true.
Proof.
  eexists. split; [vm_compute; reflexivity|].
  split; [vm_compute; reflexivity|].
  split; [discriminate|].
  split; [reflexivity|]. split; [reflexivity|]. vm_compute. reflexivity.
Defined.

(** A flash that ignores Write Enable: the mass erase gives up, and the
    controller is left suspended and locked as it was found. *)
Lemma mass_erase_abort_witness :
  exists t',
    imxrt_spi_mass_erase 8 (Bench.attach (Some priv_zero) Bench.write_protected)
    = Done (false, t')
    /\ peek32 IMXRT_FLEXSPI1_MOD_CTRL0 (link t') = 0xffff0002
    /\ peek32 IMXRT_FLEXSPI1_LUT_CTRL (link t') = 1.
Proof.
  eassert (Hrun : imxrt_spi_mass_erase 8
                    (Bench.attach (Some priv_zero) Bench.write_protected) = Done (_, _))
    by (vm_compute; reflexivity).
  destruct (mass_erase_abort 8 (Bench.attach (Some priv_zero) Bench.write_protected)
              _ _ priv_zero eq_refl Hrun)
    as (pending & seen1 & saved1 & ctrl1 & seen2 & saved2 & ctrl2 & window & more
        & _ & _ & _ & Hregs).
  destruct (Hregs bench_mod_ctrl0 bench_lut_ctrl) as [Hm Hl].
  eexists. split; [exact Hrun|].
  rewrite Hm, Hl. vm_compute. split; reflexivity.
Defined.

(** Registering flash on the healthy bench, whose flash carries no SFDP
    table, with the fallback capacity of the specification's example. *)
Lemma flash_geometry_fallback_witness :
  exists t1,
    imxrt_add_flash 8 8388608 (Bench.attach (Some priv_zero) Bench.healthy) = Done (tt, t1)
    /\ flash t1 = [mk_flash 0x60000000 8388608 4096 0xff].
Proof.
  eassert (Hsfdp : sfdp_read_parameters (imxrt_spi_read_sfdp 8)
                     (with_heap 3 (Bench.attach (Some priv_zero) Bench.healthy))
                   = Done (None, _))
    by (vm_compute; reflexivity).
  pose proof (proj2 (proj2 (proj2 (proj2 flash_geometry_fallback)))
                8%nat 8388608 (Bench.attach (Some priv_zero) Bench.healthy) _ 3%nat
                eq_refl Hsfdp) as Hadd.
  eexists. split; [exact Hadd|]. vm_compute. reflexivity.
Defined.

(** Reading the three JEDEC ID bytes on the healthy bench. *)
Lemma spi_read_protocol_witness :
  exists buffer t' window,
    imxrt_spi_read 4 SPI_FLASH_CMD_READ_JEDEC_ID 0 3
      (Bench.attach (Some priv_zero) Bench.healthy) = Done (buffer, t')
    /\ List.length window = 128%nat
    /\ buffer = take 3 window
    /\ buffer = [0xef; 0x40; 0x16].
Proof.
  eassert (Hrun : imxrt_spi_read 4 SPI_FLASH_CMD_READ_JEDEC_ID 0 3
                    (Bench.attach (Some priv_zero) Bench.healthy) = Done (_, _))
    by (vm_compute; reflexivity).
  assert (Hlen : 0 <= 3 <= 128) by lia.
  destruct (proj1 spi_read_protocol _ _ _ _ _ _ _ Hlen Hrun)
    as (priv & seen & window & _ & _ & Hwin & _ & Hbuf & _).
  eexists _, _, window. split; [exact Hrun|]. split; [exact Hwin|].
  split; [exact Hbuf|reflexivity].
Defined.

(** A mass erase on the healthy bench: Write Enable takes, the erase is
    polled to completion, and the result is true. *)
Lemma mass_erase_result_witness :
  exists b t' window,
    imxrt_spi_mass_erase 8 (Bench.attach (Some priv_zero) Bench.healthy) = Done (b, t')
    /\ b = Z.testbit (nth 0 window 0) 1
    /\ b = true.
Proof.
  eassert (Hrun : imxrt_spi_mass_erase 8
                    (Bench.attach (Some priv_zero) Bench.healthy) = Done (_, _))
    by (vm_compute; reflexivity).
  destruct (mass_erase_result 8 (Bench.attach (Some priv_zero) Bench.healthy)
              _ _ priv_zero eq_refl Hrun)
    as (pending & seen1 & saved1 & ctrl1 & seen2 & saved2 & ctrl2 & window & more
        & _ & Hb & _).
  eexists _, _, window. split; [exact Hrun|]. split; [exact Hb|reflexivity].
Defined.

(** * Further properties of the driver *)

(** ** Command words and the FIFO watermark (lines 86-130) *)

Lemma dummy_len_field dummy :
  IMXRT_SPI_FLASH_DUMMY_LEN dummy = Z.land (Z.shiftl dummy 8) 0xff00.
Proof.
  unfold IMXRT_SPI_FLASH_DUMMY_LEN, IMXRT_SPI_FLASH_DUMMY_SHIFT,
    IMXRT_SPI_FLASH_DUMMY_MASK, u32.
  rewrite <- Z.land_ones by lia. rewrite <- Z.land_assoc. reflexivity.
Qed.

Lemma shiftr_dummy_len dummy :
  Z.shiftr (Z.land (Z.shiftl dummy 8) 0xff00) 8 = dummy mod 256.
Proof.
  rewrite Z.shiftr_land, Z.shiftr_shiftl_l by lia.
  change (8 - 8) with 0. rewrite Z.shiftl_0_r.
  change (Z.shiftr 0xff00 8) with 0xff. apply land_byte.
Qed.

(** X13.  The command-word macros and the sequencer's decoding of a
    command word agree: a word assembled from an addressing mode, a
    direction, a dummy-cycle count and an opcode yields, under the
    masks and shifts the sequencer applies, the opcode and the dummy
    count modulo 256, the addressing mode and the direction it was
    assembled from; it fits in 18 bits; and the five command words of
    the driver are such words. *)
Theorem command_word_round_trip (addressed out : bool) (dummy opcode : Z) :
  let command :=
    imxrt_spi_flash_cmd
      (if addressed then IMXRT_SPI_FLASH_OPCODE_3B_ADDR else IMXRT_SPI_FLASH_OPCODE_ONLY)
      (if out then IMXRT_SPI_FLASH_DATA_OUT else IMXRT_SPI_FLASH_DATA_IN)
      dummy opcode in
  Z.land command IMXRT_SPI_FLASH_OPCODE_MASK = opcode mod 256
  /\ Z.shiftr (Z.land command IMXRT_SPI_FLASH_DUMMY_MASK) IMXRT_SPI_FLASH_DUMMY_SHIFT
     = dummy mod 256
  /\ (Z.land command IMXRT_SPI_FLASH_OPCODE_MODE_MASK =? IMXRT_SPI_FLASH_OPCODE_3B_ADDR)
     = addressed
  /\ (Z.land command IMXRT_SPI_FLASH_DATA_OUT =? 0) = negb out
  /\ descriptor_of command
     = mk_flash_command (opcode mod 256) (dummy mod 256)
         (if addressed then ThreeByteAddress else AddrNone)
         (if out then DirOut else DirIn)
  /\ 0 <= command < 2 ^ 18
  /\ SPI_FLASH_CMD_WRITE_ENABLE
     = imxrt_spi_flash_cmd IMXRT_SPI_FLASH_OPCODE_ONLY IMXRT_SPI_FLASH_DATA_IN 0 0x06
  /\ SPI_FLASH_CMD_CHIP_ERASE
     = imxrt_spi_flash_cmd IMXRT_SPI_FLASH_OPCODE_ONLY IMXRT_SPI_FLASH_DATA_IN 0 0x60
  /\ SPI_FLASH_CMD_READ_STATUS
     = imxrt_spi_flash_cmd IMXRT_SPI_FLASH_OPCODE_ONLY IMXRT_SPI_FLASH_DATA_IN 0 0x05
  /\ SPI_FLASH_CMD_READ_JEDEC_ID
     = imxrt_spi_flash_cmd IMXRT_SPI_FLASH_OPCODE_ONLY IMXRT_SPI_FLASH_DATA_IN 0 0x9f
  /\ SPI_FLASH_CMD_READ_SFDP
     = imxrt_spi_flash_cmd IMXRT_SPI_FLASH_OPCODE_3B_ADDR IMXRT_SPI_FLASH_DATA_IN 8 0x5a.
Proof.
  cbv zeta.
  set (command := imxrt_spi_flash_cmd _ _ dummy opcode).
  assert (Hmask : forall mask,
            Z.land command mask
            = Z.lor (Z.lor (Z.land (Z.lor
                                      (if addressed then 0x10000 else 0)
                                      (if out then 0x20000 else 0)) mask)
                       (Z.land (Z.shiftl dummy 8) (Z.land 0xff00 mask)))
                (Z.land opcode (Z.land 0xff mask))).
  { intros mask. unfold command, imxrt_spi_flash_cmd, IMXRT_SPI_FLASH_OPCODE,
      IMXRT_SPI_FLASH_OPCODE_MASK.
    rewrite dummy_len_field, !Z.land_lor_distr_l, <- !Z.land_assoc.
    destruct addressed, out; reflexivity. }
  assert (Hop : Z.land command 0xff = opcode mod 256).
  { rewrite Hmask. change (Z.land 0xff00 0xff) with 0. change (Z.land 0xff 0xff) with 0xff.
    replace (Z.land (Z.lor (if addressed then 65536 else 0) (if out then 131072 else 0))
               0xff) with 0 by (destruct addressed, out; reflexivity).
    rewrite Z.land_0_r, !Z.lor_0_l. apply land_byte. }
  assert (Hdummy : Z.shiftr (Z.land command 0xff00) 8 = dummy mod 256).
  { rewrite Hmask. change (Z.land 0xff00 0xff00) with 0xff00.
    change (Z.land 0xff 0xff00) with 0. rewrite Z.land_0_r, Z.lor_0_r.
    replace (Z.land (Z.lor (if addressed then 65536 else 0) (if out then 131072 else 0))
               0xff00) with 0 by (destruct addressed, out; reflexivity).
    rewrite Z.lor_0_l. apply shiftr_dummy_len. }
  assert (Hflags : forall mask,
            Z.land 0xff00 mask = 0 -> Z.land 0xff mask = 0 ->
            Z.land command mask
            = Z.land (Z.lor (if addressed then 0x10000 else 0)
                        (if out then 0x20000 else 0)) mask).
  { intros mask H1 H2. rewrite Hmask, H1, H2, !Z.land_0_r, !Z.lor_0_r. reflexivity. }
  assert (Hmode : (Z.land command IMXRT_SPI_FLASH_OPCODE_MODE_MASK
                   =? IMXRT_SPI_FLASH_OPCODE_3B_ADDR) = addressed).
  { rewrite Hflags by reflexivity. destruct addressed, out; reflexivity. }
  assert (Hdir : (Z.land command IMXRT_SPI_FLASH_DATA_OUT =? 0) = negb out).
  { rewrite Hflags by reflexivity. destruct addressed, out; reflexivity. }
  split; [exact Hop|]. split; [exact Hdummy|]. split; [exact Hmode|].
  split; [exact Hdir|]. split; [|split; [|repeat split]].
  - unfold descriptor_of. rewrite Hop.
    rewrite mode_bit in Hmode. rewrite direction_bit in Hdir.
    assert (Hout : Z.testbit command 17 = out)
      by (destruct (Z.testbit command 17), out; cbn in Hdir; congruence).
    rewrite Hmode, Hout.
    f_equal. rewrite <- Hdummy, Z.shiftr_land. reflexivity.
  - assert (Hfit : Z.land command (Z.ones 18) = command).
    { rewrite Hmask. change (Z.land 0xff00 (Z.ones 18)) with 0xff00.
      change (Z.land 0xff (Z.ones 18)) with 0xff.
      unfold command, imxrt_spi_flash_cmd, IMXRT_SPI_FLASH_OPCODE,
        IMXRT_SPI_FLASH_OPCODE_MASK.
      rewrite dummy_len_field. destruct addressed, out; reflexivity. }
    rewrite <- Hfit, Z.land_ones by lia. apply Z.mod_pos_bound. lia.
Qed.

(** X14.  The watermark field of the two FIFO control registers: for a
    level of 1 to 128 bytes the macro yields the number of 8-byte
    units, less one, in bits [5:2], never touching the clear-FIFO bit
    beside it; the level 128 the driver asks for gives, with the clear
    bit, the value 61; and a level of 0 wraps around to the same field
    as 128. *)
Theorem fifo_watermark_field x :
  1 <= x <= 128 ->
  IMXRT_FLEXSPI1_PRG_FIFO_CTRL_WATERMARK x = 4 * ((x + 7) / 8 - 1)
  /\ 0 <= IMXRT_FLEXSPI1_PRG_FIFO_CTRL_WATERMARK x <= 60
  /\ Z.land (IMXRT_FLEXSPI1_PRG_FIFO_CTRL_WATERMARK x) IMXRT_FLEXSPI1_PRG_FIFO_CTRL_CLR = 0
  /\ Z.lor (IMXRT_FLEXSPI1_PRG_FIFO_CTRL_WATERMARK x) IMXRT_FLEXSPI1_PRG_FIFO_CTRL_CLR
     = IMXRT_FLEXSPI1_PRG_FIFO_CTRL_WATERMARK x + 1
  /\ Z.lor (IMXRT_FLEXSPI1_PRG_FIFO_CTRL_WATERMARK 128) IMXRT_FLEXSPI1_PRG_FIFO_CTRL_CLR
     = 61
  /\ IMXRT_FLEXSPI1_PRG_FIFO_CTRL_WATERMARK 0 = IMXRT_FLEXSPI1_PRG_FIFO_CTRL_WATERMARK 128.
Proof.
  intros Hx.
  pose proof (all_below_spec 129
    (fun x =>
       (x =? 0)
       || ((IMXRT_FLEXSPI1_PRG_FIFO_CTRL_WATERMARK x =? 4 * ((x + 7) / 8 - 1))
           && (0 <=? IMXRT_FLEXSPI1_PRG_FIFO_CTRL_WATERMARK x)
           && (IMXRT_FLEXSPI1_PRG_FIFO_CTRL_WATERMARK x <=? 60)
           && (Z.land (IMXRT_FLEXSPI1_PRG_FIFO_CTRL_WATERMARK x)
                 IMXRT_FLEXSPI1_PRG_FIFO_CTRL_CLR =? 0)
           && (Z.lor (IMXRT_FLEXSPI1_PRG_FIFO_CTRL_WATERMARK x)
                 IMXRT_FLEXSPI1_PRG_FIFO_CTRL_CLR
               =? IMXRT_FLEXSPI1_PRG_FIFO_CTRL_WATERMARK x + 1)))) as Hall.
  specialize (Hall ltac:(vm_compute; reflexivity) x ltac:(lia)). cbv beta in Hall.
  apply orb_true_iff in Hall as [H0|Hall]; [apply Z.eqb_eq in H0; lia|].
  repeat (apply andb_true_iff in Hall as [Hall ?]).
  repeat match goal with
         | H : (_ =? _) = true |- _ => apply Z.eqb_eq in H
         | H : (_ <=? _) = true |- _ => apply Z.leb_le in H
         end.
  repeat split; try assumption; reflexivity.
Qed.

(** ** The state guard, beyond the round trip (lines 291-326) *)

Lemma suspend_mask_split m :
  0 <= m < 2 ^ 32 ->
  Z.lor (Z.land m 0xfffffffd) (Z.land m IMXRT_FLEXSPI1_MOD_CTRL0_SUSPEND) = m.
Proof.
  intros Hm. rewrite <- Z.land_lor_distr_r.
  change (Z.lor 0xfffffffd IMXRT_FLEXSPI1_MOD_CTRL0_SUSPEND) with (Z.ones 32).
  rewrite Z.land_ones by lia. apply Z.mod_small. exact Hm.
Qed.

Lemma suspend_cleared m : Z.testbit (Z.land m 0xfffffffd) 1 = false.
Proof. rewrite Z.land_spec. apply andb_false_r. Qed.

Lemma suspend_mask_range m : 0 <= Z.land m 0xfffffffd < 2 ^ 32.
Proof.
  pose proof (land_u32 m 0xfffffffd ltac:(lia)) as H.
  rewrite <- H. apply u32_range.
Qed.

Section GuardEffects.
Context {dev : Type} {T : Transport dev}.

(** The traffic of entering guarded mode once Module Control 0 has
    been dealt with stays clear of that register. *)
Lemma enter_tail_away pending l :
  Forall (op_away IMXRT_FLEXSPI1_MOD_CTRL0 (IMXRT_FLEXSPI1_MOD_CTRL0 + 4))
    ([Rd32 IMXRT_FLEXSPI1_INT pending;
      Wr32 IMXRT_FLEXSPI1_INT pending;
      Wr32 IMXRT_FLEXSPI1_PRG_READ_FIFO_CTRL 61;
      Wr32 IMXRT_FLEXSPI1_PRG_WRITE_FIFO_CTRL 61]
     ++ [Rd32 IMXRT_FLEXSPI1_LUT_CTRL l]
     ++ (if l =? IMXRT_FLEXSPI1_LUT_CTRL_UNLOCK
         then []
         else [Wr32 IMXRT_FLEXSPI1_LUT_KEY IMXRT_FLEXSPI1_LUT_KEY_VALUE;
               Wr32 IMXRT_FLEXSPI1_LUT_CTRL IMXRT_FLEXSPI1_LUT_CTRL_UNLOCK])).
Proof.
  destruct (l =? IMXRT_FLEXSPI1_LUT_CTRL_UNLOCK);
    repeat constructor; cbn [op_away]; map_lia.
Qed.

(** Where the two guarded registers are plain storage, entering
    guarded mode leaves the controller resumed and the LUT unlocked,
    with what both registers read before in the snapshot. *)
Lemma enter_effect (t : target_s dev) priv :
  target_storage t = Some priv ->
  plain_register IMXRT_FLEXSPI1_MOD_CTRL0 ->
  plain_register IMXRT_FLEXSPI1_LUT_CTRL ->
  exists t1,
    let m := peek32 IMXRT_FLEXSPI1_MOD_CTRL0 (link t) in
    let l := peek32 IMXRT_FLEXSPI1_LUT_CTRL (link t) in
    imxrt_enter_flash_mode t = Done (true, t1)
    /\ target_storage t1
       = Some (set_flexspi_lut_state l (set_flexspi_module_state m priv))
    /\ peek32 IMXRT_FLEXSPI1_MOD_CTRL0 (link t1) = Z.land m 0xfffffffd
    /\ peek32 IMXRT_FLEXSPI1_LUT_CTRL (link t1) = IMXRT_FLEXSPI1_LUT_CTRL_UNLOCK.
Proof.
  intros S Pm Pl.
  destruct (enter_run t priv S) as (pending & t1 & Henter & A & S1).
  cbv zeta in Henter, A, S1. exists t1. cbv zeta.
  set (m := peek32 IMXRT_FLEXSPI1_MOD_CTRL0 (link t)) in *.
  assert (Hl0 : peek32 IMXRT_FLEXSPI1_LUT_CTRL (replay (enter_head_ops m pending) (link t))
                = peek32 IMXRT_FLEXSPI1_LUT_CTRL (link t))
    by apply replay_undisturbed with (1 := reg_frame _ Pl), enter_head_away.
  rewrite Hl0 in *.
  set (l := peek32 IMXRT_FLEXSPI1_LUT_CTRL (link t)) in *.
  split; [exact Henter|]. split; [exact S1|].
  rewrite (after_link _ _ _ A). split.
  - unfold enter_ops, enter_head_ops. rewrite <- !app_assoc, app_assoc, replay_app.
    rewrite (replay_undisturbed _ _ _ _ _ (reg_frame _ Pm) (enter_tail_away pending l)).
    destruct (Z.land m IMXRT_FLEXSPI1_MOD_CTRL0_SUSPEND =? 0) eqn:Hs.
    + cbn [app replay fold_left apply_op].
      rewrite (und_read32 _ _ _ (reg_frame _ Pm)). fold m.
      apply Z.eqb_eq in Hs. pose proof (suspend_mask_split m (peek32_range _ _)) as H.
      rewrite Hs, Z.lor_0_r in H. symmetry. exact H.
    + cbn [app replay fold_left apply_op].
      apply (reg_read_back _ Pm), suspend_mask_range.
  - unfold enter_ops.
    destruct (Z.eqb_spec l IMXRT_FLEXSPI1_LUT_CTRL_UNLOCK) as [Hl|Hl].
    + cbv iota. rewrite app_nil_r, replay_snoc. cbn [apply_op].
      rewrite (und_read32 _ _ _ (reg_frame _ Pl)), Hl0. exact Hl.
    + cbv iota.
      change [Wr32 IMXRT_FLEXSPI1_LUT_KEY IMXRT_FLEXSPI1_LUT_KEY_VALUE;
              Wr32 IMXRT_FLEXSPI1_LUT_CTRL IMXRT_FLEXSPI1_LUT_CTRL_UNLOCK]
        with ([Wr32 IMXRT_FLEXSPI1_LUT_KEY IMXRT_FLEXSPI1_LUT_KEY_VALUE]
              ++ [Wr32 IMXRT_FLEXSPI1_LUT_CTRL IMXRT_FLEXSPI1_LUT_CTRL_UNLOCK]).
      rewrite !app_assoc, replay_snoc. cbn [apply_op].
      apply (reg_read_back _ Pl). vm_compute. split; congruence.
Qed.

(** X5.  Entering guarded mode on an allocated target returns true
    and, where Module Control 0 and LUT Control are plain registers,
    leaves Module Control 0 reading what it read before with the
    suspend bit (bit 1) cleared and nothing else changed, and LUT
    Control reading the unlocked value 2, whatever both read before;
    the values read before are what the private state now holds. *)
Theorem enter_flash_mode_effect (t : target_s dev) priv :
  target_storage t = Some priv ->
  plain_register IMXRT_FLEXSPI1_MOD_CTRL0 ->
  plain_register IMXRT_FLEXSPI1_LUT_CTRL ->
  exists t1,
    let m := peek32 IMXRT_FLEXSPI1_MOD_CTRL0 (link t) in
    let l := peek32 IMXRT_FLEXSPI1_LUT_CTRL (link t) in
    let m1 := peek32 IMXRT_FLEXSPI1_MOD_CTRL0 (link t1) in
    imxrt_enter_flash_mode t = Done (true, t1)
    /\ target_storage t1 = Some (mk_priv (boot_source priv) m l (flexspi_lut_seq priv))
    /\ m1 = Z.land m 0xfffffffd
    /\ Z.testbit m1 1 = false
    /\ Z.lor m1 (Z.land m IMXRT_FLEXSPI1_MOD_CTRL0_SUSPEND) = m
    /\ peek32 IMXRT_FLEXSPI1_LUT_CTRL (link t1) = 2.
Proof.
  intros S Pm Pl. destruct (enter_effect t priv S Pm Pl) as (t1 & He & S1 & Hm & Hl).
  cbv zeta in *. exists t1.
  split; [exact He|]. split; [exact S1|]. split; [exact Hm|].
  rewrite Hm. split; [apply suspend_cleared|].
  split; [apply suspend_mask_split, peek32_range|exact Hl].
Qed.

(** X6.  The guard keeps one snapshot and does not nest.  Entering
    guarded mode a second time before leaving overwrites the snapshot
    with the state the first entry produced, so that leaving, once or
    twice, leaves Module Control 0 with the suspend bit cleared and
    LUT Control unlocked: a controller found suspended, or a LUT found
    locked, is not put back. *)
Theorem enter_twice_forgets (t : target_s dev) priv :
  target_storage t = Some priv ->
  plain_register IMXRT_FLEXSPI1_MOD_CTRL0 ->
  plain_register IMXRT_FLEXSPI1_LUT_CTRL ->
  exists t1 t2 t3 t4,
    let m := peek32 IMXRT_FLEXSPI1_MOD_CTRL0 (link t) in
    let l := peek32 IMXRT_FLEXSPI1_LUT_CTRL (link t) in
    imxrt_enter_flash_mode t = Done (true, t1)
    /\ imxrt_enter_flash_mode t1 = Done (true, t2)
    /\ imxrt_exit_flash_mode t2 = Done (true, t3)
    /\ imxrt_exit_flash_mode t3 = Done (true, t4)
    /\ target_storage t4
       = Some (mk_priv (boot_source priv) (Z.land m 0xfffffffd) 2 (flexspi_lut_seq priv))
    /\ peek32 IMXRT_FLEXSPI1_MOD_CTRL0 (link t3) = Z.land m 0xfffffffd
    /\ peek32 IMXRT_FLEXSPI1_LUT_CTRL (link t3) = 2
    /\ peek32 IMXRT_FLEXSPI1_MOD_CTRL0 (link t4) = Z.land m 0xfffffffd
    /\ peek32 IMXRT_FLEXSPI1_LUT_CTRL (link t4) = 2
    /\ (Z.testbit m 1 = true -> peek32 IMXRT_FLEXSPI1_MOD_CTRL0 (link t4) <> m)
    /\ (l <> 2 -> peek32 IMXRT_FLEXSPI1_LUT_CTRL (link t4) <> l).
Proof.
  intros S Pm Pl.
  destruct (enter_effect t priv S Pm Pl) as (t1 & He1 & S1 & Hm1 & Hl1).
  cbv zeta in He1, S1, Hm1, Hl1.
  destruct (enter_effect t1 _ S1 Pm Pl) as (t2 & He2 & S2 & Hm2 & Hl2).
  cbv zeta in He2, S2, Hm2, Hl2. rewrite Hm1, Hl1 in S2.
  cbn [set_flexspi_lut_state set_flexspi_module_state boot_source flexspi_module_state
       flexspi_lut_state flexspi_lut_seq] in S2.
  set (m := peek32 IMXRT_FLEXSPI1_MOD_CTRL0 (link t)) in *.
  assert (Hidem : Z.land (Z.land m 0xfffffffd) 0xfffffffd = Z.land m 0xfffffffd)
    by (rewrite <- Z.land_assoc; reflexivity).
  rewrite Hm1, Hidem in Hm2.
  assert (Hexit : forall ti,
            target_storage ti
            = Some (mk_priv (boot_source priv) (Z.land m 0xfffffffd)
                      IMXRT_FLEXSPI1_LUT_CTRL_UNLOCK (flexspi_lut_seq priv)) ->
            peek32 IMXRT_FLEXSPI1_LUT_CTRL (link ti) = IMXRT_FLEXSPI1_LUT_CTRL_UNLOCK ->
            exists tj,
              imxrt_exit_flash_mode ti = Done (true, tj)
              /\ target_storage tj = target_storage ti
              /\ peek32 IMXRT_FLEXSPI1_MOD_CTRL0 (link tj) = Z.land m 0xfffffffd
              /\ peek32 IMXRT_FLEXSPI1_LUT_CTRL (link tj) = IMXRT_FLEXSPI1_LUT_CTRL_UNLOCK).
  { intros ti Si Hli. destruct (exit_run ti _ Si) as (tj & Hx & A & Sj).
    cbn [flexspi_module_state flexspi_lut_state] in A.
    exists tj. split; [exact Hx|]. split; [congruence|].
    rewrite (after_link _ _ _ A). unfold exit_ops.
    change (IMXRT_FLEXSPI1_LUT_CTRL_UNLOCK =? IMXRT_FLEXSPI1_LUT_CTRL_UNLOCK) with true.
    cbn [app replay fold_left apply_op].
    rewrite (u32_small _ (suspend_mask_range m)). split.
    - apply (reg_read_back _ Pm), suspend_mask_range.
    - rewrite (und_write32 _ _ _ (reg_frame _ Pl)) by map_lia. exact Hli. }
  destruct (Hexit t2 S2 Hl2) as (t3 & Hx3 & S3 & Hm3 & Hl3).
  rewrite S2 in S3.
  destruct (Hexit t3 S3 Hl3) as (t4 & Hx4 & S4 & Hm4 & Hl4).
  rewrite S3 in S4.
  exists t1, t2, t3, t4. cbv zeta. fold m.
  repeat (split; [first [assumption|reflexivity]|]).
  split.
  - intros Hbit. rewrite Hm4. intros Heq.
    pose proof (suspend_cleared m) as Hclr. rewrite Heq in Hclr. congruence.
  - intros Hne. rewrite Hl4. intros Heq. apply Hne. symmetry. exact Heq.
Qed.

End GuardEffects.

(** ** Completion of a command (lines 387-411) *)

Section Completion.
Context {dev : Type} {T : Transport dev}.

(** The poll loop ends exactly when the command-done flag shows within
    the budget. *)
Lemma poll_cmd_done_decided budget (t : target_s dev) :
  if done_within budget (link t)
  then exists t', poll_cmd_done budget t = Done (tt, t')
  else poll_cmd_done budget t = Spin.
Proof.
  revert t. induction budget as [|budget IH]; intros t; [reflexivity|].
  cbn [done_within poll_cmd_done].
  destruct (read32_run IMXRT_FLEXSPI1_INT t) as (t1 & E & A1 & _).
  rewrite (bind_run _ _ _ _ _ E).
  destruct (Z.land (peek32 IMXRT_FLEXSPI1_INT (link t)) IMXRT_FLEXSPI1_INT_PRG_CMD_DONE =? 0).
  - cbn [negb orb]. specialize (IH t1). rewrite (after_link _ _ _ A1) in IH. exact IH.
  - cbn [negb orb]. exists t1. reflexivity.
Qed.

Lemma wait_complete_decided budget (t : target_s dev) :
  if done_within budget (dev_write32 IMXRT_FLEXSPI1_PRG_CMD 1 (link t))
  then exists t', imxrt_spi_wait_complete budget t = Done (tt, t')
  else imxrt_spi_wait_complete budget t = Spin.
Proof.
  unfold imxrt_spi_wait_complete.
  destruct (write32_run IMXRT_FLEXSPI1_PRG_CMD IMXRT_FLEXSPI1_PRG_RUN t)
    as (t1 & E1 & A1 & _).
  rewrite (bind_run _ _ _ _ _ E1).
  pose proof (poll_cmd_done_decided budget t1) as Hpoll.
  rewrite (after_link _ _ _ A1) in Hpoll.
  change (replay [Wr32 IMXRT_FLEXSPI1_PRG_CMD (u32 IMXRT_FLEXSPI1_PRG_RUN)] (link t))
    with (dev_write32 IMXRT_FLEXSPI1_PRG_CMD 1 (link t)) in Hpoll.
  destruct (done_within budget (dev_write32 IMXRT_FLEXSPI1_PRG_CMD 1 (link t))).
  - destruct Hpoll as (t2 & E2). rewrite (bind_run _ _ _ _ _ E2).
    destruct (write32_run IMXRT_FLEXSPI1_INT IMXRT_FLEXSPI1_INT_PRG_CMD_DONE t2)
      as (t3 & E3 & _). exists t3. exact E3.
  - unfold bind. rewrite Hpoll. reflexivity.
Qed.

(** A completed wait, with the bound on its polls. *)
Lemma wait_inv_bounded budget (t t' : target_s dev) u :
  imxrt_spi_wait_complete budget t = Done (u, t') ->
  exists seen,
    poll_trace seen
    /\ (List.length seen <= budget)%nat
    /\ after (wait_ops seen) t t'
    /\ target_storage t' = target_storage t.
Proof.
  intros Hrun. unfold imxrt_spi_wait_complete in Hrun.
  destruct (write32_run IMXRT_FLEXSPI1_PRG_CMD IMXRT_FLEXSPI1_PRG_RUN t)
    as (t1 & E1 & A1 & S1).
  rewrite (bind_run _ _ _ _ _ E1) in Hrun.
  apply bind_done in Hrun as (u2 & t2 & Hpoll & Hrun).
  destruct (poll_cmd_done_inv _ _ _ _ Hpoll) as (seen & Hseen & Hlen & A2 & S2).
  destruct (write32_run IMXRT_FLEXSPI1_INT IMXRT_FLEXSPI1_INT_PRG_CMD_DONE t2)
    as (t3 & E3 & A3 & S3).
  rewrite E3 in Hrun. injection Hrun as _ <-.
  exists seen. split; [exact Hseen|]. split; [exact Hlen|]. split; [|congruence].
  unfold wait_ops. eapply after_app; [exact A1|]. eapply after_app; eassumption.
Qed.

(** X11.  Waiting for completion writes the run bit to the sequence
    trigger register first and then polls the interrupt status.  It
    ends exactly when the command-done flag shows at one of the first
    [budget] polls after the trigger, and otherwise polls on; it never
    reaches undefined behaviour.  When it ends it has polled at most
    [budget] times, has seen the flag on its last poll only, and has
    acknowledged it with one write of the command-done bit as its last
    transaction; the private state is not touched. *)
Theorem wait_complete_characterised budget (t : target_s dev) :
  let triggered := dev_write32 IMXRT_FLEXSPI1_PRG_CMD 1 (link t) in
  (done_within budget triggered = true
   <-> exists t', imxrt_spi_wait_complete budget t = Done (tt, t'))
  /\ (done_within budget triggered = false
      <-> imxrt_spi_wait_complete budget t = Spin)
  /\ imxrt_spi_wait_complete budget t <> Undef
  /\ (forall u t',
        imxrt_spi_wait_complete budget t = Done (u, t') ->
        exists seen,
          poll_trace seen
          /\ (List.length seen <= budget)%nat
          /\ after ([Wr32 IMXRT_FLEXSPI1_PRG_CMD 1]
                    ++ map (Rd32 IMXRT_FLEXSPI1_INT) seen
                    ++ [Wr32 IMXRT_FLEXSPI1_INT 1]) t t'
          /\ target_storage t' = target_storage t).
Proof.
  cbv zeta. pose proof (wait_complete_decided budget t) as Hdec.
  destruct (done_within budget (dev_write32 IMXRT_FLEXSPI1_PRG_CMD 1 (link t))).
  - destruct Hdec as (t' & E). rewrite E.
    split; [split; [intros _; exists t'; reflexivity|reflexivity]|].
    split; [split; discriminate|]. split; [discriminate|].
    intros u t2 H. rewrite <- E in H. exact (wait_inv_bounded _ _ _ _ H).
  - rewrite Hdec.
    split; [split; [discriminate|intros (t' & H); discriminate]|].
    split; [split; reflexivity|]. split; [discriminate|].
    intros u t2 H. discriminate.
Qed.

(** A read within the 128-byte window either spins in the poll or
    completes, as the command-done flag decides. *)
Lemma read_decided budget command address length (t : target_s dev) priv :
  0 <= length <= 128 ->
  target_storage t = Some priv ->
  let saved := peek_lut (link t) in
  let ctrl1 := peek32 IMXRT_FLEXSPI1_CTRL1
                 (replay [RdBlk IMXRT_FLEXSPI1_LUT_BASE saved] (link t)) in
  if done_within budget
       (replay (configure_ops command address length saved ctrl1
                ++ [Wr32 IMXRT_FLEXSPI1_PRG_CMD 1]) (link t))
  then exists buffer t',
         imxrt_spi_read budget command address length t = Done (buffer, t')
  else imxrt_spi_read budget command address length t = Spin.
Proof.
  intros Hlen S. cbv zeta. unfold imxrt_spi_read.
  destruct (configure_run command address length t priv (proj1 Hlen) S)
    as (t1 & E & A & S1).
  cbv zeta in E, A, S1. rewrite (bind_run _ _ _ _ _ E).
  pose proof (wait_complete_decided budget t1) as Hdec.
  rewrite (after_link _ _ _ A) in Hdec. rewrite replay_snoc. cbn [apply_op].
  destruct (done_within budget _).
  - destruct Hdec as (t2 & E2). rewrite (bind_run _ _ _ _ _ E2).
    destruct (wait_inv _ _ _ _ E2) as (seen & _ & A2 & S2). rewrite S1 in S2.
    destruct (read_run IMXRT_FLEXSPI1_PRG_READ_FIFO 128 t2) as (t3 & E3 & A3 & S3 & Hwin).
    cbv zeta in E3, Hwin. rewrite (bind_run _ _ _ _ _ E3).
    unfold memcpy_out. rewrite Hwin.
    replace (length <=? Z.of_nat 128) with true by (symmetry; apply Z.leb_le; lia).
    rewrite bind_ret.
    destruct (write32_run IMXRT_FLEXSPI1_INT IMXRT_FLEXSPI1_INT_READ_FIFO_FULL t3)
      as (t4 & E4 & A4 & S4).
    rewrite (bind_run _ _ _ _ _ E4).
    assert (S4' : target_storage t4
                  = Some (set_flexspi_lut_seq (lut_of_bytes (peek_lut (link t))) priv))
      by congruence.
    destruct (restore_run t4 _ S4') as (t5 & E5 & _).
    rewrite (bind_run _ _ _ _ _ E5). eexists _, t5. reflexivity.
  - unfold bind at 1. rewrite Hdec. reflexivity.
Qed.

(** X12.  A read of at most 128 bytes on an allocated target completes
    exactly when the command-done flag shows within the poll budget
    after the sequence has been programmed and triggered, and then
    hands back the first [length] bytes of the read-FIFO window, each
    of them a byte; otherwise it polls on.  It reaches undefined
    behaviour in neither case. *)
Theorem spi_read_completes budget command address length (t : target_s dev) priv :
  0 <= length <= 128 ->
  target_storage t = Some priv ->
  let saved := peek_lut (link t) in
  let ctrl1 := peek32 IMXRT_FLEXSPI1_CTRL1
                 (replay [RdBlk IMXRT_FLEXSPI1_LUT_BASE saved] (link t)) in
  let triggered := replay (configure_ops command address length saved ctrl1
                           ++ [Wr32 IMXRT_FLEXSPI1_PRG_CMD 1]) (link t) in
  (done_within budget triggered = true ->
   exists seen window t',
     imxrt_spi_read budget command address length t
     = Done (take (Z.to_nat length) window, t')
     /\ poll_trace seen
     /\ List.length window = 128%nat
     /\ Forall (fun byte => 0 <= byte < 256) window
     /\ after (read_ops command address length saved ctrl1 seen window) t t')
  /\ (done_within budget triggered = false ->
      imxrt_spi_read budget command address length t = Spin)
  /\ imxrt_spi_read budget command address length t <> Undef.
Proof.
  intros Hlen S. cbv zeta.
  pose proof (read_decided budget command address length t priv Hlen S) as Hdec.
  cbv zeta in Hdec.
  destruct (done_within budget _).
  - destruct Hdec as (buffer & t' & Hrun).
    split; [intros _|split; [discriminate|rewrite Hrun; discriminate]].
    destruct (read_inv _ _ _ _ _ _ _ _ (proj1 Hlen) S Hrun)
      as (seen & window & _ & Hseen & Hwin & Hwindow & Hbuf & A & _).
    cbv zeta in A. exists seen, window, t'.
    split; [rewrite Hrun, Hbuf; reflexivity|].
    split; [exact Hseen|]. split; [exact Hwin|]. split; [|exact A].
    rewrite Hwindow. apply Forall_forall. intros byte Hin.
    apply list_elem_of_In in Hin. apply in_map_iff in Hin as (raw & <- & _).
    apply u8_range.
  - split; [discriminate|]. split; [intros _; exact Hdec|rewrite Hdec; discriminate].
Qed.

End Completion.

(** ** Writes through the sequencer and the status read (lines 413-441) *)

Lemma padded_length length :
  0 <= length <= 128 -> Z.land (length + 3) (not32 3) = 4 * ((length + 3) / 4).
Proof.
  intros H.
  pose proof (all_below_spec 129
    (fun x => Z.land (x + 3) (not32 3) =? 4 * ((x + 3) / 4))) as Hall.
  specialize (Hall ltac:(vm_compute; reflexivity) length ltac:(lia)).
  apply Z.eqb_eq in Hall. exact Hall.
Qed.

(** What is staged in the write FIFO: the caller's bytes, then zeros
    up to the next multiple of four. *)
Lemma staged_padding (buffer : list Z) length :
  0 <= length <= 128 ->
  length <= Z.of_nat (List.length buffer) ->
  staged buffer length
  = take (Z.to_nat length) buffer
    ++ replicate (Z.to_nat (4 * ((length + 3) / 4) - length)) 0.
Proof.
  intros Hlen Hbuf. unfold staged. rewrite padded_length by exact Hlen.
  assert (Htake : List.length (take (Z.to_nat length) buffer) = Z.to_nat length)
    by (rewrite length_take; lia).
  assert (Hpad : length <= 4 * ((length + 3) / 4) <= length + 3)
    by (Z.to_euclidean_division_equations; lia).
  rewrite take_app_ge by lia. f_equal.
  rewrite Htake, drop_replicate, take_replicate. f_equal. lia.
Qed.

Lemma configure_ops_unaddressed command address length saved ctrl1 ctrl1' :
  Z.testbit command 16 = false ->
  configure_ops command address length saved ctrl1
  = configure_ops command address length saved ctrl1'.
Proof.
  intros H. unfold configure_ops. rewrite H.
  rewrite (program_spec_unaddressed command _ (column_bits_of ctrl1') length H).
  reflexivity.
Qed.

Lemma fifo_reads_app ops1 ops2 :
  fifo_reads (ops1 ++ ops2) = fifo_reads ops1 ++ fifo_reads ops2.
Proof.
  induction ops1 as [|op ops1 IH]; [reflexivity|].
  destruct op; cbn [app fifo_reads]; try exact IH.
  destruct (_ =? _); cbn [app]; [f_equal|]; exact IH.
Qed.

Lemma fifo_reads_rd32 a seen : fifo_reads (map (Rd32 a) seen) = [].
Proof. induction seen as [|v seen IH]; [reflexivity|exact IH]. Qed.

Lemma fifo_reads_configure command address length saved ctrl1 :
  fifo_reads (configure_ops command address length saved ctrl1) = [].
Proof. unfold configure_ops. destruct (Z.testbit command 16); reflexivity. Qed.

Lemma fifo_reads_read_ops command address length saved ctrl1 seen window :
  fifo_reads (read_ops command address length saved ctrl1 seen window) = [window].
Proof.
  unfold read_ops, wait_ops, restore_ops.
  rewrite !fifo_reads_app, fifo_reads_configure, fifo_reads_rd32. reflexivity.
Qed.




Section Writes.
Context {dev : Type} {T : Transport dev}.

(** X7.  A write through the sequencer that completes was within its
    contract (at most 128 bytes, no more than the caller's buffer
    holds) and has performed, in this order and nothing else: the
    programming of the sequence; when the length is not zero, one
    block write to the write FIFO of the caller's bytes zero-padded to
    the next multiple of four, and the acknowledgement of
    write-FIFO-empty; the trigger, the poll and its acknowledgement;
    the write-back of the saved LUT.  With length zero the FIFO is not
    touched, which is how a bare command is run.  A write of more than
    128 bytes, or of more bytes than the buffer holds, runs into
    undefined behaviour, whatever the poll budget. *)
Theorem spi_write_protocol :
  (forall budget command address buffer length (t t' : target_s dev) u,
      0 <= length ->
      imxrt_spi_write budget command address buffer length t = Done (u, t') ->
      exists priv seen,
        let saved := peek_lut (link t) in
        let ctrl1 := peek32 IMXRT_FLEXSPI1_CTRL1
                       (replay [RdBlk IMXRT_FLEXSPI1_LUT_BASE saved] (link t)) in
        target_storage t = Some priv
        /\ length <= 128
        /\ length <= Z.of_nat (List.length buffer)
        /\ poll_trace seen
        /\ after (configure_ops command address length saved ctrl1
                  ++ (if length =? 0
                      then []
                      else [WrBlk IMXRT_FLEXSPI1_PRG_WRITE_FIFO
                              (take (Z.to_nat length) buffer
                               ++ replicate (Z.to_nat (4 * ((length + 3) / 4) - length)) 0);
                            Wr32 IMXRT_FLEXSPI1_INT IMXRT_FLEXSPI1_INT_WRITE_FIFO_EMPTY])
                  ++ wait_ops seen
                  ++ restore_ops saved) t t'
        /\ 0 <= 4 * ((length + 3) / 4) - length <= 3
        /\ target_storage t' = Some (set_flexspi_lut_seq (lut_of_bytes saved) priv))
  /\ (forall budget command address buffer length (t : target_s dev),
         0 < length ->
         128 < length \/ Z.of_nat (List.length buffer) < length ->
         imxrt_spi_write budget command address buffer length t = Undef)
  /\ (forall budget command (t t' : target_s dev) u,
         imxrt_spi_run_command budget command t = Done (u, t') ->
         exists seen,
           let saved := peek_lut (link t) in
           let ctrl1 := peek32 IMXRT_FLEXSPI1_CTRL1
                          (replay [RdBlk IMXRT_FLEXSPI1_LUT_BASE saved] (link t)) in
           poll_trace seen
           /\ after (configure_ops command 0 0 saved ctrl1
                     ++ wait_ops seen ++ restore_ops saved) t t').
Proof.
  split; [|split].
  - intros budget command address buffer length t t' u Hlen Hrun.
    destruct (target_storage t) as [priv|] eqn:S;
      [|rewrite write_unallocated in Hrun by exact S; discriminate].
    destruct (write_inv _ _ _ _ _ _ _ _ _ Hlen S Hrun) as (seen & Hfit & Hseen & A & S').
    cbv zeta in A, S'. exists priv, seen. cbv zeta.
    assert (Hfit' : length <= 128 /\ length <= Z.of_nat (List.length buffer)) by lia.
    split; [reflexivity|]. split; [lia|]. split; [lia|]. split; [exact Hseen|].
    split; [|split; [Z.to_euclidean_division_equations; lia|exact S']].
    unfold write_ops in A. rewrite staged_padding in A by lia. exact A.
  - intros budget command address buffer length t Hpos Hout.
    destruct (target_storage t) as [priv|] eqn:S;
      [|apply write_unallocated; exact S].
    unfold imxrt_spi_write.
    destruct (configure_run command address length t priv ltac:(lia) S)
      as (t1 & E & _ & _).
    cbv zeta in E. rewrite (bind_run _ _ _ _ _ E).
    replace (length =? 0) with false by (symmetry; apply Z.eqb_neq; lia).
    unfold memcpy_in. rewrite length_replicate.
    replace ((length <=? Z.of_nat 128) && (length <=? Z.of_nat (List.length buffer)))
      with false; [reflexivity|].
    symmetry. apply andb_false_iff.
    destruct Hout; [left|right]; apply Z.leb_gt; lia.
  - intros budget command t t' u Hrun. unfold imxrt_spi_run_command in Hrun.
    destruct (target_storage t) as [priv|] eqn:S;
      [|rewrite write_unallocated in Hrun by exact S; discriminate].
    destruct (write_inv _ _ _ _ _ _ _ _ _ (Z.le_refl 0) S Hrun)
      as (seen & _ & Hseen & A & _).
    exists seen. cbv zeta. split; [exact Hseen|exact A].
Qed.

(** X8.  Reading the flash status runs the Read Status command for
    one byte of data: the program written to the LUT is Command 0x05,
    DummyCycles 0, Read, then Stop, whatever the controller's
    column-address setting; the status handed back is the first byte
    of the read-FIFO window, a value below 256; and the saved LUT is
    written back last. *)
Theorem read_status_byte budget (t t' : target_s dev) status :
  imxrt_spi_read_status budget t = Done (status, t') ->
  exists priv seen window,
    let saved := peek_lut (link t) in
    let ops := read_ops SPI_FLASH_CMD_READ_STATUS 0 1 saved 0 seen window in
    target_storage t = Some priv
    /\ poll_trace seen
    /\ List.length window = 128%nat
    /\ status = nth 0 window 0
    /\ 0 <= status < 256
    /\ after ops t t'
    /\ lut_writes ops
       = [[0x05; 0x04; 0; 0x30; 0; 0x24; 0; 0; 0; 0; 0; 0; 0; 0; 0; 0]; saved]
    /\ fifo_reads ops = [window].
Proof.
  intros Hrun. unfold imxrt_spi_read_status in Hrun.
  apply bind_done in Hrun as (buffer & t1 & Hread & Hret).
  injection Hret as <- <-.
  destruct (target_storage t) as [priv|] eqn:S;
    [|rewrite read_unallocated in Hread by exact S; discriminate].
  destruct (read_inv _ _ _ _ _ _ _ _ (Z.le_0_1) S Hread)
    as (seen & window & _ & Hseen & Hwin & Hwindow & Hbuf & A & _).
  cbv zeta in A.
  unfold read_ops in A.
  rewrite (configure_ops_unaddressed SPI_FLASH_CMD_READ_STATUS _ _ _ _ 0 eq_refl) in A.
  exists priv, seen, window. cbv zeta.
  assert (Hfirst : nth 0 buffer 0 = nth 0 window 0).
  { rewrite Hbuf. destruct window; [discriminate|reflexivity]. }
  split; [reflexivity|]. split; [exact Hseen|]. split; [exact Hwin|].
  split; [exact Hfirst|]. split.
  { rewrite Hfirst, Hwindow.
    destruct (resize 128 0 _) as [|raw rest] eqn:Hres; [cbn; lia|].
    cbn [map nth]. apply u8_range. }
  split; [exact A|].
  split; [|apply fifo_reads_read_ops].
  unfold read_ops, wait_ops, restore_ops.
  rewrite !lut_writes_app, configure_lut_writes, lut_writes_rd32. reflexivity.
Qed.

End Writes.

(** ** Composing runs *)

Section Composition.
Context {dev : Type} {T : Transport dev}.
















End Composition.


Section Progress.
Context {dev : Type} {T : Transport dev}.









End Progress.

(** ** What needs the private state, and nothing else (lines 291-459) *)

Section Defined.
Context {dev : Type} {T : Transport dev}.

Lemma well_defined_ret {A} (a : A) : well_defined (dev := dev) (ret a).
Proof.
  intros t p S. split; [discriminate|]. intros r t' H. injection H as _ <-. eauto.
Qed.

Lemma well_defined_spin {A} : well_defined (dev := dev) (A := A) spin.
Proof. intros t p S. split; [discriminate|]. intros r t' H. discriminate. Qed.

Lemma well_defined_bind {A B} (m : M dev A) (k : A -> M dev B) :
  well_defined m -> (forall a, well_defined (k a)) -> well_defined (bind m k).
Proof.
  intros Hm Hk t p S. destruct (Hm t p S) as [Hdef Hs]. unfold bind.
  destruct (m t) as [[a t1]| |] eqn:E.
  - destruct (Hs a t1 eq_refl) as [p1 S1]. exact (Hk a t1 p1 S1).
  - split; [discriminate|intros; discriminate].
  - contradiction.
Qed.

(** Code that always completes on an allocated target. *)
Lemma well_defined_total {A} (m : M dev A) :
  (forall t p, target_storage t = Some p ->
               exists r t' p', m t = Done (r, t') /\ target_storage t' = Some p') ->
  well_defined m.
Proof.
  intros H t p S. destruct (H t p S) as (r & t' & p' & E & S'). rewrite E.
  split; [discriminate|]. intros r0 t0 [= <- <-]. eauto.
Qed.

Lemma well_defined_enter : well_defined (dev := dev) imxrt_enter_flash_mode.
Proof.
  apply well_defined_total. intros t p S.
  destruct (enter_run t p S) as (pending & t1 & E & _ & S1). eauto.
Qed.

Lemma well_defined_exit : well_defined (dev := dev) imxrt_exit_flash_mode.
Proof.
  apply well_defined_total. intros t p S.
  destruct (exit_run t p S) as (t1 & E & _ & S1). eauto.
Qed.

Lemma well_defined_configure command address length :
  0 <= length ->
  well_defined (dev := dev) (imxrt_spi_configure_sequence command address length).
Proof.
  intros Hlen. apply well_defined_total. intros t p S.
  destruct (configure_run command address length t p Hlen S) as (t1 & E & _ & S1). eauto.
Qed.

Lemma well_defined_restore : well_defined (dev := dev) imxrt_spi_restore.
Proof.
  apply well_defined_total. intros t p S.
  destruct (restore_run t p S) as (t1 & E & _ & S1). eauto.
Qed.

Lemma well_defined_write32 a v : well_defined (target_mem_write32 a v).
Proof.
  apply well_defined_total. intros t p S.
  destruct (write32_run a v t) as (t1 & E & _ & S1). rewrite S in S1. eauto.
Qed.

Lemma well_defined_write a bs : well_defined (target_mem_write a bs).
Proof.
  apply well_defined_total. intros t p S.
  destruct (write_run a bs t) as (t1 & E & _ & S1). rewrite S in S1. eauto.
Qed.

Lemma well_defined_wait budget :
  well_defined (dev := dev) (imxrt_spi_wait_complete budget).
Proof.
  intros t p S. pose proof (wait_complete_decided budget t) as Hdec.
  destruct (done_within budget _).
  - destruct Hdec as (t' & E). rewrite E. split; [discriminate|].
    intros r t0 [= <- <-]. destruct (wait_inv _ _ _ _ E) as (seen & _ & _ & S').
    rewrite S in S'. eauto.
  - rewrite Hdec. split; [discriminate|]. intros; discriminate.
Qed.

Lemma well_defined_spi_read budget command address length :
  0 <= length <= 128 ->
  well_defined (dev := dev) (imxrt_spi_read budget command address length).
Proof.
  intros Hlen t p S.
  pose proof (read_decided budget command address length t p Hlen S) as Hdec.
  cbv zeta in Hdec. destruct (done_within budget _).
  - destruct Hdec as (buffer & t' & E). rewrite E. split; [discriminate|].
    intros r t0 [= <- <-].
    destruct (read_inv _ _ _ _ _ _ _ _ (proj1 Hlen) S E) as (seen & window & H).
    cbv zeta in H. destruct H as (_ & _ & _ & _ & _ & _ & S'). eauto.
  - rewrite Hdec. split; [discriminate|]. intros; discriminate.
Qed.

Lemma well_defined_spi_write budget command address buffer length :
  0 <= length <= 128 ->
  length <= Z.of_nat (List.length buffer) ->
  well_defined (dev := dev) (imxrt_spi_write budget command address buffer length).
Proof.
  intros Hlen Hbuf. unfold imxrt_spi_write.
  apply well_defined_bind; [apply well_defined_configure; lia|intros _].
  apply well_defined_bind; [|intros _].
  - destruct (length =? 0); [apply well_defined_ret|].
    unfold memcpy_in. rewrite length_replicate.
    replace ((length <=? Z.of_nat 128) && (length <=? Z.of_nat (List.length buffer)))
      with true
      by (symmetry; apply andb_true_iff; split; apply Z.leb_le; lia).
    apply well_defined_bind; [apply well_defined_ret|intros data].
    apply well_defined_bind; [apply well_defined_write|intros _].
    apply well_defined_write32.
  - apply well_defined_bind; [apply well_defined_wait|intros _].
    apply well_defined_restore.
Qed.

Lemma well_defined_read_status budget :
  well_defined (dev := dev) (imxrt_spi_read_status budget).
Proof.
  unfold imxrt_spi_read_status.
  apply well_defined_bind; [apply well_defined_spi_read; lia|intros buffer].
  apply well_defined_ret.
Qed.

Lemma well_defined_run_command budget command :
  well_defined (dev := dev) (imxrt_spi_run_command budget command).
Proof. apply well_defined_spi_write; cbn [List.length]; lia. Qed.

Lemma well_defined_print_progress : well_defined (dev := dev) target_print_progress.
Proof. apply well_defined_total. intros t p S. eexists _, _, p. split; reflexivity || exact S. Qed.

Lemma well_defined_poll_erase_busy budget polls :
  well_defined (dev := dev) (poll_erase_busy budget polls).
Proof.
  induction polls as [|polls IH]; [apply well_defined_spin|].
  cbn [poll_erase_busy].
  apply well_defined_bind; [apply well_defined_read_status|intros status].
  destruct (_ =? _); [apply well_defined_ret|].
  apply well_defined_bind; [apply well_defined_print_progress|intros _]. exact IH.
Qed.

Lemma well_defined_mass_erase budget :
  well_defined (dev := dev) (imxrt_spi_mass_erase budget).
Proof.
  unfold imxrt_spi_mass_erase.
  apply well_defined_bind; [apply well_defined_enter|intros _].
  apply well_defined_bind; [apply well_defined_run_command|intros _].
  apply well_defined_bind; [apply well_defined_read_status|intros status].
  destruct (_ =? _).
  - apply well_defined_bind; [apply well_defined_exit|intros _]. apply well_defined_ret.
  - apply well_defined_bind; [apply well_defined_run_command|intros _].
    apply well_defined_bind; [apply well_defined_poll_erase_busy|intros _].
    apply well_defined_exit.
Qed.

Lemma enter_unallocated (t : target_s dev) :
  target_storage t = None -> imxrt_enter_flash_mode t = Undef.
Proof.
  intros S. unfold imxrt_enter_flash_mode.
  destruct (read32_run IMXRT_FLEXSPI1_MOD_CTRL0 t) as (t1 & E & _ & S1).
  rewrite (bind_run _ _ _ _ _ E). unfold bind, modify_priv. rewrite S1, S. reflexivity.
Qed.

(** X10.  Whether the private state is allocated is all that stands
    between the driver's operations and undefined behaviour.  On a
    target whose private state is allocated, entering and leaving
    guarded mode, a read of at most 128 bytes, a write of at most 128
    bytes that the buffer holds, a bare command, the status read and
    the mass erase each either complete or are still polling when the
    budget runs out, and leave the private state allocated; on a
    target without private state each of them dereferences the null
    pointer. *)
Theorem allocation_decides_definedness budget (t : target_s dev) :
  (forall priv,
      target_storage t = Some priv ->
      (exists t', imxrt_enter_flash_mode t = Done (true, t'))
      /\ (exists t', imxrt_exit_flash_mode t = Done (true, t'))
      /\ (forall command address length,
             0 <= length <= 128 ->
             imxrt_spi_read budget command address length t <> Undef)
      /\ (forall command address buffer length,
             0 <= length <= 128 ->
             length <= Z.of_nat (List.length buffer) ->
             imxrt_spi_write budget command address buffer length t <> Undef)
      /\ (forall command, imxrt_spi_run_command budget command t <> Undef)
      /\ imxrt_spi_read_status budget t <> Undef
      /\ imxrt_spi_mass_erase budget t <> Undef
      /\ (forall b t',
             imxrt_spi_mass_erase budget t = Done (b, t') ->
             exists priv', target_storage t' = Some priv'))
  /\ (target_storage t = None ->
      imxrt_enter_flash_mode t = Undef
      /\ imxrt_exit_flash_mode t = Undef
      /\ (forall command address length,
             imxrt_spi_read budget command address length t = Undef)
      /\ (forall command address buffer length,
             imxrt_spi_write budget command address buffer length t = Undef)
      /\ (forall command, imxrt_spi_run_command budget command t = Undef)
      /\ imxrt_spi_read_status budget t = Undef
      /\ imxrt_spi_mass_erase budget t = Undef).
Proof.
  split.
  - intros priv S.
    destruct (enter_run t priv S) as (pending & t1 & E1 & _).
    destruct (exit_run t priv S) as (t2 & E2 & _).
    split; [eauto|]. split; [eauto|].
    split; [intros; now apply (well_defined_spi_read _ _ _ _ ltac:(eassumption) t priv S)|].
    split; [intros command address buffer length H1 H2;
            apply (well_defined_spi_write _ _ _ _ _ H1 H2 t priv S)|].
    split; [intros command; apply (well_defined_run_command _ _ t priv S)|].
    split; [apply (well_defined_read_status _ t priv S)|].
    split; [apply (well_defined_mass_erase _ t priv S)|].
    apply (well_defined_mass_erase _ t priv S).
  - intros S.
    split; [apply enter_unallocated, S|]. split; [apply exit_unallocated, S|].
    split; [intros; apply read_unallocated, S|].
    split; [intros; apply write_unallocated, S|].
    split; [intros; apply write_unallocated, S|].
    split.
    + unfold imxrt_spi_read_status, bind. rewrite read_unallocated by exact S. reflexivity.
    + unfold imxrt_spi_mass_erase, bind. rewrite enter_unallocated by exact S. reflexivity.
Qed.

End Defined.

(** ** The firmware's sequence survives (lines 291-459) *)

Lemma enter_ops_lut_away m pending l :
  Forall (op_away IMXRT_FLEXSPI1_LUT_BASE (IMXRT_FLEXSPI1_LUT_BASE + 16))
    (enter_ops m pending l).
Proof.
  unfold enter_ops, enter_head_ops.
  destruct (Z.land m IMXRT_FLEXSPI1_MOD_CTRL0_SUSPEND =? 0),
    (l =? IMXRT_FLEXSPI1_LUT_CTRL_UNLOCK);
    repeat constructor; cbn [op_away]; map_lia.
Qed.

Lemma exit_ops_lut_away m l :
  Forall (op_away IMXRT_FLEXSPI1_LUT_BASE (IMXRT_FLEXSPI1_LUT_BASE + 16))
    (exit_ops m l).
Proof.
  unfold exit_ops. destruct (l =? IMXRT_FLEXSPI1_LUT_CTRL_UNLOCK);
    repeat constructor; cbn [op_away]; map_lia.
Qed.

Section KeepsLut.
Context {dev : Type} {T : Transport dev} (lut_is_plain : plain_lut).

Lemma keeps_lut_ret {A} (a : A) : keeps_lut (dev := dev) (ret a).
Proof. intros t t' r p S H. injection H as _ <-. eauto. Qed.

Lemma keeps_lut_spin {A} : keeps_lut (dev := dev) (A := A) spin.
Proof. intros t t' r p S H. discriminate. Qed.

Lemma keeps_lut_bind {A B} (m : M dev A) (k : A -> M dev B) :
  keeps_lut m -> (forall a, keeps_lut (k a)) -> keeps_lut (bind m k).
Proof.
  intros Hm Hk t t' r p S Hrun. apply bind_done in Hrun as (a & t1 & H1 & H2).
  destruct (Hm _ _ _ _ S H1) as [L1 [p1 S1]].
  destruct (Hk a _ _ _ _ S1 H2) as [L2 S2]. split; [congruence|exact S2].
Qed.

Lemma keeps_lut_enter : keeps_lut (dev := dev) imxrt_enter_flash_mode.
Proof.
  intros t t' r p S Hrun.
  destruct (enter_run t p S) as (pending & t1 & E & A & S1). cbv zeta in *.
  rewrite E in Hrun. injection Hrun as _ <-. split; [|eauto].
  rewrite (after_link _ _ _ A).
  apply replay_undisturbed with (1 := lut_frame lut_is_plain), enter_ops_lut_away.
Qed.

Lemma keeps_lut_exit : keeps_lut (dev := dev) imxrt_exit_flash_mode.
Proof.
  intros t t' r p S Hrun.
  destruct (exit_run t p S) as (t1 & E & A & S1).
  rewrite E in Hrun. injection Hrun as _ <-. split; [|eauto].
  rewrite (after_link _ _ _ A).
  apply replay_undisturbed with (1 := lut_frame lut_is_plain), exit_ops_lut_away.
Qed.

Lemma keeps_lut_spi_read budget command address length :
  0 <= length ->
  keeps_lut (dev := dev) (imxrt_spi_read budget command address length).
Proof.
  intros Hlen t t' r p S Hrun.
  destruct (read_inv _ _ _ _ _ _ _ _ Hlen S Hrun) as (seen & window & H).
  cbv zeta in H. destruct H as (_ & _ & _ & _ & _ & A & S'). split; [|eauto].
  rewrite read_ops_restore in A. exact (lut_restored _ _ _ lut_is_plain A).
Qed.

Lemma keeps_lut_spi_write budget command address buffer length :
  0 <= length ->
  keeps_lut (dev := dev) (imxrt_spi_write budget command address buffer length).
Proof.
  intros Hlen t t' r p S Hrun.
  destruct (write_inv _ _ _ _ _ _ _ _ _ Hlen S Hrun) as (seen & H).
  cbv zeta in H. destruct H as (_ & _ & A & S'). split; [|eauto].
  rewrite write_ops_restore in A. exact (lut_restored _ _ _ lut_is_plain A).
Qed.

Lemma keeps_lut_read_status budget :
  keeps_lut (dev := dev) (imxrt_spi_read_status budget).
Proof.
  unfold imxrt_spi_read_status.
  apply keeps_lut_bind; [apply keeps_lut_spi_read; lia|intros buffer].
  apply keeps_lut_ret.
Qed.

Lemma keeps_lut_print_progress : keeps_lut (dev := dev) target_print_progress.
Proof. intros t t' r p S H. injection H as _ <-. eauto. Qed.

Lemma keeps_lut_poll_erase_busy budget polls :
  keeps_lut (dev := dev) (poll_erase_busy budget polls).
Proof.
  induction polls as [|polls IH]; [apply keeps_lut_spin|].
  cbn [poll_erase_busy].
  apply keeps_lut_bind; [apply keeps_lut_read_status|intros status].
  destruct (_ =? _); [apply keeps_lut_ret|].
  apply keeps_lut_bind; [apply keeps_lut_print_progress|intros _]. exact IH.
Qed.

End KeepsLut.

Section MassEraseLut.
Context {dev : Type} {T : Transport dev}.

(** X9.  A mass erase that returns, with either result, has put the
    sequence LUT back after every command it ran: where the LUT is
    plain storage that no other actor mutates, it reads after the
    erase what it read before, however many status polls the erase
    took, and the private state is still allocated. *)
Theorem mass_erase_keeps_lut budget (t t' : target_s dev) b priv :
  plain_lut ->
  target_storage t = Some priv ->
  imxrt_spi_mass_erase budget t = Done (b, t') ->
  peek_lut (link t') = peek_lut (link t)
  /\ exists priv', target_storage t' = Some priv'.
Proof.
  intros P. revert t t' b priv.
  change (keeps_lut (imxrt_spi_mass_erase budget)).
  unfold imxrt_spi_mass_erase, imxrt_spi_run_command.
  apply keeps_lut_bind; [apply keeps_lut_enter, P|intros _].
  apply keeps_lut_bind; [apply keeps_lut_spi_write; [exact P|lia]|intros _].
  apply keeps_lut_bind; [apply keeps_lut_read_status, P|intros status].
  destruct (_ =? _).
  - apply keeps_lut_bind; [apply keeps_lut_exit, P|intros _]. apply keeps_lut_ret.
  - apply keeps_lut_bind; [apply keeps_lut_spi_write; [exact P|lia]|intros _].
    apply keeps_lut_bind; [apply keeps_lut_poll_erase_busy, P|intros _].
    apply keeps_lut_exit, P.
Qed.

End MassEraseLut.

(** ** The busy poll of the mass erase (lines 454-458) *)

Section Polling.
Context {dev : Type} {T : Transport dev}.





End Polling.

(** ** The probe, beyond flash registration (lines 169-267) *)

Section ProbeRuns.
Context {dev : Type} {T : Transport dev} {F : Framework dev}.

(** Lines 203-243: a probe of a matching part with heap to spare
    continues at line 244 from the claimed handle. *)
Lemma probe_claims budget (t : target_s dev) h :
  part_id t = 0x88c ->
  heap t = S h ->
  let debug :=
    if ENABLE_DEBUG
    then [Rd32 IMXRT_SRC_BOOT_MODE2 (peek32 IMXRT_SRC_BOOT_MODE2 (link t))]
    else [] in
  let boot_cfg := peek32 IMXRT_SRC_BOOT_MODE1 (replay debug (link t)) in
  imxrt_probe budget t
  = (do! (if serial_flash_boot (imxrt_boot_source boot_cfg)
          then imxrt_probe_flash budget
          else ret tt) in
     ret true)
      (claimed_target t h (debug ++ [Rd32 IMXRT_SRC_BOOT_MODE1 boot_cfg]) boot_cfg).
Proof.
  intros Hpid Hheap. destruct t as [pid st opts drv rm fl me en ex hp pr lk jr].
  cbn [part_id heap] in Hpid, Hheap. subst.
  cbv zeta. unfold claimed_target, imxrt_probe. rewrite replay_app.
  destruct ENABLE_DEBUG;
    cbv beta iota zeta delta
      [imxrt_probe bind ret calloc negb Z.eqb Pos.eqb target_mem_read32 modify_priv
       target_add_ram get_priv with_link with_storage with_identity with_ram
       with_flash with_heap part_id target_storage target_options driver ram flash
       mass_erase enter_flash_mode exit_flash_mode heap progress link journal
       boot_source set_boot_source peek32 replay fold_left apply_op fst snd];
    rewrite <- ?app_assoc; reflexivity.
Qed.

Lemma serial_boot_nibble cfg :
  serial_flash_boot (imxrt_boot_source cfg)
  = ((cfg / 16) mod 16 =? 0) || (12 <=? (cfg / 16) mod 16).
Proof.
  rewrite boot_source_low_byte, nibble_of_byte.
  pose proof (all_below_spec 256
    (fun x => Bool.eqb (serial_flash_boot (imxrt_boot_source x))
                ((x / 16 =? 0) || (12 <=? x / 16)))) as Hall.
  specialize (Hall ltac:(vm_compute; reflexivity) (cfg mod 256)
                ltac:(apply Z.mod_pos_bound; lia)).
  apply Bool.eqb_prop in Hall. exact Hall.
Qed.

(** X1.  The probe refuses a target, returning false, in exactly two
    cases: the part number is not 0x88c, or the private state cannot
    be allocated.  In both it returns at once, leaving the target
    handle exactly as it was: no bus transaction, no allocation, no
    region, no hook, no identity. *)
Theorem probe_refusal budget (t : target_s dev) :
  (part_id t <> 0x88c \/ heap t = 0%nat -> imxrt_probe budget t = Done (false, t))
  /\ (forall b t',
         imxrt_probe budget t = Done (b, t') ->
         (b = false <-> part_id t <> 0x88c \/ heap t = 0%nat)
         /\ (b = false -> t' = t)).
Proof.
  assert (Hrefuse : part_id t <> 0x88c \/ heap t = 0%nat ->
                    imxrt_probe budget t = Done (false, t)).
  { intros Hcase. unfold imxrt_probe.
    destruct (Z.eqb_spec (part_id t) 0x88c) as [Hpid|Hpid]; [|reflexivity].
    destruct Hcase as [Hne|Hheap]; [contradiction|].
    cbn [negb]. unfold bind, calloc. rewrite Hheap. reflexivity. }
  split; [exact Hrefuse|].
  intros b t' Hrun.
  assert (Hiff : b = false <-> part_id t <> 0x88c \/ heap t = 0%nat).
  { split.
    - intros ->. destruct (Z.eq_dec (part_id t) 0x88c) as [Hpid|Hpid]; [|left; exact Hpid].
      destruct (heap t) as [|h] eqn:Hheap; [right; reflexivity|exfalso].
      rewrite (probe_claims budget t h Hpid Hheap) in Hrun.
      apply bind_done in Hrun as (u & t1 & _ & Hret). discriminate.
    - intros Hcase. rewrite (Hrefuse Hcase) in Hrun. congruence. }
  split; [exact Hiff|].
  intros Hb. apply Hiff in Hb. rewrite (Hrefuse Hb) in Hrun. congruence.
Qed.

(** X2.  A probe of a matching part that boots from anything but
    serial flash (bits [7:4] of the boot configuration between 1 and
    11) always returns true and never touches the flash controller:
    its only bus transactions are the reads of the boot registers.  It
    leaves the private state allocated and holding the boot source,
    the reset-inhibit option set, the driver named, the two OCRAM
    regions added after the RAM regions already there, and no flash
    region and no flash hook added. *)
Theorem probe_other_boot_source budget (t : target_s dev) h :
  part_id t = 0x88c ->
  heap t = S h ->
  let debug :=
    if ENABLE_DEBUG
    then [Rd32 IMXRT_SRC_BOOT_MODE2 (peek32 IMXRT_SRC_BOOT_MODE2 (link t))]
    else [] in
  let boot_cfg := peek32 IMXRT_SRC_BOOT_MODE1 (replay debug (link t)) in
  let t' := claimed_target t h (debug ++ [Rd32 IMXRT_SRC_BOOT_MODE1 boot_cfg]) boot_cfg in
  1 <= (boot_cfg / 16) mod 16 <= 11 ->
  imxrt_probe budget t = Done (true, t')
  /\ journal t' = journal t ++ debug ++ [Rd32 IMXRT_SRC_BOOT_MODE1 boot_cfg]
  /\ target_storage t'
     = Some (mk_priv (imxrt_boot_source boot_cfg) 0 0 (replicate 8 lut_stop))
  /\ serial_flash_boot (imxrt_boot_source boot_cfg) = false
  /\ target_options t' = Z.lor (target_options t) CORTEXM_TOPT_INHIBIT_NRST
  /\ driver t' = "i.MXRT10xx"%string
  /\ ram t' = ram t ++ [mk_ram 0x20280000 0x80000; mk_ram 0x20200000 0x80000]
  /\ flash t' = flash t
  /\ mass_erase t' = mass_erase t
  /\ enter_flash_mode t' = enter_flash_mode t
  /\ exit_flash_mode t' = exit_flash_mode t
  /\ heap t' = h.
Proof.
  intros Hpid Hheap. cbv zeta. intros Hnibble.
  pose proof (probe_claims budget t h Hpid Hheap) as Hrun. cbv zeta in Hrun.
  assert (Hboot : serial_flash_boot
                    (imxrt_boot_source
                       (peek32 IMXRT_SRC_BOOT_MODE1
                          (replay (if ENABLE_DEBUG
                                   then [Rd32 IMXRT_SRC_BOOT_MODE2
                                           (peek32 IMXRT_SRC_BOOT_MODE2 (link t))]
                                   else []) (link t)))) = false).
  { rewrite serial_boot_nibble. apply orb_false_iff.
    split; [apply Z.eqb_neq|apply Z.leb_gt]; lia. }
  rewrite Hboot in Hrun. split; [exact Hrun|].
  repeat split; try reflexivity. exact Hboot.
Qed.

End ProbeRuns.

Section Registration.
Context {dev : Type} {T : Transport dev} {F : Framework dev}.

Lemma after_registered ops (t t' : target_s dev) :
  after ops t t' -> registered ops [] t t'.
Proof.
  intros [J L []]. constructor; try assumption.
  - rewrite app_nil_r. assumption.
  - cbn [List.length]. lia.
Qed.

Lemma registered_trans ops1 ops2 regions1 regions2 (t t1 t2 : target_s dev) :
  registered ops1 regions1 t t1 ->
  registered ops2 regions2 t1 t2 ->
  registered (ops1 ++ ops2) (regions1 ++ regions2) t t2.
Proof.
  intros [] []. constructor; try congruence.
  - rewrite app_assoc. congruence.
  - rewrite replay_app. congruence.
  - rewrite app_assoc. congruence.
  - rewrite length_app. lia.
Qed.

Lemma registered_hooks ops regions (t t' : target_s dev) me en ex :
  registered ops regions t t' ->
  registered ops regions (with_hooks me en ex t) (with_hooks me en ex t').
Proof. intros []. constructor; assumption || reflexivity. Qed.

(** What flash registration has done when it returns, the SFDP
    decoder being contained: at most one region, out of one
    allocation. *)
Lemma add_flash_effect budget length (t t' : target_s dev) u p :
  discovery_contained budget ->
  target_storage t = Some p ->
  imxrt_add_flash budget length t = Done (u, t') ->
  exists ops regions p',
    registered ops regions t t'
    /\ guard_away ops
    /\ (List.length regions <= 1)%nat
    /\ Forall flexspi_region regions
    /\ (heap t = 0%nat -> ops = [] /\ regions = [])
    /\ target_storage t' = Some p'
    /\ flexspi_module_state p' = flexspi_module_state p
    /\ flexspi_lut_state p' = flexspi_lut_state p
    /\ (plain_lut -> peek_lut (link t') = peek_lut (link t)).
Proof.
  intros Hsfdp S Hrun. unfold imxrt_add_flash in Hrun.
  unfold bind at 1, calloc in Hrun.
  destruct (heap t) as [|h] eqn:Hheap.
  - injection Hrun as _ <-. exists [], [], p.
    split; [apply after_registered, after_nil|].
    split; [apply guard_away_nil|]. split; [cbn; lia|]. split; [constructor|].
    split; [auto|]. split; [exact S|]. split; [reflexivity|]. split; reflexivity.
  - cbn [negb] in Hrun. apply bind_done in Hrun as (found & t1 & Hfound & Hadd).
    destruct (Hsfdp (with_heap h t) t1 p found S Hfound)
      as (ops & p' & A & G & S' & Hm & Hl & Hlut).
    injection Hadd as _ <-.
    exists ops,
      [mk_flash IMXRT_FLEXSPI_BASE (capacity (imxrt_flash_geometry found length))
         (sector_size (imxrt_flash_geometry found length)) 0xff], p'.
    split.
    { destruct A as [J L []]. constructor; cbn [with_flash with_heap journal link flash
        heap part_id target_options driver ram mass_erase enter_flash_mode
        exit_flash_mode List.length] in *; try assumption; try congruence. lia. }
    split; [exact G|]. split; [cbn; lia|].
    split; [constructor; [split; reflexivity|constructor]|].
    split; [discriminate|]. split; [exact S'|]. split; [exact Hm|]. split; [exact Hl|].
    exact Hlut.
Qed.

(** X4.  Flash registration when the heap is exhausted gives up at
    once: no SFDP read, no bus transaction, no region, the handle
    untouched.  When the SFDP decoder succeeds, the region registered
    has the capacity and the sector size it reported, and the caller's
    fallback capacity is ignored.  In every case a registration that
    returns has added at most one region, at the FlexSPI base address
    with erased value 0xff and out of one allocation, after the
    regions already there. *)
Theorem add_flash_outcomes budget length (t : target_s dev) :
  (heap t = 0%nat -> imxrt_add_flash budget length t = Done (tt, t))
  /\ (forall h found t1,
         heap t = S h ->
         sfdp_read_parameters (imxrt_spi_read_sfdp budget) (with_heap h t)
         = Done (Some found, t1) ->
         imxrt_add_flash budget length t
         = Done (tt, with_flash
                       (flash t1 ++ [mk_flash IMXRT_FLEXSPI_BASE (capacity found)
                                       (sector_size found) 0xff]) t1))
  /\ (forall u t' priv,
         discovery_contained budget ->
         target_storage t = Some priv ->
         imxrt_add_flash budget length t = Done (u, t') ->
         exists ops regions,
           registered ops regions t t'
           /\ (List.length regions <= 1)%nat
           /\ Forall flexspi_region regions
           /\ (heap t = 0%nat -> ops = [] /\ regions = [])).
Proof.
  split; [|split].
  - intros Hheap. unfold imxrt_add_flash, bind, calloc. rewrite Hheap. reflexivity.
  - intros h found t1 Hheap Hfound.
    unfold imxrt_add_flash, bind at 1, calloc. rewrite Hheap. cbn [negb].
    unfold bind. rewrite Hfound. reflexivity.
  - intros u t' priv Hsfdp S Hrun.
    destruct (add_flash_effect _ _ _ _ _ _ Hsfdp S Hrun)
      as (ops & regions & p' & R & _ & Hlen & Hreg & Hnil & _).
    exists ops, regions. auto.
Qed.

(** What the serial-flash branch of the probe has done when it
    returns, the SFDP decoder being contained. *)
Lemma probe_flash_effect budget (t t' : target_s dev) u priv :
  discovery_contained budget ->
  target_storage t = Some priv ->
  imxrt_probe_flash budget t = Done (u, t') ->
  exists pending middle regions priv',
    let m := peek32 IMXRT_FLEXSPI1_MOD_CTRL0 (link t) in
    let l := peek32 IMXRT_FLEXSPI1_LUT_CTRL (replay (enter_head_ops m pending) (link t)) in
    registered (enter_ops m pending l ++ middle ++ exit_ops m l) regions
      (with_hooks (Some fn_imxrt_spi_mass_erase) (Some fn_imxrt_enter_flash_mode)
         (Some fn_imxrt_exit_flash_mode) t) t'
    /\ guard_away middle
    /\ (List.length regions <= 1)%nat
    /\ Forall flexspi_region regions
    /\ target_storage t' = Some priv'
    /\ (plain_lut -> peek_lut (link t') = peek_lut (link t)).
Proof.
  intros Hsfdp S Hrun. unfold imxrt_probe_flash in Hrun.
  destruct (enter_run t priv S) as (pending & t1 & E & A1 & S1).
  cbv zeta in E, A1, S1. rewrite (bind_run _ _ _ _ _ E) in Hrun.
  set (m := peek32 IMXRT_FLEXSPI1_MOD_CTRL0 (link t)) in *.
  set (l := peek32 IMXRT_FLEXSPI1_LUT_CTRL _) in *.
  apply bind_done in Hrun as (id_bytes & t2 & Hread & Hrun).
  assert (Hthree : 0 <= 3) by lia.
  destruct (read_inv _ _ _ _ _ _ _ _ Hthree S1 Hread)
    as (seen & window & _ & _ & _ & _ & _ & A2 & S2).
  cbv zeta in A2, S2.
  unfold bind at 1, install_hooks in Hrun.
  set (t3 := with_hooks _ _ _ t2) in *.
  assert (S3 : target_storage t3
               = Some (set_flexspi_lut_seq (lut_of_bytes (peek_lut (link t1)))
                         (set_flexspi_lut_state l (set_flexspi_module_state m priv))))
    by exact S2.
  apply bind_done in Hrun as ([] & t4 & Hmid & Hrun).
  apply bind_done in Hrun as (r & t5 & Hexit & Hret). injection Hret as _ <-.
  assert (Hmiddle : exists ops regions p4,
             registered ops regions t3 t4
             /\ guard_away ops
             /\ (List.length regions <= 1)%nat
             /\ Forall flexspi_region regions
             /\ target_storage t4 = Some p4
             /\ flexspi_module_state p4 = m
             /\ flexspi_lut_state p4 = l
             /\ (plain_lut -> peek_lut (link t4) = peek_lut (link t3))).
  { destruct (flash_id_valid (flash_id_of_bytes id_bytes)).
    - apply bind_done in Hmid as (capacity & t3' & Hshl & Hadd).
      assert (t3' = t3) as ->.
      { unfold shl1_u32 in Hshl. destruct (_ <? 32); [|discriminate].
        injection Hshl as _ <-. reflexivity. }
      destruct (add_flash_effect _ _ _ _ _ _ Hsfdp S3 Hadd)
        as (ops & regions & p4 & R & G & Hlen & Hreg & _ & S4 & Hm & Hl & Hlut).
      exists ops, regions, p4. repeat (split; [assumption|]). exact Hlut.
    - injection Hmid as <-. eexists [], [], _.
      split; [apply after_registered, after_nil|].
      split; [apply guard_away_nil|]. split; [cbn; lia|]. split; [constructor|].
      split; [exact S3|]. split; [reflexivity|]. split; reflexivity. }
  destruct Hmiddle as (ops & regions & p4 & R4 & G4 & Hlen & Hreg & S4 & Hm & Hl & Hlut4).
  destruct (exit_run t4 _ S4) as (t5' & E5 & A5 & S5).
  rewrite E5 in Hexit. injection Hexit as _ <-. rewrite Hm, Hl in A5.
  exists pending, (read_ops SPI_FLASH_CMD_READ_JEDEC_ID 0 3 (peek_lut (link t1))
                     (peek32 IMXRT_FLEXSPI1_CTRL1
                        (replay [RdBlk IMXRT_FLEXSPI1_LUT_BASE (peek_lut (link t1))]
                           (link t1))) seen window ++ ops), regions, p4.
  cbv zeta. fold m. fold l.
  split.
  { pose proof (registered_hooks _ _ _ _ (Some fn_imxrt_spi_mass_erase)
                  (Some fn_imxrt_enter_flash_mode) (Some fn_imxrt_exit_flash_mode)
                  (after_registered _ _ _ (after_app _ _ _ _ _ A1 A2))) as R3.
    fold t3 in R3.
    pose proof (registered_trans _ _ _ _ _ _ _
                  (registered_trans _ _ _ _ _ _ _ R3 R4)
                  (after_registered _ _ _ A5)) as R5.
    rewrite app_nil_r in R5. cbn [app] in R5. rewrite <- !app_assoc in R5.
    rewrite <- !app_assoc. exact R5. }
  split; [apply guard_away_app; [apply read_ops_guard_away|exact G4]|].
  split; [exact Hlen|]. split; [exact Hreg|]. split; [exact S5|].
  intros P.
  destruct (keeps_lut_exit P _ _ _ _ S4 E5) as [L5 _].
  destruct (keeps_lut_spi_read P _ _ _ _ Hthree _ _ _ _ S1 Hread) as [L2 _].
  destruct (keeps_lut_enter P _ _ _ _ S E) as [L1 _].
  rewrite L5, (Hlut4 P). change (link t3) with (link t2). congruence.
Qed.

(** X3.  A probe of a matching part that boots from serial flash
    (bits [7:4] of the boot configuration 0, or 12 and above) and
    returns, the SFDP decoder being contained, returns true with the
    mass-erase, enter and exit hooks installed, the two OCRAM regions
    added, and at most one flash region added, at the FlexSPI base
    address with erased value 0xff.  It leaves the flash controller as
    it found it: where Module Control 0 and LUT Control are plain
    registers they read what they read before the probe, and where
    the sequence LUT is plain storage it holds what it held before. *)
Theorem probe_serial_flash budget (t t' : target_s dev) b h :
  part_id t = 0x88c ->
  heap t = S h ->
  discovery_contained budget ->
  let debug :=
    if ENABLE_DEBUG
    then [Rd32 IMXRT_SRC_BOOT_MODE2 (peek32 IMXRT_SRC_BOOT_MODE2 (link t))]
    else [] in
  let boot_cfg := peek32 IMXRT_SRC_BOOT_MODE1 (replay debug (link t)) in
  (boot_cfg / 16) mod 16 = 0 \/ 12 <= (boot_cfg / 16) mod 16 ->
  imxrt_probe budget t = Done (b, t') ->
  b = true
  /\ serial_flash_boot (imxrt_boot_source boot_cfg) = true
  /\ mass_erase t' = Some fn_imxrt_spi_mass_erase
  /\ enter_flash_mode t' = Some fn_imxrt_enter_flash_mode
  /\ exit_flash_mode t' = Some fn_imxrt_exit_flash_mode
  /\ driver t' = "i.MXRT10xx"%string
  /\ ram t' = ram t ++ [mk_ram 0x20280000 0x80000; mk_ram 0x20200000 0x80000]
  /\ (exists regions,
        flash t' = flash t ++ regions
        /\ (List.length regions <= 1)%nat
        /\ (heap t' + List.length regions = h)%nat
        /\ Forall flexspi_region regions)
  /\ (plain_register IMXRT_FLEXSPI1_MOD_CTRL0 ->
      plain_register IMXRT_FLEXSPI1_LUT_CTRL ->
      peek32 IMXRT_FLEXSPI1_MOD_CTRL0 (link t')
      = peek32 IMXRT_FLEXSPI1_MOD_CTRL0 (link t)
      /\ peek32 IMXRT_FLEXSPI1_LUT_CTRL (link t')
         = peek32 IMXRT_FLEXSPI1_LUT_CTRL (link t))
  /\ (plain_lut -> peek_lut (link t') = peek_lut (link t)).
Proof.
  intros Hpid Hheap Hsfdp. cbv zeta. intros Hnibble Hrun.
  rewrite (probe_claims budget t h Hpid Hheap) in Hrun. cbv zeta in Hrun.
  set (debug := if ENABLE_DEBUG then _ else _) in *.
  set (boot_cfg := peek32 IMXRT_SRC_BOOT_MODE1 (replay debug (link t))) in *.
  assert (Hboot : serial_flash_boot (imxrt_boot_source boot_cfg) = true).
  { rewrite serial_boot_nibble. apply orb_true_iff.
    destruct Hnibble; [left; apply Z.eqb_eq|right; apply Z.leb_le]; assumption. }
  rewrite Hboot in Hrun.
  apply bind_done in Hrun as (u & t1 & Hflash & Hret). injection Hret as <- <-.
  set (ready := claimed_target t h (debug ++ [Rd32 IMXRT_SRC_BOOT_MODE1 boot_cfg]) boot_cfg)
    in *.
  destruct (probe_flash_effect budget ready t1 u _ Hsfdp eq_refl Hflash)
    as (pending & middle & regions & priv' & R & G & Hlen & Hreg & S' & Hlut).
  cbv zeta in R.
  assert (Hreads : forall lo hi,
            Forall (op_away lo hi) (debug ++ [Rd32 IMXRT_SRC_BOOT_MODE1 boot_cfg])).
  { intros lo hi. apply Forall_app. split; [|repeat constructor].
    subst debug. destruct ENABLE_DEBUG; repeat constructor. }
  split; [reflexivity|]. split; [exact Hboot|].
  split; [exact (registered_mass_erase _ _ _ _ R)|].
  split; [exact (registered_enter_flash_mode _ _ _ _ R)|].
  split; [exact (registered_exit_flash_mode _ _ _ _ R)|].
  split; [exact (registered_driver _ _ _ _ R)|].
  split; [exact (registered_ram _ _ _ _ R)|].
  split.
  { exists regions. split; [exact (registered_flash _ _ _ _ R)|].
    split; [exact Hlen|]. split; [exact (registered_heap _ _ _ _ R)|exact Hreg]. }
  split.
  - intros Pm Pl. rewrite (registered_link _ _ _ _ R).
    change (link (with_hooks _ _ _ ready)) with (link ready).
    destruct (guard_restores _ pending _ middle (link ready) Pm Pl G eq_refl eq_refl)
      as [Hm Hl].
    rewrite Hm, Hl. change (link ready) with
      (replay (debug ++ [Rd32 IMXRT_SRC_BOOT_MODE1 boot_cfg]) (link t)).
    split; [apply replay_undisturbed with (1 := reg_frame _ Pm), Hreads
           |apply replay_undisturbed with (1 := reg_frame _ Pl), Hreads].
  - intros P. rewrite (Hlut P). change (link ready) with
      (replay (debug ++ [Rd32 IMXRT_SRC_BOOT_MODE1 boot_cfg]) (link t)).
    apply replay_undisturbed with (1 := lut_frame P), Hreads.
Qed.

End Registration.

(** ** The poll budget is only a bound *)

Section BudgetIndependence.
Context {dev : Type} {T : Transport dev}.



End BudgetIndependence.

(** ** The SFDP read (lines 164-167) *)

Section Discovery.
Context {dev : Type} {T : Transport dev}.

(** X17.  The SFDP read handed to the SFDP decoder is a read through
    the sequencer with the Read SFDP command: it fetches the
    column-address bit count from Flash Control 1, programs Command
    0x5a, RowAddress with 24 less that count, ColumnAddress with the
    count when it is not zero, DummyCycles 8 and, for a length that is
    not zero, Read; writes the SFDP address to Sequence Control 0 and
    the length to Sequence Control 1; and hands back the first
    [length] bytes of the read-FIFO window. *)
Theorem read_sfdp_protocol budget address length (t t' : target_s dev) buffer :
  0 <= length <= 128 ->
  imxrt_spi_read_sfdp budget address length t = Done (buffer, t') ->
  exists priv seen window,
    let saved := peek_lut (link t) in
    let ctrl1 := peek32 IMXRT_FLEXSPI1_CTRL1
                   (replay [RdBlk IMXRT_FLEXSPI1_LUT_BASE saved] (link t)) in
    let program :=
      program_spec (mk_flash_command 0x5a 8 ThreeByteAddress DirIn)
        (column_bits_of ctrl1) length in
    target_storage t = Some priv
    /\ poll_trace seen
    /\ List.length window = 128%nat
    /\ buffer = take (Z.to_nat length) window
    /\ after ([RdBlk IMXRT_FLEXSPI1_LUT_BASE saved;
               Rd32 IMXRT_FLEXSPI1_CTRL1 ctrl1;
               WrBlk IMXRT_FLEXSPI1_LUT_BASE (lut_bytes program);
               Wr32 IMXRT_FLEXSPI1_PRG_CTRL0 (u32 address);
               Wr32 IMXRT_FLEXSPI1_PRG_CTRL1 length]
              ++ wait_ops seen
              ++ [RdBlk IMXRT_FLEXSPI1_PRG_READ_FIFO window;
                  Wr32 IMXRT_FLEXSPI1_INT IMXRT_FLEXSPI1_INT_READ_FIFO_FULL;
                  WrBlk IMXRT_FLEXSPI1_LUT_BASE saved]) t t'
    /\ (3 <= populated program <= 5)%nat
    /\ (populated program = 5%nat <-> column_bits_of ctrl1 <> 0 /\ length <> 0).
Proof.
  intros Hlen Hrun. unfold imxrt_spi_read_sfdp in Hrun.
  destruct (target_storage t) as [priv|] eqn:S;
    [|rewrite read_unallocated in Hrun by exact S; discriminate].
  destruct (read_inv _ _ _ _ _ _ _ _ (proj1 Hlen) S Hrun)
    as (seen & window & _ & Hseen & Hwin & _ & Hbuf & A & _).
  cbv zeta in A. exists priv, seen, window. cbv zeta.
  set (ctrl1 := peek32 IMXRT_FLEXSPI1_CTRL1 _) in *.
  split; [reflexivity|]. split; [exact Hseen|]. split; [exact Hwin|].
  split; [exact Hbuf|]. split.
  - unfold read_ops, configure_ops, restore_ops in A.
    change (Z.testbit SPI_FLASH_CMD_READ_SFDP 16) with true in A.
    change (descriptor_of SPI_FLASH_CMD_READ_SFDP)
      with (mk_flash_command 0x5a 8 ThreeByteAddress DirIn) in A.
    rewrite land_halfword, Z.mod_small in A by lia.
    cbn [app] in A. rewrite <- ?app_assoc in A. exact A.
  - rewrite populated_program_spec. unfold program_prefix. cbn [fc_addressing].
    destruct (Z.eqb_spec (column_bits_of ctrl1) 0) as [Hcb|Hcb],
      (Z.ltb_spec 0 length) as [Hpos|Hpos]; cbn [app List.length];
      (split; [lia|]); split; try lia; try discriminate; intros _; split; lia.
Qed.

End Discovery.

(** ** The further properties on the bench *)

(** The bench's SFDP stand-in does one SFDP read and nothing else. *)
Lemma bench_discovery_contained budget : discovery_contained (dev := Bench.chip) budget.
Proof.
  intros t t' priv found S Hrun.
  cbn [sfdp_read_parameters Bench.framework] in Hrun. unfold Bench.sfdp in Hrun.
  apply bind_done in Hrun as (header & t1 & Hread & Hret).
  assert (t' = t1) as ->.
  { destruct (decide _) in Hret; injection Hret as _ <-; reflexivity. }
  unfold imxrt_spi_read_sfdp in Hread.
  assert (Height : 0 <= 8) by lia.
  destruct (read_inv _ _ _ _ _ _ _ _ Height S Hread) as (seen & window & H).
  cbv zeta in H. destruct H as (_ & _ & _ & _ & _ & A & S').
  eexists _, _. split; [exact A|]. split; [apply read_ops_guard_away|].
  split; [exact S'|]. split; [reflexivity|]. split; [reflexivity|].
  intros P. exact (proj1 (keeps_lut_spi_read P _ _ _ _ Height _ _ _ _ S Hread)).
Qed.

(** A probe with the heap exhausted leaves the handle alone. *)
Lemma probe_refusal_witness :
  imxrt_probe 8 (with_heap 0 (Bench.attach None Bench.healthy))
  = Done (false, with_heap 0 (Bench.attach None Bench.healthy)).
Proof.
  apply (proj1 (probe_refusal 8 (with_heap 0 (Bench.attach None Bench.healthy)))).
  right. reflexivity.
Defined.

(** A part configured to boot from SD card: the probe reads the boot
    configuration and nothing else. *)
Lemma probe_other_boot_source_witness :
  exists t',
    imxrt_probe 8 (Bench.attach None (Bench.power_on 0x40 [] true 1)) = Done (true, t')
    /\ journal t' = [Rd32 IMXRT_SRC_BOOT_MODE1 0x40]
    /\ flash t' = []
    /\ enter_flash_mode t' = None.
Proof.
  pose proof (probe_other_boot_source 8
                (Bench.attach None (Bench.power_on 0x40 [] true 1)) 3 eq_refl eq_refl)
    as Hprobe.
  cbv zeta in Hprobe.
  destruct (Hprobe ltac:(vm_compute; split; discriminate))
    as (Hrun & Hj & _ & _ & _ & _ & _ & Hf & _ & He & _).
  eexists. split; [exact Hrun|]. split; [exact Hj|]. split; [exact Hf|exact He].
Defined.

(** Probing the healthy bench, which boots from serial NOR: hooks in
    place, one region, the controller suspended and locked as found. *)
Lemma probe_serial_flash_witness :
  exists t',
    imxrt_probe 8 (Bench.attach None Bench.healthy) = Done (true, t')
    /\ mass_erase t' = Some fn_imxrt_spi_mass_erase
    /\ peek32 IMXRT_FLEXSPI1_MOD_CTRL0 (link t') = 0xffff0002
    /\ peek32 IMXRT_FLEXSPI1_LUT_CTRL (link t') = 1
    /\ peek_lut (link t') = Bench.firmware_lut.
Proof.
  eassert (Hrun : imxrt_probe 8 (Bench.attach None Bench.healthy) = Done (_, _))
    by (vm_compute; reflexivity).
  epose proof (probe_serial_flash 8 (Bench.attach None Bench.healthy) _ _ 3
                eq_refl eq_refl (bench_discovery_contained 8)) as Hprobe.
  cbv zeta in Hprobe.
  destruct (Hprobe ltac:(left; vm_compute; reflexivity) Hrun)
    as (_ & _ & Hme & _ & _ & _ & _ & _ & Hregs & Hlut).
  destruct (Hregs bench_mod_ctrl0 bench_lut_ctrl) as [Hm Hl].
  eexists. split; [exact Hrun|]. split; [exact Hme|].
  rewrite Hm, Hl, (Hlut bench_plain_lut). vm_compute. repeat split; reflexivity.
Defined.

(** Registering flash with the heap exhausted. *)
Lemma add_flash_outcomes_witness :
  imxrt_add_flash 8 8388608 (with_heap 0 (Bench.attach (Some priv_zero) Bench.healthy))
  = Done (tt, with_heap 0 (Bench.attach (Some priv_zero) Bench.healthy)).
Proof.
  apply (proj1 (add_flash_outcomes 8 8388608
                  (with_heap 0 (Bench.attach (Some priv_zero) Bench.healthy)))).
  reflexivity.
Defined.

(** Entering guarded mode on the bench, found suspended and locked. *)
Lemma enter_flash_mode_effect_witness :
  exists t1,
    imxrt_enter_flash_mode (Bench.attach (Some priv_zero) Bench.healthy) = Done (true, t1)
    /\ peek32 IMXRT_FLEXSPI1_MOD_CTRL0 (link t1) = 0xffff0000
    /\ peek32 IMXRT_FLEXSPI1_LUT_CTRL (link t1) = 2.
Proof.
  destruct (enter_flash_mode_effect (Bench.attach (Some priv_zero) Bench.healthy)
              priv_zero eq_refl bench_mod_ctrl0 bench_lut_ctrl)
    as (t1 & He & _ & Hm & _ & _ & Hl).
  exists t1. split; [exact He|]. split; [rewrite Hm; vm_compute; reflexivity|exact Hl].
Defined.

(** Entering twice on the same bench: the suspend bit and the lock are
    lost for good. *)
Lemma enter_twice_forgets_witness :
  exists t1 t2 t3 t4,
    imxrt_enter_flash_mode (Bench.attach (Some priv_zero) Bench.healthy) = Done (true, t1)
    /\ imxrt_enter_flash_mode t1 = Done (true, t2)
    /\ imxrt_exit_flash_mode t2 = Done (true, t3)
    /\ imxrt_exit_flash_mode t3 = Done (true, t4)
    /\ peek32 IMXRT_FLEXSPI1_MOD_CTRL0 (link t4) = 0xffff0000
    /\ peek32 IMXRT_FLEXSPI1_LUT_CTRL (link t4) = 2.
Proof.
  destruct (enter_twice_forgets (Bench.attach (Some priv_zero) Bench.healthy)
              priv_zero eq_refl bench_mod_ctrl0 bench_lut_ctrl)
    as (t1 & t2 & t3 & t4 & H1 & H2 & H3 & H4 & _ & _ & _ & Hm & Hl & _).
  exists t1, t2, t3, t4.
  split; [exact H1|]. split; [exact H2|]. split; [exact H3|]. split; [exact H4|].
  split; [rewrite Hm; vm_compute; reflexivity|exact Hl].
Defined.

(** Five bytes through a page-program command: eight bytes staged. *)
Lemma spi_write_protocol_witness :
  exists t',
    imxrt_spi_write 4
      (imxrt_spi_flash_cmd IMXRT_SPI_FLASH_OPCODE_3B_ADDR IMXRT_SPI_FLASH_DATA_OUT 0 0x02)
      0x100 [1; 2; 3; 4; 5] 5 (Bench.attach (Some priv_zero) Bench.healthy) = Done (tt, t')
    /\ In (WrBlk IMXRT_FLEXSPI1_PRG_WRITE_FIFO [1; 2; 3; 4; 5; 0; 0; 0]) (journal t').
Proof.
  eassert (Hrun : imxrt_spi_write 4
                    (imxrt_spi_flash_cmd IMXRT_SPI_FLASH_OPCODE_3B_ADDR
                       IMXRT_SPI_FLASH_DATA_OUT 0 0x02)
                    0x100 [1; 2; 3; 4; 5] 5 (Bench.attach (Some priv_zero) Bench.healthy)
                  = Done (tt, _))
    by (vm_compute; reflexivity).
  assert (Hlen : 0 <= 5) by lia.
  destruct (proj1 spi_write_protocol _ _ _ _ _ _ _ _ Hlen Hrun)
    as (priv & seen & _ & _ & _ & _ & A & _).
  eexists. split; [exact Hrun|].
  rewrite (after_journal _ _ _ A). cbn [journal Bench.attach app].
  apply in_or_app. right. apply in_or_app. left. left. reflexivity.
Defined.

(** The status of the idle flash on the healthy bench. *)
Lemma read_status_byte_witness :
  exists status t',
    imxrt_spi_read_status 4 (Bench.attach (Some priv_zero) Bench.healthy)
    = Done (status, t')
    /\ 0 <= status < 256.
Proof.
  eassert (Hrun : imxrt_spi_read_status 4 (Bench.attach (Some priv_zero) Bench.healthy)
                  = Done (_, _))
    by (vm_compute; reflexivity).
  destruct (read_status_byte _ _ _ _ Hrun)
    as (priv & seen & window & _ & _ & _ & _ & Hrange & _).
  eexists _, _. split; [exact Hrun|exact Hrange].
Defined.

(** A whole mass erase on the healthy bench leaves the firmware's
    sequence in the LUT. *)
Lemma mass_erase_keeps_lut_witness :
  exists t',
    imxrt_spi_mass_erase 8 (Bench.attach (Some priv_zero) Bench.healthy) = Done (true, t')
    /\ peek_lut (link t') = Bench.firmware_lut.
Proof.
  eassert (Hrun : imxrt_spi_mass_erase 8 (Bench.attach (Some priv_zero) Bench.healthy)
                  = Done (true, _))
    by (vm_compute; reflexivity).
  destruct (mass_erase_keeps_lut 8 (Bench.attach (Some priv_zero) Bench.healthy)
              _ _ priv_zero bench_plain_lut eq_refl Hrun)
    as [Hlut _].
  eexists. split; [exact Hrun|]. rewrite Hlut. vm_compute. reflexivity.
Defined.

(** A mass erase on a handle without private state. *)
Lemma allocation_decides_definedness_witness :
  imxrt_spi_mass_erase 8 (Bench.attach None Bench.healthy) = Undef
  /\ imxrt_spi_mass_erase 8 (Bench.attach (Some priv_zero) Bench.healthy) <> Undef.
Proof.
  split.
  - apply (proj2 (allocation_decides_definedness 8 (Bench.attach None Bench.healthy))).
    reflexivity.
  - apply (proj1 (allocation_decides_definedness 8
                    (Bench.attach (Some priv_zero) Bench.healthy)) priv_zero).
    reflexivity.
Defined.

(** The bench raises command-done on the second poll after a trigger. *)
Lemma wait_complete_characterised_witness :
  (exists t', imxrt_spi_wait_complete 2 (Bench.attach (Some priv_zero) Bench.healthy)
              = Done (tt, t'))
  /\ imxrt_spi_wait_complete 1 (Bench.attach (Some priv_zero) Bench.healthy) = Spin.
Proof.
  split.
  - apply (proj1 (wait_complete_characterised 2
                    (Bench.attach (Some priv_zero) Bench.healthy))).
    vm_compute. reflexivity.
  - apply (proj1 (proj2 (wait_complete_characterised 1
                           (Bench.attach (Some priv_zero) Bench.healthy)))).
    vm_compute. reflexivity.
Defined.

(** Reading the JEDEC ID with a budget of two polls. *)
Lemma spi_read_completes_witness :
  exists window t',
    imxrt_spi_read 2 SPI_FLASH_CMD_READ_JEDEC_ID 0 3
      (Bench.attach (Some priv_zero) Bench.healthy)
    = Done (take 3 window, t')
    /\ List.length window = 128%nat.
Proof.
  assert (Hlen : 0 <= 3 <= 128) by lia.
  destruct (spi_read_completes 2 SPI_FLASH_CMD_READ_JEDEC_ID 0 3
              (Bench.attach (Some priv_zero) Bench.healthy) priv_zero Hlen eq_refl)
    as (Hdone & _).
  destruct (Hdone ltac:(vm_compute; reflexivity)) as (seen & window & t' & Hrun & _ & Hwin & _).
  exists window, t'. split; [exact Hrun|exact Hwin].
Defined.

(** The level the driver asks for. *)
Lemma fifo_watermark_field_witness :
  IMXRT_FLEXSPI1_PRG_FIFO_CTRL_WATERMARK 128 = 60.
Proof.
  assert (H : 1 <= 128 <= 128) by lia.
  rewrite (proj1 (fifo_watermark_field 128 H)). reflexivity.
Defined.



(** Reading the SFDP header on the healthy bench, whose controller is
    configured for three column-address bits. *)
Lemma read_sfdp_protocol_witness :
  exists buffer t',
    imxrt_spi_read_sfdp 4 0 8 (Bench.attach (Some priv_zero) Bench.healthy)
    = Done (buffer, t')
    /\ lut_writes (journal t')
       = [[0x5a; 0x04; 21; 0x08; 3; 0x0c; 8; 0x30; 0; 0x24; 0; 0; 0; 0; 0; 0];
          Bench.firmware_lut].
Proof.
  eassert (Hrun : imxrt_spi_read_sfdp 4 0 8 (Bench.attach (Some priv_zero) Bench.healthy)
                  = Done (_, _))
    by (vm_compute; reflexivity).
  assert (Hlen : 0 <= 8 <= 128) by lia.
  destruct (read_sfdp_protocol _ _ _ _ _ _ Hlen Hrun)
    as (priv & seen & window & _ & _ & _ & _ & A & _).
  eexists _, _. split; [exact Hrun|].
  rewrite (after_journal _ _ _ A). cbn [journal Bench.attach].
  unfold wait_ops. rewrite !lut_writes_app, lut_writes_rd32.
  vm_compute. reflexivity.
Defined.
